(** * Bootstrap rendezvous of the deep-learning cluster: a shallow embedding

    This development embeds [cfn-bootstrap/dl_cfn_setup_v2.py] in Rocq and
    checks the statements of the specification against it.

    The program is a sequence of polling loops over external services
    (instance metadata, two SQS queues, the autoscaling and EC2 directories)
    under a wall-clock budget.  The embedding is a state-and-exception monad:

    - the external services are an immutable [World] of oracles, the k-th
      call of an operation being answered by the k-th reply of its oracle,
      each reply carrying the time the call took;
    - the [State] holds the clock, the call counters and the chronological
      trace of effects, each stamped with the clock at which it started
      (every [LOGGER] call is recorded by level and source line, with the
      time budget where the text prints it; every service call with its
      arguments);
    - Python exceptions are values of [exn]; [SystemExit] is raised by
      [sys.exit] and is not caught by [except Exception];
    - [while True] loops take a fuel argument; running out of fuel is the
      separate outcome [OutOfFuel], which no handler catches.

    The file is read as what it is, a Python 3 program: its f-strings
    (from line 58 on) parse on Python 3.6 and later only.  The idioms of
    Python 2 it still holds keep the meaning Python 3 gives them:
    [dict.iteritems] (line 366) does not exist and the call raises
    [AttributeError]; [dict.values()] (line 384) is a view that cannot be
    subscripted, [TypeError]; [subprocess.check_output] (line 84) returns
    bytes, whose [count] refuses a [str] argument, [TypeError];
    [time.sleep] refuses a negative length with [ValueError].  The imports
    of lines 16-32 are taken to succeed.

    Conventions: timestamps and durations are integers (seconds), standing
    for the floats of [time.time()]; JSON numbers are integers; the decoded
    payload of a message stands for its body ([NotJson] when [json.loads]
    rejects the text).  The clock moves during the calls that poll a service
    (metadata, receive, groups, reservations), by the time of the reply, and
    during [time.sleep], by the length asked; a call to a service returns its
    reply and does not raise, and the connections to a region and the
    lookups of a queue (lines 125-126, 187-188, 236-237, 405-406) succeed
    and leave no event.  A dict keeps its keys in insertion order; the
    program sorts, or looks up by key, wherever the order could show. *)

From Stdlib Require Import ZArith List String Ascii Bool Lia.
From Stdlib Require Import Permutation Sorted.
From Stdlib Require Import DecimalString.
Import ListNotations.

Local Open Scope Z_scope.

(** ** Python values *)

Module Py.

(** What [json.loads] returns: [None], [bool], [int], [str], [list],
    [dict].  A dict is an association list searched from its head. *)
#[warnings="-register-all"]
Inductive json : Type :=
| JNull
| JBool (b : bool)
| JNum (n : Z)
| JStr (s : string)
| JArr (l : list json)
| JObj (o : list (string * json)).

Inductive exn : Type :=
| KeyError
| TypeError
| ValueError
| AttributeError
| IndexError
| IOError
| SystemExit (code : Z).

(** [except Exception] catches everything but [SystemExit]. *)
Definition is_Exception (e : exn) : bool :=
  match e with SystemExit _ => false | _ => true end.

Inductive res (A : Type) : Type :=
| Ok (a : A)
| Raise (e : exn)
| OutOfFuel.
Arguments Ok {A} a.
Arguments Raise {A} e.
Arguments OutOfFuel {A}.

Fixpoint assoc {V : Type} (k : string) (o : list (string * V)) : option V :=
  match o with
  | [] => None
  | (k', v) :: t => if String.eqb k k' then Some v else assoc k t
  end.

Fixpoint assoc_del {V : Type} (k : string) (o : list (string * V))
  : list (string * V) :=
  match o with
  | [] => []
  | (k', v) :: t =>
      if String.eqb k k' then assoc_del k t else (k', v) :: assoc_del k t
  end.

(** [d[k]] for a string key: [KeyError] on a dict without the key,
    [TypeError] on anything that is not a dict. *)
Definition getitem (j : json) (k : string) : res json :=
  match j with
  | JObj o => match assoc k o with Some v => Ok v | None => Raise KeyError end
  | _ => Raise TypeError
  end.

(** [del d[k]]. *)
Definition delitem (j : json) (k : string) : res json :=
  match j with
  | JObj o => match assoc k o with
              | Some _ => Ok (JObj (assoc_del k o))
              | None => Raise KeyError
              end
  | _ => Raise TypeError
  end.

(** [j == 'text'] against a string literal. *)
Definition eq_str (j : json) (s : string) : bool :=
  match j with JStr t => String.eqb t s | _ => false end.

Definition is_None (j : json) : bool :=
  match j with JNull => true | _ => false end.

(** Lists and dicts are unhashable. *)
Definition hashable (j : json) : bool :=
  match j with JArr _ | JObj _ => false | _ => true end.

(** [a == b] where one side is a scalar, also the equality of dict keys;
    [True == 1], [False == 0]. *)
Definition key_eqb (a b : json) : bool :=
  match a, b with
  | JNull, JNull => true
  | JBool x, JBool y => Bool.eqb x y
  | JNum x, JNum y => x =? y
  | JStr x, JStr y => String.eqb x y
  | JBool x, JNum y => (if x then 1 else 0) =? y
  | JNum x, JBool y => x =? (if y then 1 else 0)
  | _, _ => false
  end.

(** [str.lower] on ASCII text. *)
Definition lower_ascii (c : ascii) : ascii :=
  let n := nat_of_ascii c in
  if (Nat.leb 65 n && Nat.leb n 90)%bool then ascii_of_nat (n + 32) else c.

Fixpoint lower (s : string) : string :=
  match s with
  | EmptyString => EmptyString
  | String c t => String (lower_ascii c) (lower t)
  end.

(** [sub in s] on strings. *)
Fixpoint contains (sub s : string) : bool :=
  (String.prefix sub s
   || match s with
      | EmptyString => false
      | String _ t => contains sub t
      end)%bool.

(** [key.lower()]: only strings have the method. *)
Definition lower_of (j : json) : res string :=
  match j with JStr s => Ok (lower s) | _ => Raise AttributeError end.

(** [list.remove(x)]: drops the first occurrence, [ValueError] if absent. *)
Fixpoint list_remove (x : string) (l : list string) : res (list string) :=
  match l with
  | [] => Raise ValueError
  | y :: t => if String.eqb x y then Ok t
              else match list_remove x t with
                   | Ok t' => Ok (y :: t')
                   | Raise e => Raise e
                   | OutOfFuel => OutOfFuel
                   end
  end.

Definition mem (x : string) (l : list string) : bool :=
  existsb (String.eqb x) l.

(** [d[k] = v] on a dict keyed by strings. *)
Fixpoint dict_set (k v : string) (d : list (string * string))
  : list (string * string) :=
  match d with
  | [] => [(k, v)]
  | (k', v') :: t =>
      if String.eqb k k' then (k', v) :: t else (k', v') :: dict_set k v t
  end.

Definition values {K V : Type} (d : list (K * V)) : list V := map snd d.

(** [d.iteritems()]: a dict has no such method, the attribute lookup raises
    [AttributeError]. *)
Definition iteritems {K V : Type} (d : list (K * V)) : res (list (K * V)) :=
  Raise AttributeError.

(** [d.values()[i]]: the view of the values cannot be subscripted. *)
Definition values_getitem {K V : Type} (d : list (K * V)) (i : nat) : res V :=
  Raise TypeError.

(** [sorted] on a list of strings: the ascending rearrangement. *)
Fixpoint insert_sorted (x : string) (l : list string) : list string :=
  match l with
  | [] => [x]
  | y :: t => if String.leb x y then x :: l else y :: insert_sorted x t
  end.

Fixpoint sorted (l : list string) : list string :=
  match l with
  | [] => []
  | x :: t => insert_sorted x (sorted t)
  end.

End Py.
Import Py.

(** ** The outside world and the program state *)

(** A message of a queue: its receipt identity and its body, given by what
    [json.loads] makes of it. *)
Inductive payload : Type :=
| NotJson
| Json (j : json).

Record message : Type := { msg_id : nat; msg_body : payload }.

(** [boto.ec2.autoscale]: a group and its instances. *)
Record asg_instance : Type :=
  { instance_id : string; health_status : string }.
Record asg : Type :=
  { asg_name : string; asg_instances : list asg_instance }.

(** [boto.ec2]: an instance of a reservation, and one page of reservations. *)
Record instance : Type :=
  { id : string; state : string; private_ip_address : string }.
Record page : Type :=
  { reservations : list (list instance); page_token : option string }.

Record reply (A : Type) : Type := { value : A; took : Z }.
Arguments value {A} r.
Arguments took {A} r.
Arguments Build_reply {A} value took.

Record World : Type :=
  { metadata : nat -> reply json;
    queue : string -> nat -> reply (list message);
    groups : list json -> reply (list asg);
    directory : nat -> reply page;
    setup_env_ok : bool;
    cfn_signal_ok : bool }.

Inductive level : Type := Info | Error | Exception.

Inductive event : Type :=
| ELog (lvl : level) (line : nat)
| ELogTimeout (lvl : level) (line : nat) (timeout : Z)
| EMetadata
| EReceive (queue_name : string) (visibility_timeout : Z)
| EDelete (queue_name : string) (m : message)
| ESend (queue_name : string) (body : json)
| EGroups (names : list json)
| EReservations (instance_ids : list string) (next_token : option string)
| ESleep (seconds : Z)
| ESetupEnv (master_ip worker_ips : json)
| ECfnSignal.

Record State : Type :=
  { now : Z;
    n_metadata : nat;
    n_receive : nat;
    n_directory : nat;
    trace : list (Z * event) }.

Definition initial (t0 : Z) : State :=
  {| now := t0; n_metadata := 0; n_receive := 0; n_directory := 0;
     trace := [] |}.

(** ** The monad *)

Definition M (A : Type) : Type := State -> res A * State.

Definition ret {A : Type} (a : A) : M A := fun s => (Ok a, s).

Definition bind {A B : Type} (m : M A) (k : A -> M B) : M B :=
  fun s =>
    match m s with
    | (Ok a, s') => k a s'
    | (Raise e, s') => (Raise e, s')
    | (OutOfFuel, s') => (OutOfFuel, s')
    end.

Declare Scope py_scope.
Delimit Scope py_scope with py.
Notation "x <- c1 ;; c2" := (bind c1 (fun x => c2))
  (at level 61, c1 at next level, right associativity) : py_scope.
Notation "' pat <- c1 ;; c2" :=
  (bind c1 (fun x => match x with pat => c2 end))
  (at level 61, pat pattern, c1 at next level, right associativity) : py_scope.
Notation "c1 ;; c2" := (bind c1 (fun _ => c2))
  (at level 61, right associativity) : py_scope.
Local Open Scope py_scope.

Definition raise {A : Type} (e : exn) : M A := fun s => (Raise e, s).

Definition out_of_fuel {A : Type} : M A := fun s => (OutOfFuel, s).

(** A pure Python expression that may raise. *)
Definition lift {A : Type} (r : res A) : M A := fun s => (r, s).

(** [try: body except <catches>: handler]. *)
Definition try_except {A : Type} (body : M A) (catches : exn -> bool)
  (handler : exn -> M A) : M A :=
  fun s =>
    match body s with
    | (Raise e, s') => if catches e then handler e s' else (Raise e, s')
    | r => r
    end.

(** The state after an effect [e] that starts now. *)
Definition push (e : event) (s : State) : State :=
  {| now := now s; n_metadata := n_metadata s; n_receive := n_receive s;
     n_directory := n_directory s; trace := trace s ++ [(now s, e)] |}.

(** The state [d] seconds later. *)
Definition elapse (d : Z) (s : State) : State :=
  {| now := now s + d; n_metadata := n_metadata s; n_receive := n_receive s;
     n_directory := n_directory s; trace := trace s |}.

Definition count_metadata (s : State) : State :=
  {| now := now s; n_metadata := S (n_metadata s); n_receive := n_receive s;
     n_directory := n_directory s; trace := trace s |}.

Definition count_receive (s : State) : State :=
  {| now := now s; n_metadata := n_metadata s; n_receive := S (n_receive s);
     n_directory := n_directory s; trace := trace s |}.

Definition count_directory (s : State) : State :=
  {| now := now s; n_metadata := n_metadata s; n_receive := n_receive s;
     n_directory := S (n_directory s); trace := trace s |}.

Definition emit (e : event) : M unit := fun s => (Ok tt, push e s).

Definition log (lvl : level) (line : nat) : M unit := emit (ELog lvl line).

(** A [LOGGER] call whose text prints the time budget. *)
Definition log_timeout (lvl : level) (line : nat) (timeout : Z) : M unit :=
  emit (ELogTimeout lvl line timeout).

(** [time.time()]. *)
Definition time_time : M Z := fun s => (Ok (now s), s).

Definition advance (d : Z) : M unit := fun s => (Ok tt, elapse d s).

(** [time.sleep(d)]: a negative length is refused with [ValueError]. *)
Definition time_sleep (d : Z) : M unit :=
  if d <? 0 then raise ValueError else (emit (ESleep d) ;; advance d).

(** [sys.exit(code)]. *)
Definition sys_exit {A : Type} (code : Z) : M A := raise (SystemExit code).

Definition SLEEP_INTERVAL_IN_SECS : Z := 30.

(** ** The program *)

Section Program.

Variable W : World.

(** *** External calls *)

(** [boto.utils.get_instance_metadata(...)]. *)
Definition get_instance_metadata : M json :=
  fun s =>
    let r := metadata W (n_metadata s) in
    (Ok (value r), elapse (took r) (count_metadata (push EMetadata s))).

(** [sqs_con.receive_message(queue, number_messages=10, visibility_timeout)]. *)
Definition receive_message (queue_name : string) (visibility_timeout : Z)
  : M (list message) :=
  fun s =>
    let r := queue W queue_name (n_receive s) in
    (Ok (value r),
     elapse (took r)
       (count_receive (push (EReceive queue_name visibility_timeout) s))).

(** [sqs_con.delete_message(queue, message)]. *)
Definition delete_message (queue_name : string) (m : message) : M unit :=
  emit (EDelete queue_name m).

(** [sqs_con.send_message(queue, message_content)]. *)
Definition send_message (queue_name : string) (body : json) : M unit :=
  emit (ESend queue_name body).

(** [autoscale_con.get_all_groups(names)]. *)
Definition get_all_groups (names : list json) : M (list asg) :=
  fun s =>
    let r := groups W names in
    (Ok (value r), elapse (took r) (push (EGroups names) s)).

(** [ec2_con.get_all_reservations(instance_ids, next_token)]. *)
Definition get_all_reservations (instance_ids : list string)
  (next_token : option string) : M page :=
  fun s =>
    let r := directory W (n_directory s) in
    (Ok (value r),
     elapse (took r)
       (count_directory (push (EReservations instance_ids next_token) s))).

(** [json.loads(msg_body)]: [ValueError] on text that is not JSON. *)
Definition json_loads (b : payload) : M json :=
  match b with
  | NotJson => raise ValueError
  | Json j => ret j
  end.

(** *** wait_until_asg_success (lines 120-180) *)

(** The ledger [asg_success_message]: a dict from the value of the ['asg']
    field to the whole notice, in insertion order. *)
Definition ledger : Type := list (json * json).

Definition ledger_has (k : json) (l : ledger) : bool :=
  existsb (fun e => key_eqb k (fst e)) l.

(** [k in asg_success_message]: hashing an unhashable key is a
    [TypeError]. *)
Definition ledger_mem (k : json) (l : ledger) : res bool :=
  if hashable k then Ok (ledger_has k l) else Raise TypeError.

Definition catches_type_or_key (e : exn) : bool :=
  match e with TypeError | KeyError => true | _ => false end.

(** Lines 145-157: the merge of one decoded payload into the ledger. *)
Definition asg_merge (content : json) (l : ledger) : M ledger :=
  if is_None content then ret l
  else
    ev <- lift (getitem content "event") ;;
    if negb (eq_str ev "asg-setup") then ret l
    else
      st <- lift (getitem content "status") ;;
      if negb (eq_str st "success") then ret l
      else
        k <- lift (getitem content "asg") ;;
        known <- lift (ledger_mem k l) ;;
        if negb known then (log Info 149 ;; ret (l ++ [(k, content)]))
        else (log Info 155 ;; ret l).

(** Lines 141-163: the body of [for msg in recvd_messages]. *)
Definition asg_handle_message (queue_name : string) (msg : message)
  (l : ledger) : M ledger :=
  log Info 142 ;;
  try_except
    (content <- json_loads (msg_body msg) ;;
     l' <- asg_merge content l ;;
     delete_message queue_name msg ;;
     ret l')
    catches_type_or_key
    (fun _ => log Exception 161 ;; log Error 162 ;; ret l).

Fixpoint asg_handle_batch (queue_name : string) (msgs : list message)
  (l : ledger) : M ledger :=
  match msgs with
  | [] => ret l
  | msg :: rest =>
      l' <- asg_handle_message queue_name msg l ;;
      asg_handle_batch queue_name rest l'
  end.

(** Lines 132-178: the [while True] loop. *)
Fixpoint asg_loop (fuel : nat) (queue_name : string)
  (start_time timeout next_execution_ts : Z) (l : ledger) : M ledger :=
  match fuel with
  | O => out_of_fuel
  | S fuel' =>
      log Info 133 ;;
      recvd_messages <- receive_message queue_name 60 ;;
      log Info 139 ;;
      l' <- asg_handle_batch queue_name recvd_messages l ;;
      if Nat.eqb (List.length l') 2 then (log Info 166 ;; ret l')
      else
        let next_execution_ts := next_execution_ts + SLEEP_INTERVAL_IN_SECS in
        if next_execution_ts >? start_time + timeout
        then (log_timeout Info 171 timeout ;; ret l')
        else
          log Info 174 ;;
          t <- time_time ;;
          time_sleep (next_execution_ts - t) ;;
          asg_loop fuel' queue_name start_time timeout next_execution_ts l'
  end.

Definition wait_until_asg_success (fuel : nat) (master_queue_name : string)
  (timeout : Z) : M ledger :=
  log_timeout Info 121 timeout ;;
  start_time <- time_time ;;
  asg_loop fuel master_queue_name start_time timeout start_time [].

(** *** wait_for_worker_setup_message (lines 182-228) *)

(** Lines 199-212: the body of [for msg in recvd_messages]; [Some] is the
    [return] of line 208, [None] falls through to the next message. *)
Definition worker_handle_message (msg : message) : M (option (json * json)) :=
  log Info 200 ;;
  try_except
    (content <- json_loads (msg_body msg) ;;
     skip <- (if is_None content then ret true
              else ev <- lift (getitem content "event") ;;
                   ret (negb (eq_str ev "worker-setup"))) ;;
     if skip : bool then ret None
     else
       log Info 206 ;;
       master_ip <- lift (getitem content "master-ip") ;;
       worker_ips <- lift (getitem content "worker-ips") ;;
       ret (Some (master_ip, worker_ips)))
    catches_type_or_key
    (fun _ => log Error 210 ;; log Error 211 ;; ret None).

Fixpoint worker_handle_batch (msgs : list message)
  : M (option (json * json)) :=
  match msgs with
  | [] => ret None
  | msg :: rest =>
      r <- worker_handle_message msg ;;
      match r with
      | Some found => ret (Some found)
      | None => worker_handle_batch rest
      end
  end.

(** Lines 193-226.  The result is Python's: [None], or a pair. *)
Fixpoint worker_loop (fuel : nat) (queue_name : string)
  (start_time timeout next_execution_ts : Z) : M (option (json * json)) :=
  match fuel with
  | O => out_of_fuel
  | S fuel' =>
      log Info 194 ;;
      recvd_messages <- receive_message queue_name 0 ;;
      log Info 197 ;;
      r <- worker_handle_batch recvd_messages ;;
      match r with
      | Some found => ret (Some found)
      | None =>
          let next_execution_ts := next_execution_ts + SLEEP_INTERVAL_IN_SECS in
          if next_execution_ts >? start_time + timeout
          then (log_timeout Info 216 timeout ;; ret None)
          else
            log Info 222 ;;
            t <- time_time ;;
            time_sleep (next_execution_ts - t) ;;
            worker_loop fuel' queue_name start_time timeout next_execution_ts
      end
  end.

Definition wait_for_worker_setup_message (fuel : nat)
  (worker_queue_name : string) (timeout : Z) : M (option (json * json)) :=
  log_timeout Info 183 timeout ;;
  start_time <- time_time ;;
  worker_loop fuel worker_queue_name start_time timeout start_time.

(** *** wait_until_instances_active (lines 230-326) *)

Definition ipmap : Type := list (string * string).

(** Lines 251-255. *)
Definition healthy_ids (g : asg) : list string :=
  map instance_id
    (filter (fun i => String.eqb (health_status i) "Healthy")
       (asg_instances g)).

(** Lines 250-263: [for asg in groups]. *)
Fixpoint split_groups (gs : list asg) (master_instance_ids
  worker_instance_ids : list string) : M (list string * list string) :=
  match gs with
  | [] => ret (master_instance_ids, worker_instance_ids)
  | g :: rest =>
      let instance_ids := healthy_ids g in
      if contains "master" (lower (asg_name g))
      then split_groups rest (master_instance_ids ++ instance_ids)
             worker_instance_ids
      else
        log Info 261 ;;
        split_groups rest master_instance_ids
          (worker_instance_ids ++ instance_ids)
  end.

(** The three objects the loop mutates. *)
Record resolution : Type :=
  { pending_instance_ids : list string;
    master_instances : ipmap;
    worker_instances : ipmap }.

(** Lines 280-297: the body of [for i in r.instances]. *)
Definition resolve_instance (master_instance_ids worker_instance_ids
  : list string) (i : instance) (r : resolution) : M resolution :=
  if String.eqb (lower (state i)) "running" then
    r1 <- (if mem (id i) master_instance_ids then
             log Info 282 ;;
             ret {| pending_instance_ids := pending_instance_ids r;
                    master_instances :=
                      dict_set (id i) (private_ip_address i)
                        (master_instances r);
                    worker_instances := worker_instances r |}
           else if mem (id i) worker_instance_ids then
             log Info 288 ;;
             log Info 293 ;;
             ret {| pending_instance_ids := pending_instance_ids r;
                    master_instances := master_instances r;
                    worker_instances :=
                      dict_set (id i) (private_ip_address i)
                        (worker_instances r) |}
           else ret r) ;;
    pending <- lift (list_remove (id i) (pending_instance_ids r1)) ;;
    ret {| pending_instance_ids := pending;
           master_instances := master_instances r1;
           worker_instances := worker_instances r1 |}
  else if String.eqb (lower (state i)) "pending" then
    log Info 296 ;; ret r
  else ret r.

Fixpoint resolve_instances (master_instance_ids worker_instance_ids
  : list string) (insts : list instance) (r : resolution) : M resolution :=
  match insts with
  | [] => ret r
  | i :: rest =>
      r' <- resolve_instance master_instance_ids worker_instance_ids i r ;;
      resolve_instances master_instance_ids worker_instance_ids rest r'
  end.

(** Lines 278-297: [for r in reservations]. *)
Fixpoint resolve_page (master_instance_ids worker_instance_ids : list string)
  (rs : list (list instance)) (r : resolution) : M resolution :=
  match rs with
  | [] => ret r
  | insts :: rest =>
      r' <- resolve_instances master_instance_ids worker_instance_ids insts r ;;
      resolve_page master_instance_ids worker_instance_ids rest r'
  end.

(** Lines 273-320: the [while True] loop. *)
Fixpoint instances_loop (fuel : nat) (master_instance_ids
  worker_instance_ids : list string) (start_time timeout
  next_execution_ts : Z) (next_token : option string) (r : resolution)
  : M resolution :=
  match fuel with
  | O => out_of_fuel
  | S fuel' =>
      log Info 274 ;;
      p <- get_all_reservations (pending_instance_ids r) next_token ;;
      let next_token := page_token p in
      r' <- resolve_page master_instance_ids worker_instance_ids
              (reservations p) r ;;
      let next_execution_ts := next_execution_ts + SLEEP_INTERVAL_IN_SECS in
      if Nat.eqb (List.length (pending_instance_ids r')) 0
      then (log Info 301 ;; ret r')
      else
        match next_token with
        | Some _ =>
            log Info 307 ;;
            instances_loop fuel' master_instance_ids worker_instance_ids
              start_time timeout next_execution_ts next_token r'
        | None =>
            if next_execution_ts <? start_time + timeout
            then (log Error 310 ;; ret r')
            else
              log Info 316 ;;
              t <- time_time ;;
              time_sleep (next_execution_ts - t) ;;
              instances_loop fuel' master_instance_ids worker_instance_ids
                start_time timeout next_execution_ts next_token r'
        end
  end.

Definition wait_until_instances_active (fuel : nat)
  (autoscaling_groups : list json) (timeout : Z) : M (ipmap * ipmap) :=
  log_timeout Info 231 timeout ;;
  start_time <- time_time ;;
  try_except
    (gs <- get_all_groups autoscaling_groups ;;
     ' (master_instance_ids, worker_instance_ids) <- split_groups gs [] [] ;;
     log Info 266 ;;
     r <- instances_loop fuel master_instance_ids worker_instance_ids
            start_time timeout start_time None
            {| pending_instance_ids :=
                 master_instance_ids ++ worker_instance_ids;
               master_instances := [];
               worker_instances := [] |} ;;
     log Info 322 ;;
     ret (master_instances r, worker_instances r))
    is_Exception
    (fun _ => log Exception 325 ;; ret ([], [])).

(** *** The side effects outside the protocol *)

(** [setup_env_variables] (lines 92-113): the host and worker files, the GPU
    probe and the change of owner are one external step, which completes or
    raises. *)
Definition setup_env_variables (master_instance_ip worker_instance_ips : json)
  : M unit :=
  log Info 93 ;;
  emit (ESetupEnv master_instance_ip worker_instance_ips) ;;
  if setup_env_ok W then ret tt else raise IOError.

(** [send_cfn_success_signal] (lines 331-346). *)
Definition send_cfn_success_signal : M unit :=
  md <- get_instance_metadata ;;
  _ <- lift (getitem md "instance-id") ;;
  log Info 337 ;;
  emit ECfnSignal ;;
  if cfn_signal_ok W then log Info 342
  else (log Exception 344 ;; sys_exit 1).

(** *** setup_worker_metadata (lines 352-400) *)

(** Lines 366-371: the body of the [for] loop, over the items. *)
Fixpoint pick_messages (items : ledger) (master_asg_message
  worker_asg_message : json) : M (json * json) :=
  match items with
  | [] => ret (master_asg_message, worker_asg_message)
  | (key, value) :: rest =>
      log Info 367 ;;
      k <- lift (lower_of key) ;;
      if contains "master" k
      then pick_messages rest value worker_asg_message
      else pick_messages rest master_asg_message value
  end.

(** Lines 381-400: from the resolved instances to the membership view. *)
Definition build_membership (master_instances worker_instances : ipmap)
  (worker_asg_message : json) : M (string * list string) :=
  if negb (Nat.eqb (List.length master_instances) 1)
  then (log Error 382 ;; sys_exit 1)
  else
    master_instance_ip <- lift (values_getitem master_instances 0) ;;
    let worker_instance_ips := [master_instance_ip] in
    worker_instance_ips <-
      (if Nat.eqb (List.length worker_instances) 0
       then (log Info 388 ;; ret worker_instance_ips)
       else
         let worker_instance_ips :=
           worker_instance_ips ++ values worker_instances in
         launched <- lift (getitem worker_asg_message "launched") ;;
         (if negb (key_eqb (JNum (Z.of_nat (List.length worker_instances)))
                     launched)
          then log Error 393 else ret tt) ;;
         ret worker_instance_ips) ;;
    ret (master_instance_ip, sorted worker_instance_ips).

(** Lines 376-400: the resolution phase, run on the budget [timeout]. *)
Definition resolve_and_build (fuel : nat) (timeout : Z)
  (master_asg_message worker_asg_message : json) : M (string * list string) :=
  master_asg <- lift (getitem master_asg_message "asg") ;;
  worker_asg <- lift (getitem worker_asg_message "asg") ;;
  ' (master_instances, worker_instances) <-
    wait_until_instances_active fuel [master_asg; worker_asg] timeout ;;
  log Info 377 ;;
  build_membership master_instances worker_instances worker_asg_message.

Definition setup_worker_metadata (fuel : nat) (setup_timeout : Z)
  (master_queue_name : string) : M (string * list string) :=
  log Info 353 ;;
  start_time <- time_time ;;
  asg_setup_messages <-
    wait_until_asg_success fuel master_queue_name setup_timeout ;;
  (if negb (Nat.eqb (List.length asg_setup_messages) 2)
   then (log Error 358 ;; sys_exit 1) else ret tt) ;;
  items <- lift (iteritems asg_setup_messages) ;;
  ' (master_asg_message, worker_asg_message) <-
    pick_messages items JNull JNull ;;
  t <- time_time ;;
  let timeout := setup_timeout - (t - start_time) in
  resolve_and_build fuel timeout master_asg_message worker_asg_message.

(** *** send_worker_setup_msg (lines 402-415) *)

Definition worker_setup_message (master_instance_ip : string)
  (worker_instance_ips : list string) : json :=
  JObj [("event", JStr "worker-setup");
        ("master-ip", JStr master_instance_ip);
        ("worker-ips", JArr (map JStr worker_instance_ips))]%string.

Definition send_worker_setup_msg (worker_queue_name : string)
  (master_instance_ip : string) (worker_instance_ips : list string)
  : M unit :=
  log Info 403 ;;
  log Info 414 ;;
  send_message worker_queue_name
    (worker_setup_message master_instance_ip worker_instance_ips).

(** *** check_instance_role_availability (lines 417-455) *)

Definition catches_key (e : exn) : bool :=
  match e with KeyError => true | _ => false end.

(** Lines 431-443: one probe of the metadata; [true] is the [return True]
    of line 439. *)
Definition probe_role (role_name : string) : M bool :=
  try_except
    (md <- get_instance_metadata ;;
     iam <- lift (getitem md "iam") ;;
     credentials <- lift (getitem iam "security-credentials") ;;
     instance_role <- lift (getitem credentials role_name) ;;
     instance_role <- lift (delitem instance_role "AccessKeyId") ;;
     instance_role <- lift (delitem instance_role "SecretAccessKey") ;;
     _ <- lift (delitem instance_role "Token") ;;
     log Info 438 ;;
     ret true)
    catches_key
    (fun _ => log Info 441 ;; ret false).

Fixpoint role_loop (fuel : nat) (role_name : string)
  (start_time timeout next_execution_ts : Z) : M bool :=
  match fuel with
  | O => out_of_fuel
  | S fuel' =>
      log Info 426 ;;
      found <- probe_role role_name ;;
      if found : bool then ret true
      else
        let next_execution_ts := next_execution_ts + SLEEP_INTERVAL_IN_SECS in
        if next_execution_ts >? start_time + timeout
        then (log_timeout Info 447 timeout ;; ret false)
        else
          log Info 450 ;;
          t <- time_time ;;
          time_sleep (next_execution_ts - t) ;;
          role_loop fuel' role_name start_time timeout next_execution_ts
  end.

Definition check_instance_role_availability (fuel : nat)
  (role_name : string) (timeout : Z) : M bool :=
  log_timeout Info 418 timeout ;;
  start_time <- time_time ;;
  role_loop fuel role_name start_time timeout start_time.

(** *** main (lines 458-505) *)

(** The variables of the environment that steer the protocol; the others
    only feed the external steps. *)
Record Config : Type :=
  { AWS_DL_NODE_TYPE : string;
    AWS_DL_MASTER_QUEUE : string;
    AWS_DL_WORKER_QUEUE : string;
    AWS_DL_WAITCONDITION_TIMEOUT : Z;
    AWS_DL_MASTERLAUNCH_TIMEOUT : Z;
    AWS_DL_ROLE_NAME : string }.

(** [a, b = value]: unpacking [None] is a [TypeError]. *)
Definition unpack_pair (v : option (json * json)) : M (json * json) :=
  match v with
  | Some p => ret p
  | None => raise TypeError
  end.

(** Lines 487-501: the branch on the node type. *)
Definition run_role (fuel : nat) (cfg : Config) (setup_timeout : Z) : M unit :=
  if String.eqb (lower (AWS_DL_NODE_TYPE cfg)) "master" then
    ' (master_instance_ip, worker_instance_ips) <-
      setup_worker_metadata fuel setup_timeout (AWS_DL_MASTER_QUEUE cfg) ;;
    setup_env_variables (JStr master_instance_ip)
      (JArr (map JStr worker_instance_ips)) ;;
    send_worker_setup_msg (AWS_DL_WORKER_QUEUE cfg) master_instance_ip
      worker_instance_ips ;;
    send_cfn_success_signal
  else if String.eqb (lower (AWS_DL_NODE_TYPE cfg)) "worker" then
    v <- wait_for_worker_setup_message fuel (AWS_DL_WORKER_QUEUE cfg)
           setup_timeout ;;
    ' (master_instance_ip, worker_instance_ips) <- unpack_pair v ;;
    (if (is_None master_instance_ip || is_None worker_instance_ips)%bool
     then (log Error 496 ;; sys_exit 1) else ret tt) ;;
    setup_env_variables master_instance_ip worker_instance_ips
  else (log Error 500 ;; sys_exit 1).

(** Lines 462-501, the body of the [try].  [environ] is the outcome of lines
    462-473: the configuration, or [None] when a variable is missing or a
    timeout is not a number. *)
Definition main_body (fuel : nat) (environ : option Config) : M unit :=
  cfg <- match environ with
         | Some cfg => ret cfg
         | None => raise KeyError
         end ;;
  log Info 475 ;;
  let setup_timeout :=
    AWS_DL_WAITCONDITION_TIMEOUT cfg - AWS_DL_MASTERLAUNCH_TIMEOUT cfg in
  start_time <- time_time ;;
  _ <- check_instance_role_availability fuel (AWS_DL_ROLE_NAME cfg)
         setup_timeout ;;
  t <- time_time ;;
  let setup_timeout := setup_timeout - (t - start_time) in
  run_role fuel cfg setup_timeout.

Definition main (fuel : nat) (environ : option Config) : M unit :=
  log Info 459 ;;
  try_except (main_body fuel environ) is_Exception
    (fun _ => log Exception 504 ;; sys_exit 1).

End Program.

(** The exit status of the process after [main]: 0 on a normal return, the
    code of [sys.exit], 1 on an uncaught exception. *)
Definition exit_code (r : res unit) : option Z :=
  match r with
  | Ok _ => Some 0
  | Raise (SystemExit code) => Some code
  | Raise _ => Some 1
  | OutOfFuel => None
  end.

(** ** Reading payloads and runs

    The definitions of this part are not translated from the program: they
    name the notions in which the properties below are stated. *)

(** What a decoded payload is to the launch watcher: a success notice of a
    group; a payload it has nothing to do with ([null], another event,
    another status); or a payload that is not an object or lacks a field the
    watcher reads. *)
Inductive asg_shape : Type :=
| Malformed
| Ignored
| Success (group : json).

Definition asg_shape_of (j : json) : asg_shape :=
  match j with
  | JNull => Ignored
  | JObj o =>
      match assoc "event" o with
      | None => Malformed
      | Some ev =>
          if eq_str ev "asg-setup" then
            match assoc "status" o with
            | None => Malformed
            | Some st =>
                if eq_str st "success" then
                  match assoc "asg" o with
                  | None => Malformed
                  | Some g => if hashable g then Success g else Malformed
                  end
                else Ignored
            end
          else Ignored
      end
  | _ => Malformed
  end.

(** The ledger after a decoded payload: first write wins. *)
Definition merge_notice (j : json) (l : ledger) : ledger :=
  match asg_shape_of j with
  | Success g => if ledger_has g l then l else l ++ [(g, j)]
  | _ => l
  end.

Definition merge_message (l : ledger) (m : message) : ledger :=
  match msg_body m with
  | Json j => merge_notice j l
  | NotJson => l
  end.

Definition merge_batch (msgs : list message) (l : ledger) : ledger :=
  fold_left merge_message msgs l.

(** The ledger after the polls [n0], ..., [n0 + k - 1] of a queue. *)
Fixpoint ledger_after (W : World) (q : string) (n0 k : nat) : ledger :=
  match k with
  | O => []
  | S k' => merge_batch (value (queue W q (n0 + k'))) (ledger_after W q n0 k')
  end.

(** The content of a worker-setup broadcast, when the message is one. *)
Definition broadcast_of (m : message) : option (json * json) :=
  match msg_body m with
  | Json (JObj o) =>
      match assoc "event" o, assoc "master-ip" o, assoc "worker-ips" o with
      | Some ev, Some master_ip, Some worker_ips =>
          if eq_str ev "worker-setup" then Some (master_ip, worker_ips)
          else None
      | _, _, _ => None
      end
  | _ => None
  end.

(** The messages received by the polls [n0], ..., [n0 + k - 1]. *)
Fixpoint observed (W : World) (q : string) (n0 k : nat) : list message :=
  match k with
  | O => []
  | S k' => value (queue W q n0) ++ observed W q (S n0) k'
  end.

(** The sleeps among stamped events. *)
Definition is_sleep (e : Z * event) : bool :=
  match snd e with ESleep _ => true | _ => false end.

(** [adds P s s']: the run from [s] to [s'] appended events, all in [P]. *)
Definition adds (P : Z * event -> Prop) (s s' : State) : Prop :=
  exists ev, trace s' = trace s ++ ev /\ Forall P ev.

(** The events of the handling of a batch by the launch watcher: log lines,
    and deletions of messages of the batch whose payload is well formed. *)
Definition handling_event (q : string) (msgs : list message)
  (e : Z * event) : Prop :=
  match snd e with
  | ELog _ _ => True
  | EDelete q' m =>
      q' = q /\ In m msgs /\
      exists j, msg_body m = Json j /\ asg_shape_of j <> Malformed
  | _ => False
  end.

(** The outcome of a batch for the launch watcher, whatever the state. *)
Fixpoint batch_outcome (msgs : list message) (l : ledger) : res ledger :=
  match msgs with
  | [] => Ok l
  | m :: rest =>
      match msg_body m with
      | NotJson => Raise ValueError
      | Json j => batch_outcome rest (merge_notice j l)
      end
  end.

(** A sleep that starts at its stamp lasts at most 30 seconds and ends by
    the deadline; other events are free. *)
Definition within_budget (deadline : Z) (e : Z * event) : Prop :=
  match snd e with
  | ESleep d => 0 <= d <= 30 /\ fst e + d <= deadline
  | _ => True
  end.

(** The events of a wait on the worker queue: log lines, sleeps, and
    receives on that queue with a visibility window of zero; in particular
    no deletion. *)
Definition polling_event (q : string) (e : Z * event) : Prop :=
  match snd e with
  | ELog _ _ | ELogTimeout _ _ _ | ESleep _ => True
  | EReceive q' v => q' = q /\ v = 0
  | _ => False
  end.

(** The outcome of a batch for the worker wait, whatever the state. *)
Fixpoint worker_batch_outcome (msgs : list message)
  : res (option (json * json)) :=
  match msgs with
  | [] => Ok None
  | m :: rest =>
      match msg_body m with
      | NotJson => Raise ValueError
      | Json _ =>
          match broadcast_of m with
          | Some found => Ok (Some found)
          | None => worker_batch_outcome rest
          end
      end
  end.

(** The trace ends with the event [e], stamped with the final clock. *)
Definition ends_with (e : event) (s : State) : Prop :=
  exists tr, trace s = tr ++ [(now s, e)].

(** The budget [main] starts from (line 481). *)
Definition setup_budget (cfg : Config) : Z :=
  AWS_DL_WAITCONDITION_TIMEOUT cfg - AWS_DL_MASTERLAUNCH_TIMEOUT cfg.


(** ** Sample worlds *)

Definition after {A : Type} (d : Z) (v : A) : reply A :=
  {| value := v; took := d |}.

(** A launch notice as the lambda function writes it (lines 116-119). *)
Definition notice (group status : string) (launched : Z) : json :=
  JObj [("min", JNum 1); ("desired", JNum 1); ("max", JNum 1);
        ("launched", JNum launched); ("status", JStr status);
        ("asg", JStr group); ("event", JStr "asg-setup")]%string.

Definition master_notice : message :=
  {| msg_id := 1; msg_body := Json (notice "stack-MasterASG-1" "success" 1) |}.

Definition worker_notice : message :=
  {| msg_id := 2; msg_body := Json (notice "stack-WorkerASG-1" "success" 2) |}.

Definition failure_notice : message :=
  {| msg_id := 3; msg_body := Json (notice "stack-WorkerASG-1" "failure" 0) |}.

(** A notice without its ['event'] field. *)
Definition incomplete_notice : message :=
  {| msg_id := 4;
     msg_body := Json (JObj [("status", JStr "success");
                             ("asg", JStr "stack-WorkerASG-1")]%string) |}.

Definition other_event : message :=
  {| msg_id := 5;
     msg_body := Json (JObj [("event", JStr "asg-setup")]%string) |}.

Definition broadcast : message :=
  {| msg_id := 6;
     msg_body :=
       Json (worker_setup_message "10.0.0.1"
               ["10.0.0.1"; "10.0.0.2"; "10.0.0.3"]%string) |}.

Definition metadata_with_role : json :=
  JObj [("instance-id", JStr "i-0");
        ("iam",
         JObj [("security-credentials",
                JObj [("dl-role",
                       JObj [("AccessKeyId", JStr "id");
                             ("SecretAccessKey", JStr "key");
                             ("Token", JStr "token")])])])]%string.

Definition metadata_without_role : json :=
  JObj [("instance-id", JStr "i-0");
        ("iam", JObj [("security-credentials", JObj [])])]%string.

Definition two_groups : list asg :=
  [ {| asg_name := "stack-MasterASG-1";
       asg_instances :=
         [ {| instance_id := "i-m"; health_status := "Healthy" |} ] |};
    {| asg_name := "stack-WorkerASG-1";
       asg_instances :=
         [ {| instance_id := "i-w1"; health_status := "Healthy" |};
           {| instance_id := "i-w2"; health_status := "Healthy" |} ] |} ].

Definition all_running : page :=
  {| reservations :=
       [[ {| id := "i-w2"; state := "running";
             private_ip_address := "10.0.0.3" |};
          {| id := "i-m"; state := "running";
             private_ip_address := "10.0.0.1" |};
          {| id := "i-w1"; state := "running";
             private_ip_address := "10.0.0.2" |} ]];
     page_token := None |}.

Definition master_pending : page :=
  {| reservations :=
       [[ {| id := "i-w2"; state := "running";
             private_ip_address := "10.0.0.3" |};
          {| id := "i-m"; state := "pending";
             private_ip_address := "10.0.0.1" |};
          {| id := "i-w1"; state := "running";
             private_ip_address := "10.0.0.2" |} ]];
     page_token := None |}.

Definition first_poll (msgs : list message) (k : nat) : list message :=
  match k with O => msgs | S _ => [] end.

(** Nothing ever arrives: no role, no message, no group. *)
Definition quiet : World :=
  {| metadata := fun _ => after 0 metadata_without_role;
     queue := fun _ _ => after 0 [];
     groups := fun _ => after 0 [];
     directory := fun _ => after 0 {| reservations := []; page_token := None |};
     setup_env_ok := true;
     cfn_signal_ok := true |}.

(** The scenario of the specification: both notices in the first poll of the
    master queue, one master and two workers running, the broadcast in the
    first poll of the worker queue. *)
Definition launched (md : json) (md_took : Z) (pg : page) : World :=
  {| metadata := fun _ => after md_took md;
     queue := fun q k =>
       after 0 (if String.eqb q "mq"
                then first_poll [master_notice; worker_notice] k
                else first_poll [other_event; broadcast] k);
     groups := fun _ => after 0 two_groups;
     directory := fun _ => after 0 pg;
     setup_env_ok := true;
     cfn_signal_ok := true |}.

Definition healthy_world : World := launched metadata_with_role 0 all_running.

(** The role never shows up in the metadata. *)
Definition no_role : World := launched metadata_without_role 0 all_running.

(** The same, each look at the metadata taking 10 seconds. *)
Definition slow_gate : World := launched metadata_without_role 10 all_running.

(** The master instance stays in the pending state: the first page shows the
    three instances, the later ones the pending master alone. *)
Definition pending_master : World :=
  {| metadata := fun _ => after 0 metadata_with_role;
     queue := fun _ k => after 0 (first_poll [master_notice; worker_notice] k);
     groups := fun _ => after 0 two_groups;
     directory := fun k =>
       after 0 match k with
               | O => master_pending
               | S _ =>
                   {| reservations :=
                        [[ {| id := "i-m"; state := "pending";
                              private_ip_address := "10.0.0.1" |} ]];
                      page_token := None |}
               end;
     setup_env_ok := true;
     cfn_signal_ok := true |}.

(** The master notice delivered three times, respectively once, in the first
    poll. *)
Definition delivered (msgs : list message) : World :=
  {| metadata := fun _ => after 0 metadata_with_role;
     queue := fun _ k => after 0 (first_poll msgs k);
     groups := fun _ => after 0 two_groups;
     directory := fun _ => after 0 all_running;
     setup_env_ok := true;
     cfn_signal_ok := true |}.

Definition master_cfg : Config :=
  {| AWS_DL_NODE_TYPE := "Master";
     AWS_DL_MASTER_QUEUE := "mq";
     AWS_DL_WORKER_QUEUE := "wq";
     AWS_DL_WAITCONDITION_TIMEOUT := 100;
     AWS_DL_MASTERLAUNCH_TIMEOUT := 40;
     AWS_DL_ROLE_NAME := "dl-role" |}.

Definition worker_cfg : Config :=
  {| AWS_DL_NODE_TYPE := "worker";
     AWS_DL_MASTER_QUEUE := "mq";
     AWS_DL_WORKER_QUEUE := "wq";
     AWS_DL_WAITCONDITION_TIMEOUT := 100;
     AWS_DL_MASTERLAUNCH_TIMEOUT := 40;
     AWS_DL_ROLE_NAME := "dl-role" |}.

Definition group_names : list json :=
  [JStr "stack-MasterASG-1"; JStr "stack-WorkerASG-1"].

(** ** Reading traces *)

Definition level_eqb (a b : level) : bool :=
  match a, b with
  | Info, Info | Error, Error | Exception, Exception => true
  | _, _ => false
  end.

(** The [LOGGER] call of a source line was made. *)
Definition logged (lvl : level) (line : nat) (s : State) : bool :=
  existsb (fun e => match snd e with
                    | ELog l n => (level_eqb l lvl && Nat.eqb n line)%bool
                    | _ => false
                    end) (trace s).

(** The sleeps of a run: start and length. *)
Definition slept (s : State) : list (Z * Z) :=
  flat_map (fun e => match snd e with
                     | ESleep d => [(fst e, d)]
                     | _ => []
                     end) (trace s).

(** The messages sent. *)
Definition sent (s : State) : list (string * json) :=
  flat_map (fun e => match snd e with
                     | ESend q body => [(q, body)]
                     | _ => []
                     end) (trace s).

(** The time budgets printed by the [LOGGER] call of a source line. *)
Definition budgets_logged (line : nat) (s : State) : list Z :=
  flat_map (fun e => match snd e with
                     | ELogTimeout _ n t => if Nat.eqb n line then [t] else []
                     | _ => []
                     end) (trace s).

(** The messages deleted. *)
Definition deleted (s : State) : list message :=
  flat_map (fun e => match snd e with
                     | EDelete _ m => [m]
                     | _ => []
                     end) (trace s).

(** The calls of the environment step, with their arguments. *)
Definition environment_steps (s : State) : list (json * json) :=
  flat_map (fun e => match snd e with
                     | ESetupEnv master_ip worker_ips =>
                         [(master_ip, worker_ips)]
                     | _ => []
                     end) (trace s).

(** The listings of the groups asked for. *)
Definition resolutions (s : State) : list (list json) :=
  flat_map (fun e => match snd e with
                     | EGroups names => [names]
                     | _ => []
                     end) (trace s).

(** ** Reading the role gate and the resolution loop *)

Definition res_bind {A B : Type} (r : res A) (k : A -> res B) : res B :=
  match r with
  | Ok a => k a
  | Raise e => Raise e
  | OutOfFuel => OutOfFuel
  end.

(** The outcome of one look at the metadata [md] for the role gate: [true]
    when the record of the role is there with its three fields, [false] when
    a key is missing on the way, an error otherwise. *)
Definition probe_outcome (md : json) (role_name : string) : res bool :=
  match
    res_bind (getitem md "iam") (fun iam =>
    res_bind (getitem iam "security-credentials") (fun credentials =>
    res_bind (getitem credentials role_name) (fun instance_role =>
    res_bind (delitem instance_role "AccessKeyId") (fun instance_role =>
    res_bind (delitem instance_role "SecretAccessKey") (fun instance_role =>
    delitem instance_role "Token")))))
  with
  | Ok _ => Ok true
  | Raise KeyError => Ok false
  | Raise e => Raise e
  | OutOfFuel => OutOfFuel
  end.

(** The metadata [md] holds, under iam / security-credentials, a record for
    the role with the three credential fields. *)
Definition credentials_present (md : json) (role_name : string) : Prop :=
  exists o iam creds record id_ key_ token_,
    md = JObj o /\ assoc "iam" o = Some (JObj iam)
    /\ assoc "security-credentials" iam = Some (JObj creds)
    /\ assoc role_name creds = Some (JObj record)
    /\ assoc "AccessKeyId" record = Some id_
    /\ assoc "SecretAccessKey" record = Some key_
    /\ assoc "Token" record = Some token_.

(** ** Footprints of runs

    What the runs of a computation may append to the trace, and what they
    may raise. *)

(** Every run of [m] appends events of [P] only. *)
Definition emits {A : Type} (P : Z * event -> Prop) (m : M A) : Prop :=
  forall s, adds P s (snd (m s)).

(** Every exception that [m] raises is in [Q]. *)
Definition raises {A : Type} (Q : exn -> Prop) (m : M A) : Prop :=
  forall s e s', m s = (Raise e, s') -> Q e.

(** An exit, if it is one, has code 1. *)
Definition exit_one (e : exn) : Prop :=
  forall code, e = SystemExit code -> code = 1.

(** Not an exit: an exception that [except Exception] catches. *)
Definition no_exit (e : exn) : Prop := is_Exception e = true.

(** The events of the role gate. *)
Definition gate_event (e : Z * event) : Prop :=
  match snd e with
  | ELog _ _ | ELogTimeout _ _ _ | EMetadata | ESleep _ => True
  | _ => False
  end.

(** The events of the launch watcher on the queue [q]. *)
Definition watcher_event (q : string) (e : Z * event) : Prop :=
  match snd e with
  | ELog _ _ | ELogTimeout _ _ _ | ESleep _ => True
  | EReceive q' v => q' = q /\ v = 60
  | EDelete q' _ => q' = q
  | _ => False
  end.

(** The events of the resolution. *)
Definition resolver_event (e : Z * event) : Prop :=
  match snd e with
  | ELog _ _ | ELogTimeout _ _ _ | ESleep _ => True
  | EGroups _ | EReservations _ _ => True
  | _ => False
  end.

(** The events of a worker node. *)
Definition worker_node_event (cfg : Config) (e : Z * event) : Prop :=
  match snd e with
  | ELog _ _ | ELogTimeout _ _ _ | ESleep _ | EMetadata => True
  | EReceive q v => q = AWS_DL_WORKER_QUEUE cfg /\ v = 0
  | ESetupEnv _ _ => True
  | _ => False
  end.

(** The events of a master node. *)
Definition master_node_event (cfg : Config) (e : Z * event) : Prop :=
  match snd e with
  | ELog _ _ | ELogTimeout _ _ _ | ESleep _ | EMetadata => True
  | EGroups _ | EReservations _ _ | ESetupEnv _ _ | ECfnSignal => True
  | EReceive q v => q = AWS_DL_MASTER_QUEUE cfg /\ v = 60
  | EDelete q _ => q = AWS_DL_MASTER_QUEUE cfg
  | ESend q body =>
      q = AWS_DL_WORKER_QUEUE cfg
      /\ exists master_ip worker_ips,
           body = worker_setup_message master_ip worker_ips
           /\ In master_ip worker_ips
  end.

(** The events of a master node other than the broadcast. *)
Definition master_quiet_event (cfg : Config) (e : Z * event) : Prop :=
  match snd e with
  | ESend _ _ => False
  | _ => master_node_event cfg e
  end.

(** Every run of [m] sends at most [n] messages. *)
Definition sends_at_most {A : Type} (n : nat) (m : M A) : Prop :=
  forall s, exists l,
    sent (snd (m s)) = sent s ++ l /\ (List.length l <= n)%nat.

(** The events a master node gets to: those of the role gate and of the
    launch watcher on the master queue.  No listing of the groups, no query
    of the directory, no environment step, no sending, no completion
    signal. *)
Definition master_reach_event (cfg : Config) (e : Z * event) : Prop :=
  match snd e with
  | ELog _ _ | ELogTimeout _ _ _ | ESleep _ | EMetadata => True
  | EReceive q v => q = AWS_DL_MASTER_QUEUE cfg /\ v = 60
  | EDelete q _ => q = AWS_DL_MASTER_QUEUE cfg
  | _ => False
  end.

(** An event that is not the sending of a message. *)
Definition no_send (e : Z * event) : Prop :=
  match snd e with ESend _ _ => False | _ => True end.

(** The events of the launch watcher on the queue [q], called when [n0]
    receives were made: besides log lines and sleeps, receives on [q] with a
    visibility window of 60 seconds, and deletions on [q] of messages that a
    poll of the call returned and whose payload is well formed. *)
Definition watcher_call_event (W : World) (q : string) (n0 : nat)
  (e : Z * event) : Prop :=
  match snd e with
  | ELog _ _ | ELogTimeout _ _ _ | ESleep _ => True
  | EReceive q' v => q' = q /\ v = 60
  | EDelete q' m =>
      q' = q
      /\ (exists i, In m (value (queue W q (n0 + i))))
      /\ (exists j, msg_body m = Json j /\ asg_shape_of j <> Malformed)
  | _ => False
  end.

(** A ledger as the launch watcher builds it: every entry is a success
    notice filed under its group, and no two entries have equal groups. *)
Definition ledger_entry_ok (e : json * json) : Prop :=
  asg_shape_of (snd e) = Success (fst e).

Definition ledger_keys_differ (a b : json * json) : Prop :=
  key_eqb (fst b) (fst a) = false.

Definition ledger_ok (l : ledger) : Prop :=
  Forall ledger_entry_ok l /\ ForallOrdPairs ledger_keys_differ l.

(** [returns P m]: every value [m] returns satisfies [P]. *)
Definition returns {A : Type} (P : A -> Prop) (m : M A) : Prop :=
  forall s a s', m s = (Ok a, s') -> P a.

(** A group counts as the master's when its lower-cased name contains
    "master" (line 257). *)
Definition master_group (g : asg) : bool :=
  contains "master" (lower (asg_name g)).

(** The healthy instances of the master groups, and of the other groups. *)
Definition master_ids_of (gs : list asg) : list string :=
  flat_map healthy_ids (filter master_group gs).

Definition worker_ids_of (gs : list asg) : list string :=
  flat_map healthy_ids (filter (fun g => negb (master_group g)) gs).

Definition keys {V : Type} (d : list (string * V)) : list string :=
  map fst d.

(** The keys of the two maps of a resolution are instances of their side:
    master ids in the master map; in the worker map worker ids that are not
    master ids. *)
Definition keys_in (master_instance_ids worker_instance_ids : list string)
  (r : resolution) : Prop :=
  (forall k, In k (keys (master_instances r)) ->
             In k master_instance_ids)
  /\ (forall k, In k (keys (worker_instances r)) ->
                In k worker_instance_ids /\ ~ In k master_instance_ids).

(** The maps after a running instance [i] was written down. *)
Definition record_running (mids wids : list string) (i : instance)
  (pending : list string) (r : resolution) : resolution :=
  {| pending_instance_ids := pending;
     master_instances :=
       if mem (id i) mids
       then dict_set (id i) (private_ip_address i) (master_instances r)
       else master_instances r;
     worker_instances :=
       if mem (id i) mids then worker_instances r
       else if mem (id i) wids
            then dict_set (id i) (private_ip_address i) (worker_instances r)
            else worker_instances r |}.

(** ** The files of the environment step

    [get_gpu_count] (lines 76-90) and [setup_env_variables] (lines 92-113)
    at the level of the files they write, for a string and a list of
    strings as arguments.  The machine holds the text of the three
    files, the owner of the worker file and the [LOGGER] calls made; the
    metadata, the outcome of nvidia-smi and the user and group databases
    are given by the environment. *)
Module Files.

Local Open Scope string_scope.

Definition WORKER_FILE : string := "/opt/deeplearning/workers".

Definition AWS_GPU_INSTANCE_TYPES : list string :=
  ["g3.4xlarge"; "g3.8xlarge"; "g3.16xlarge"; "p2.xlarge"; "p2.8xlarge";
   "p2.16xlarge"; "p3.2xlarge"; "p3.8xlarge"; "p3.16xlarge"].

Definition newline : ascii := "010"%char.

Definition carriage_return : ascii := "013"%char.

(** The text ["\n"]. *)
Definition nl : string := String newline EmptyString.

(** [str(n)] for a count or an index. *)
Definition str (n : nat) : string := NilEmpty.string_of_uint (Nat.to_uint n).

Record machine : Type :=
  { hosts : string;      (* /etc/hosts *)
    workers : string;    (* /opt/deeplearning/workers *)
    profile : string;    (* /etc/profile.d/deeplearning.sh *)
    workers_owner : option (Z * Z);
    log_lines : list (level * nat) }.

(** [subprocess.check_output]: the output, as bytes, or
    [CalledProcessError]. *)
Inductive check_output : Type :=
| Output (out : string)
| CalledProcessError.

Record env : Type :=
  { instance_metadata : json;
    nvidia_smi : check_output;
    pw_uid : string -> option Z;    (* pwd.getpwnam(name).pw_uid *)
    gr_gid : string -> option Z }.  (* grp.getgrnam(name).gr_gid *)

Definition logs (lvl : level) (line : nat) (m : machine) : machine :=
  {| hosts := hosts m; workers := workers m; profile := profile m;
     workers_owner := workers_owner m;
     log_lines := (log_lines m ++ [(lvl, line)])%list |}.

(** [hosts.write(text)] on the file opened for appending. *)
Definition write_hosts (text : string) (m : machine) : machine :=
  {| hosts := hosts m ++ text; workers := workers m; profile := profile m;
     workers_owner := workers_owner m; log_lines := log_lines m |}.

(** [open(WORKER_FILE, 'w+')]: the file is emptied. *)
Definition open_workers (m : machine) : machine :=
  {| hosts := hosts m; workers := ""; profile := profile m;
     workers_owner := workers_owner m; log_lines := log_lines m |}.

Definition write_workers (text : string) (m : machine) : machine :=
  {| hosts := hosts m; workers := workers m ++ text; profile := profile m;
     workers_owner := workers_owner m; log_lines := log_lines m |}.

Definition write_profile (text : string) (m : machine) : machine :=
  {| hosts := hosts m; workers := workers m; profile := profile m ++ text;
     workers_owner := workers_owner m; log_lines := log_lines m |}.

Definition chown_workers (uid gid : Z) (m : machine) : machine :=
  {| hosts := hosts m; workers := workers m; profile := profile m;
     workers_owner := Some (uid, gid); log_lines := log_lines m |}.

(** [output.count('\n')] on the bytes of the output: [count] takes bytes
    or an integer, and refuses the text ['\n']. *)
Definition bytes_count_str (output : string) : res nat := Raise TypeError.

(** [sum(1 for _ in open(path, "r"))]: the lines of a text read with
    universal newlines, where a line ends at a line feed, at a carriage
    return, or at the two in a row; a last line without its end counts.
    [pending] tells that the current line has text, [after_cr] that the
    last character was a carriage return. *)
Fixpoint lines_from (pending after_cr : bool) (s : string) : nat :=
  match s with
  | EmptyString => if pending then 1 else 0
  | String c t =>
      if Ascii.eqb c newline
      then (if after_cr then lines_from false false t
            else S (lines_from false false t))
      else if Ascii.eqb c carriage_return
      then S (lines_from false true t)
      else lines_from true false t
  end.

Definition count_lines (s : string) : nat := lines_from false false s.

(** Lines 76-90. *)
Definition get_gpu_count (E : env) (m : machine) : res nat * machine :=
  let m := logs Info 77 m in
  match getitem (instance_metadata E) "instance-type" with
  | Ok instance_type =>
      if negb (existsb (eq_str instance_type) AWS_GPU_INSTANCE_TYPES)
      then (Ok 0%nat, logs Info 81 m)
      else
        match nvidia_smi E with
        | Output output =>
            match bytes_count_str output with
            | Ok gpu_count => (Ok gpu_count, logs Info 86 m)
            | Raise e => (Raise e, m)
            | OutOfFuel => (OutOfFuel, m)
            end
        | CalledProcessError => (Ok 0%nat, logs Exception 89 m)
        end
  | Raise e => (Raise e, m)
  | OutOfFuel => (OutOfFuel, m)
  end.

(** Lines 97-99: [for worker_index, worker_ip in enumerate(..., start)]. *)
Fixpoint write_worker_lines (worker_index : nat)
  (worker_instance_ips : list string) (m : machine) : machine :=
  match worker_instance_ips with
  | [] => m
  | worker_ip :: rest =>
      let m :=
        write_hosts (worker_ip ++ " deeplearning-worker" ++ str worker_index
                     ++ nl) m in
      let m := write_workers ("deeplearning-worker" ++ str worker_index ++ nl)
                 m in
      write_worker_lines (S worker_index) rest m
  end.

(** Lines 92-113. *)
Definition setup_env_variables (E : env) (master_instance_ip : string)
  (worker_instance_ips : list string) (default_user efs_mount : string)
  (m : machine) : res unit * machine :=
  let m := logs Info 93 m in
  let m := open_workers m in
  let m := write_hosts (master_instance_ip ++ " deeplearning-master" ++ nl) m in
  let m := write_worker_lines 1 worker_instance_ips m in
  match get_gpu_count E m with
  | (Ok gpu_count, m) =>
      let num_workers := count_lines (workers m) in
      let m := write_profile
                 ("export DEEPLEARNING_WORKERS_COUNT=" ++ str num_workers
                  ++ nl) m in
      let m := write_profile
                 ("export DEEPLEARNING_WORKERS_PATH=" ++ WORKER_FILE ++ nl)
                 m in
      let m := write_profile
                 ("export DEEPLEARNING_WORKER_GPU_COUNT=" ++ str gpu_count
                  ++ nl) m in
      let m := write_profile ("export EFS_MOUNT=" ++ efs_mount ++ nl) m in
      match pw_uid E default_user with
      | None => (Raise KeyError, m)
      | Some uid =>
          match gr_gid E default_user with
          | None => (Raise KeyError, m)
          | Some gid => (Ok tt, chown_workers uid gid m)
          end
      end
  | (Raise e, m) => (Raise e, m)
  | (OutOfFuel, m) => (OutOfFuel, m)
  end.

(** The lines a call adds to the hosts file, and the text it leaves in the
    worker file. *)
Fixpoint host_lines (index : nat) (ips : list string) : string :=
  match ips with
  | [] => ""
  | ip :: rest =>
      (ip ++ " deeplearning-worker" ++ str index ++ nl)
      ++ host_lines (S index) rest
  end.

Fixpoint worker_lines (index : nat) (ips : list string) : string :=
  match ips with
  | [] => ""
  | _ :: rest =>
      ("deeplearning-worker" ++ str index ++ nl) ++ worker_lines (S index) rest
  end.

Definition host_block (master_instance_ip : string) (ips : list string)
  : string :=
  (master_instance_ip ++ " deeplearning-master" ++ nl) ++ host_lines 1 ips.

Definition profile_block (num_workers gpu_count : nat) (efs_mount : string)
  : string :=
  ("export DEEPLEARNING_WORKERS_COUNT=" ++ str num_workers ++ nl)
  ++ ("export DEEPLEARNING_WORKERS_PATH=/opt/deeplearning/workers" ++ nl)
  ++ ("export DEEPLEARNING_WORKER_GPU_COUNT=" ++ str gpu_count ++ nl)
  ++ ("export EFS_MOUNT=" ++ efs_mount ++ nl).

(** A text without line ends. *)
Fixpoint one_line (s : string) : bool :=
  match s with
  | EmptyString => true
  | String c t =>
      (negb (Ascii.eqb c newline) && negb (Ascii.eqb c carriage_return)
       && one_line t)%bool
  end.

End Files.

(** ** Further sample inputs *)

(** A payload that is not JSON. *)
Definition garbage : message := {| msg_id := 7; msg_body := NotJson |}.



(** Metadata whose iam entry is not a dictionary. *)
Definition ill_shaped_metadata : json :=
  JObj [("instance-id", JStr "i-0"); ("iam", JStr "unavailable")]%string.

Definition ill_shaped : World := launched ill_shaped_metadata 0 all_running.

(** A page that shows a running instance of no group first. *)
Definition stranger_first : page :=
  {| reservations :=
       [[ {| id := "i-m"; state := "pending";
             private_ip_address := "10.0.0.1" |};
          {| id := "i-x"; state := "running";
             private_ip_address := "10.0.0.9" |};
          {| id := "i-w1"; state := "running";
             private_ip_address := "10.0.0.2" |} ]];
     page_token := None |}.

Definition with_stranger : World :=
  launched metadata_with_role 0 stranger_first.

Definition gateway_cfg : Config :=
  {| AWS_DL_NODE_TYPE := "Gateway";
     AWS_DL_MASTER_QUEUE := "mq";
     AWS_DL_WORKER_QUEUE := "wq";
     AWS_DL_WAITCONDITION_TIMEOUT := 100;
     AWS_DL_MASTERLAUNCH_TIMEOUT := 40;
     AWS_DL_ROLE_NAME := "dl-role" |}.

(** A GPU instance with two devices and the default user in place; an
    instance of another type; and a machine whose files hold text
    already. *)
Definition gpu_box : Files.env :=
  {| Files.instance_metadata :=
       JObj [("instance-type", JStr "p2.8xlarge")]%string;
     Files.nvidia_smi :=
       Files.Output ("GPU 0: Tesla K80" ++ Files.nl
                     ++ "GPU 1: Tesla K80" ++ Files.nl)%string;
     Files.pw_uid := fun _ => Some 1000;
     Files.gr_gid := fun _ => Some 1000 |}.

Definition cpu_box : Files.env :=
  {| Files.instance_metadata :=
       JObj [("instance-type", JStr "m4.large")]%string;
     Files.nvidia_smi := Files.CalledProcessError;
     Files.pw_uid := fun _ => Some 1000;
     Files.gr_gid := fun _ => Some 1000 |}.

Definition used_machine : Files.machine :=
  {| Files.hosts := ("127.0.0.1 localhost" ++ Files.nl)%string;
     Files.workers := ("stale-worker" ++ Files.nl)%string;
     Files.profile := ""%string;
     Files.workers_owner := None;
     Files.log_lines := [] |}.

(** The instance of another type, without the default user. *)
Definition no_user_box : Files.env :=
  {| Files.instance_metadata := Files.instance_metadata cpu_box;
     Files.nvidia_smi := Files.nvidia_smi cpu_box;
     Files.pw_uid := fun _ => None;
     Files.gr_gid := fun _ => Some 1000 |}.

(** ** Generalities on runs *)

Lemma adds_refl (P : Z * event -> Prop) (s s' : State) :
  trace s' = trace s -> adds P s s'.
Proof.
  intros E. exists []. rewrite app_nil_r. split; [exact E | constructor].
Qed.

Lemma adds_trans (P : Z * event -> Prop) (s1 s2 s3 : State) :
  adds P s1 s2 -> adds P s2 s3 -> adds P s1 s3.
Proof.
  intros [e1 [E1 F1]] [e2 [E2 F2]]. exists (e1 ++ e2). split.
  - rewrite E2, E1, app_assoc. reflexivity.
  - apply Forall_app. split; assumption.
Qed.

Lemma adds_step (P : Z * event -> Prop) (s s1 s2 : State) (t : Z) (e : event) :
  adds P s s1 -> trace s2 = trace s1 ++ [(t, e)] -> P (t, e) -> adds P s s2.
Proof.
  intros H E HP. apply adds_trans with s1; [exact H|].
  exists [(t, e)]. split; [exact E | repeat constructor; exact HP].
Qed.

Lemma adds_impl (P Q : Z * event -> Prop) (s s' : State) :
  (forall e, P e -> Q e) -> adds P s s' -> adds Q s s'.
Proof.
  intros I [ev [E F]]. exists ev. split; [exact E|].
  eapply Forall_impl; [exact I | exact F].
Qed.

(** ** The launch watcher: message handling *)

Lemma asg_handle_message_json (q : string) (m : message) (j : json)
  (l : ledger) (s : State) :
  msg_body m = Json j ->
  asg_handle_message q m l s =
    match asg_shape_of j with
    | Malformed =>
        (Ok l, push (ELog Error 162)
                 (push (ELog Exception 161) (push (ELog Info 142) s)))
    | Ignored => (Ok l, push (EDelete q m) (push (ELog Info 142) s))
    | Success g =>
        if ledger_has g l
        then (Ok l, push (EDelete q m)
                      (push (ELog Info 155) (push (ELog Info 142) s)))
        else (Ok (l ++ [(g, j)]),
              push (EDelete q m)
                (push (ELog Info 149) (push (ELog Info 142) s)))
    end.
Proof.
  intros Hb.
  unfold asg_handle_message, try_except, bind, log, emit, delete_message,
    json_loads.
  rewrite Hb.
  unfold asg_merge, asg_shape_of, getitem, lift, bind, ret, ledger_mem, log,
    emit.
  destruct j as [| b | n | t | a | o]; simpl; try reflexivity.
  destruct (assoc "event" o) as [ev|]; simpl; [|reflexivity].
  destruct (eq_str ev "asg-setup"); simpl; [|reflexivity].
  destruct (assoc "status" o) as [st|]; simpl; [|reflexivity].
  destruct (eq_str st "success"); simpl; [|reflexivity].
  destruct (assoc "asg" o) as [g|]; simpl; [|reflexivity].
  destruct (hashable g); simpl; [|reflexivity].
  destruct (ledger_has g l); reflexivity.
Qed.

Lemma asg_handle_message_not_json (q : string) (m : message) (l : ledger)
  (s : State) :
  msg_body m = NotJson ->
  asg_handle_message q m l s = (Raise ValueError, push (ELog Info 142) s).
Proof.
  intros Hb.
  unfold asg_handle_message, try_except, bind, log, emit, json_loads.
  rewrite Hb. reflexivity.
Qed.

Lemma asg_handle_message_run (q : string) (m : message) (l : ledger)
  (s : State) :
  exists s',
    asg_handle_message q m l s =
      (match msg_body m with
       | NotJson => Raise ValueError
       | Json j => Ok (merge_notice j l)
       end, s')
    /\ now s' = now s /\ n_receive s' = n_receive s
    /\ adds (handling_event q [m]) s s'.
Proof.
  destruct (msg_body m) as [|j] eqn:Hb.
  - rewrite (asg_handle_message_not_json q m l s Hb).
    eexists. split; [reflexivity|]. repeat split.
    eapply adds_step; [apply adds_refl; reflexivity | reflexivity | exact I].
  - rewrite (asg_handle_message_json q m j l s Hb). unfold merge_notice.
    assert (D : forall t, asg_shape_of j <> Malformed ->
                handling_event q [m] (t, EDelete q m)).
    { intros t Hs. repeat split. - left; reflexivity. - exists j. auto. }
    destruct (asg_shape_of j) as [| | g] eqn:Hs.
    + eexists. split; [reflexivity|]. repeat split.
      repeat (eapply adds_step; [| reflexivity | exact I]).
      apply adds_refl; reflexivity.
    + eexists. split; [reflexivity|]. repeat split.
      eapply adds_step; [| reflexivity | apply D; discriminate].
      eapply adds_step; [| reflexivity | exact I].
      apply adds_refl; reflexivity.
    + destruct (ledger_has g l).
      * eexists. split; [reflexivity|]. repeat split.
        eapply adds_step; [| reflexivity | apply D; discriminate].
        repeat (eapply adds_step; [| reflexivity | exact I]).
        apply adds_refl; reflexivity.
      * eexists. split; [reflexivity|]. repeat split.
        eapply adds_step; [| reflexivity | apply D; discriminate].
        repeat (eapply adds_step; [| reflexivity | exact I]).
        apply adds_refl; reflexivity.
Qed.

Lemma handling_event_mono (q : string) (ms ms' : list message)
  (e : Z * event) :
  incl ms ms' -> handling_event q ms e -> handling_event q ms' e.
Proof.
  unfold handling_event. destruct (snd e); auto.
  intros I [E [H X]]. auto.
Qed.

Lemma asg_handle_batch_run (q : string) (msgs : list message) :
  forall (l : ledger) (s : State),
  exists s',
    asg_handle_batch q msgs l s = (batch_outcome msgs l, s')
    /\ now s' = now s /\ n_receive s' = n_receive s
    /\ adds (handling_event q msgs) s s'.
Proof.
  induction msgs as [|m rest IH]; intros l s.
  - exists s. simpl. unfold ret. repeat split. apply adds_refl; reflexivity.
  - simpl. unfold bind.
    destruct (asg_handle_message_run q m l s) as [s1 [E [N [R A]]]].
    rewrite E.
    assert (A' : adds (handling_event q (m :: rest)) s s1).
    { eapply adds_impl; [|exact A]. intro e. apply handling_event_mono.
      intros x [Hx|[]]. left; exact Hx. }
    destruct (msg_body m) as [|j].
    + exists s1. auto.
    + destruct (IH (merge_notice j l) s1) as [s2 [E2 [N2 [R2 A2]]]].
      exists s2. rewrite E2. repeat split; try congruence.
      eapply adds_trans; [exact A'|].
      eapply adds_impl; [|exact A2]. intro e. apply handling_event_mono.
      intros x Hx. right; exact Hx.
Qed.

Lemma batch_outcome_json (msgs : list message) :
  (forall m, In m msgs -> msg_body m <> NotJson) ->
  forall l, batch_outcome msgs l = Ok (merge_batch msgs l).
Proof.
  induction msgs as [|m rest IH]; intros H l; [reflexivity|].
  simpl. unfold merge_batch. simpl. unfold merge_message at 2.
  destruct (msg_body m) eqn:Hb.
  - exfalso. apply (H m); [left; reflexivity | exact Hb].
  - apply IH. intros m' Hm'. apply H. right; exact Hm'.
Qed.

(** C3 (as amended). For every message whose payload is JSON: a payload that
    is not an object, or lacks a field the watcher reads, is logged (lines
    161-162), its message is not deleted and the loop goes on; the message of
    every other payload is deleted, whether its notice was merged into the
    ledger (a success notice of a new group), discarded (a group already in
    the ledger) or of no concern ([null], another event, another status).
    A batch of JSON payloads never raises. *)
Theorem asg_message_handling :
  forall (q : string) (m : message) (j : json) (l : ledger) (s : State),
    msg_body m = Json j ->
    asg_handle_message q m l s =
      match asg_shape_of j with
      | Malformed =>
          (Ok l, push (ELog Error 162)
                   (push (ELog Exception 161) (push (ELog Info 142) s)))
      | Ignored => (Ok l, push (EDelete q m) (push (ELog Info 142) s))
      | Success g =>
          if ledger_has g l
          then (Ok l, push (EDelete q m)
                        (push (ELog Info 155) (push (ELog Info 142) s)))
          else (Ok (l ++ [(g, j)]),
                push (EDelete q m)
                  (push (ELog Info 149) (push (ELog Info 142) s)))
      end
    /\ forall rest : list message,
         (forall m', In m' rest -> msg_body m' <> NotJson) ->
         exists s',
           asg_handle_batch q (m :: rest) l s
           = (Ok (merge_batch (m :: rest) l), s')
           /\ adds (handling_event q (m :: rest)) s s'.
Proof.
  intros q m j l s Hb. split.
  - apply asg_handle_message_json. exact Hb.
  - intros rest Hrest.
    destruct (asg_handle_batch_run q (m :: rest) l s) as [s' [E [_ [_ A]]]].
    exists s'. split; [|exact A].
    rewrite E. f_equal. apply batch_outcome_json.
    intros m' [<-|Hm']; [congruence | apply Hrest; exact Hm'].
Qed.

(** ** The launch watcher: duplicates *)

Lemma key_eqb_refl (g : json) : hashable g = true -> key_eqb g g = true.
Proof.
  destruct g; simpl; try discriminate; intros _.
  - reflexivity.
  - destruct b; reflexivity.
  - apply Z.eqb_refl.
  - apply String.eqb_refl.
Qed.

Lemma ledger_has_app (g : json) (l1 l2 : ledger) :
  ledger_has g (l1 ++ l2) = (ledger_has g l1 || ledger_has g l2)%bool.
Proof. unfold ledger_has. apply existsb_app. Qed.

Lemma asg_shape_hashable (j g : json) :
  asg_shape_of j = Success g -> hashable g = true.
Proof.
  unfold asg_shape_of. destruct j as [| | | | |o]; try discriminate.
  destruct (assoc "event" o) as [ev|]; try discriminate.
  destruct (eq_str ev "asg-setup"); try discriminate.
  destruct (assoc "status" o) as [st|]; try discriminate.
  destruct (eq_str st "success"); try discriminate.
  destruct (assoc "asg" o) as [k|]; try discriminate.
  destruct (hashable k) eqn:H; try discriminate.
  intros E. injection E as <-. exact H.
Qed.

Lemma merge_notice_known (j g : json) (l : ledger) :
  asg_shape_of j = Success g -> ledger_has g l = true -> merge_notice j l = l.
Proof. unfold merge_notice. intros -> ->. reflexivity. Qed.

Lemma merge_notice_idem (j : json) (l : ledger) :
  merge_notice j (merge_notice j l) = merge_notice j l.
Proof.
  unfold merge_notice. destruct (asg_shape_of j) as [| | g] eqn:Hs; auto.
  destruct (ledger_has g l) eqn:Hl.
  - rewrite Hl. reflexivity.
  - rewrite ledger_has_app. simpl.
    rewrite (key_eqb_refl g (asg_shape_hashable j g Hs)).
    rewrite Bool.orb_true_r. reflexivity.
Qed.

Lemma batch_outcome_app (a b : list message) :
  forall l,
    batch_outcome (a ++ b) l =
      match batch_outcome a l with
      | Ok l' => batch_outcome b l'
      | Raise e => Raise e
      | OutOfFuel => OutOfFuel
      end.
Proof.
  induction a as [|m a IH]; intros l; simpl; [reflexivity|].
  destruct (msg_body m); [reflexivity | apply IH].
Qed.

Lemma batch_outcome_cons (m : message) (rest : list message) (l : ledger) :
  batch_outcome (m :: rest) l =
    match msg_body m with
    | NotJson => Raise ValueError
    | Json j => batch_outcome rest (merge_notice j l)
    end.
Proof. reflexivity. Qed.

Lemma batch_outcome_repeat (m : message) (post : list message) (n : nat) :
  forall l,
    batch_outcome (repeat m (S n) ++ post) l = batch_outcome (m :: post) l.
Proof.
  induction n as [|n IH]; intros l; [reflexivity|].
  change (repeat m (S (S n)) ++ post) with (m :: (repeat m (S n) ++ post)).
  rewrite batch_outcome_cons.
  destruct (msg_body m) as [|j] eqn:Hb.
  - rewrite batch_outcome_cons, Hb. reflexivity.
  - rewrite IH, !batch_outcome_cons, Hb, merge_notice_idem. reflexivity.
Qed.

(** ** The launch watcher: the loop *)

Lemma asg_loop_step (W : World) (fuel : nat) (q : string)
  (st T next : Z) (l : ledger) (s : State) :
  asg_loop W (S fuel) q st T next l s =
    let r := queue W q (n_receive s) in
    let s1 :=
      push (ELog Info 139)
        (elapse (took r)
           (count_receive (push (EReceive q 60) (push (ELog Info 133) s)))) in
    match asg_handle_batch q (value r) l s1 with
    | (Ok l', s2) =>
        if Nat.eqb (List.length l') 2 then (Ok l', push (ELog Info 166) s2)
        else if next + 30 >? st + T
        then (Ok l', push (ELogTimeout Info 171 T) s2)
        else if next + 30 - now s2 <? 0
        then (Raise ValueError, push (ELog Info 174) s2)
        else
          asg_loop W fuel q st T (next + 30) l'
            (elapse (next + 30 - now s2)
               (push (ESleep (next + 30 - now s2))
                  (push (ELog Info 174) s2)))
    | (Raise e, s2) => (Raise e, s2)
    | (OutOfFuel, s2) => (OutOfFuel, s2)
    end.
Proof.
  cbn [asg_loop].
  unfold bind, log, log_timeout, emit, receive_message, time_time, time_sleep,
    advance, ret, raise, SLEEP_INTERVAL_IN_SECS.
  change (n_receive (push (ELog Info 133) s)) with (n_receive s).
  cbv zeta.
  destruct (asg_handle_batch q (value (queue W q (n_receive s))) l _)
    as [[l'| e |] s2]; try reflexivity.
  destruct (Nat.eqb (List.length l') 2); [reflexivity|].
  destruct (next + 30 >? st + T); [reflexivity|].
  change (now (push (ELog Info 174) s2)) with (now s2).
  destruct (next + 30 - now s2 <? 0); reflexivity.
Qed.

Lemma asg_loop_sim (W1 W2 : World) (q : string) (st T : Z) :
  (forall i, took (queue W1 q i) = took (queue W2 q i)) ->
  (forall i l, batch_outcome (value (queue W1 q i)) l
               = batch_outcome (value (queue W2 q i)) l) ->
  forall (fuel : nat) (next : Z) (l : ledger) (s1 s2 : State),
    now s1 = now s2 -> n_receive s1 = n_receive s2 ->
    fst (asg_loop W1 fuel q st T next l s1)
    = fst (asg_loop W2 fuel q st T next l s2)
    /\ now (snd (asg_loop W1 fuel q st T next l s1))
       = now (snd (asg_loop W2 fuel q st T next l s2)).
Proof.
  intros Htook Hout. induction fuel as [|fuel IH]; intros next l s1 s2 Hn Hr.
  - simpl. auto.
  - rewrite !asg_loop_step. cbv zeta.
    match goal with
    | |- context [asg_handle_batch q ?b l ?s] =>
        destruct (asg_handle_batch_run q b l s) as [sa [Ea [Na [Ra _]]]]
    end.
    rewrite Ea. clear Ea.
    match goal with
    | |- context [asg_handle_batch q ?b l ?s] =>
        destruct (asg_handle_batch_run q b l s) as [sb [Eb [Nb [Rb _]]]]
    end.
    rewrite Eb. clear Eb.
    simpl in Na, Nb, Ra, Rb.
    rewrite Hr, Hout.
    assert (Hab : now sa = now sb).
    { rewrite Na, Nb, Hn, Hr, Htook. reflexivity. }
    destruct (batch_outcome (value (queue W2 q (n_receive s2))) l)
      as [l'| e |]; simpl; auto.
    destruct (Nat.eqb (List.length l') 2); simpl; auto.
    destruct (next + 30 >? st + T); simpl; auto.
    rewrite Hab.
    destruct (next + 30 - now sb <? 0); simpl; auto.
    apply IH; simpl; congruence.
Qed.

(** C7. Delivering the same launch notice N >= 1 times in a poll of
    [wait_until_asg_success] yields the ledger that delivering it once
    yields; a notice for a group already in the ledger leaves the ledger as
    it is. *)
Theorem ledger_merge_idempotent :
  forall (W1 W2 : World) (q : string) (k : nat) (pre post : list message)
         (m : message) (N fuel : nat) (timeout : Z) (s : State),
    (1 <= N)%nat ->
    (forall i, took (queue W1 q i) = took (queue W2 q i)) ->
    (forall i, i <> k -> value (queue W1 q i) = value (queue W2 q i)) ->
    value (queue W1 q k) = pre ++ repeat m N ++ post ->
    value (queue W2 q k) = pre ++ m :: post ->
    fst (wait_until_asg_success W1 fuel q timeout s)
    = fst (wait_until_asg_success W2 fuel q timeout s)
    /\ (forall j g l s0,
          msg_body m = Json j -> asg_shape_of j = Success g ->
          ledger_has g l = true ->
          fst (asg_handle_message q m l s0) = Ok l).
Proof.
  intros W1 W2 q k pre post m N fuel timeout s HN Htook Hother H1 H2. split.
  - unfold wait_until_asg_success, bind, log_timeout, emit, time_time.
    apply asg_loop_sim; try reflexivity; try exact Htook.
    intros i l. destruct (Nat.eq_dec i k) as [->|Hi].
    + rewrite H1, H2. rewrite !batch_outcome_app.
      destruct (batch_outcome pre l) as [l'| |]; try reflexivity.
      destruct N as [|n]; [lia|]. apply batch_outcome_repeat.
    + rewrite (Hother i Hi). reflexivity.
  - intros j g l s0 Hb Hs Hl.
    rewrite (asg_handle_message_json q m j l s0 Hb), Hs, Hl. reflexivity.
Qed.

Lemma handling_events_quiet (q : string) (msgs : list message) (deadline : Z)
  (ev : list (Z * event)) :
  Forall (handling_event q msgs) ev ->
  Forall (within_budget deadline) ev /\ filter is_sleep ev = [].
Proof.
  induction 1 as [|e ev He _ [IH1 IH2]]; [split; constructor|].
  destruct e as [t e]. unfold handling_event in He. simpl in He.
  split.
  - constructor; [|exact IH1]. unfold within_budget. simpl.
    destruct e; try exact I; contradiction.
  - simpl. unfold is_sleep at 1. simpl.
    destruct e; try exact IH2; contradiction.
Qed.

Lemma ledger_after_S (W : World) (q : string) (n0 k : nat) :
  ledger_after W q n0 (S k)
  = merge_batch (value (queue W q (n0 + k))) (ledger_after W q n0 k).
Proof. reflexivity. Qed.

Lemma asg_loop_timeout (W : World) (q : string) (st T K : Z) (n0 : nat) :
  0 <= K -> T < 30 * K + 30 -> (0 < K -> 30 * K <= T) ->
  (forall k, 0 <= took (queue W q (n0 + k)) <= 30) ->
  (forall k m, In m (value (queue W q (n0 + k))) -> msg_body m <> NotJson) ->
  (forall k, List.length (ledger_after W q n0 k) <> 2%nat) ->
  forall (fuel k : nat) (s : State),
    Z.of_nat k <= K -> (Z.to_nat K - k < fuel)%nat ->
    now s = st + 30 * Z.of_nat k -> n_receive s = (n0 + k)%nat ->
    exists s' ev,
      asg_loop W fuel q st T (st + 30 * Z.of_nat k) (ledger_after W q n0 k) s
      = (Ok (ledger_after W q n0 (S (Z.to_nat K))), s')
      /\ trace s' = trace s ++ ev ++ [(now s', ELogTimeout Info 171 T)]
      /\ now s' = st + 30 * K + took (queue W q (n0 + Z.to_nat K))
      /\ n_receive s' = (n0 + Z.to_nat K + 1)%nat
      /\ Forall (within_budget (st + T)) ev
      /\ List.length (filter is_sleep ev) = (Z.to_nat K - k)%nat.
Proof.
  intros HK0 HKhi HKlo Htook Hjson Hnever.
  induction fuel as [|fuel IH]; intros k s Hk Hfuel Hnow Hrecv; [lia|].
  rewrite asg_loop_step. cbv zeta. rewrite Hrecv.
  match goal with
  | |- context [asg_handle_batch q ?b ?l ?s0] =>
      destruct (asg_handle_batch_run q b l s0) as [s2 [E [N2 [R2 [ev2 [Et F2]]]]]]
  end.
  rewrite E. clear E. simpl in N2, R2, Et.
  rewrite (batch_outcome_json _ (Hjson k)), <- ledger_after_S.
  destruct (Nat.eqb_spec (List.length (ledger_after W q n0 (S k))) 2)
    as [Hbad|_]; [exfalso; exact (Hnever _ Hbad)|].
  destruct (handling_events_quiet _ _ (st + T) _ F2) as [Fq Fs].
  pose proof (Htook k) as Htk.
  destruct (Z.gtb_spec (st + 30 * Z.of_nat k + 30) (st + T)) as [Hgt|Hle].
  - (* the next tick is past the deadline: k = K *)
    assert (HkK : k = Z.to_nat K) by lia. subst k.
    eexists. exists ([(now s, ELog Info 133); (now s, EReceive q 60);
                      (now s + took (queue W q (n0 + Z.to_nat K)),
                       ELog Info 139)] ++ ev2).
    split; [reflexivity|].
    cbn [now trace n_receive push elapse count_receive].
    rewrite Et, N2, R2, Hrecv.
    repeat split.
    + rewrite <- !app_assoc. reflexivity.
    + lia.
    + lia.
    + repeat (constructor; [exact I|]). exact Fq.
    + cbn [app filter is_sleep snd]. rewrite Fs. simpl. lia.
  - (* the next tick is within the budget: sleep until it *)
    assert (HkK : Z.of_nat k < K) by lia.
    destruct (Z.ltb_spec (st + 30 * Z.of_nat k + 30 - now s2) 0) as [Hneg|Hpos];
      [lia|].
    set (d := st + 30 * Z.of_nat k + 30 - now s2) in *.
    destruct (IH (S k)
                (elapse d (push (ESleep d) (push (ELog Info 174) s2))))
      as [s' [ev' [E' [Et' [Hn' [Hr' [F' Hs']]]]]]].
    + lia.
    + lia.
    + cbn [now push elapse]. unfold d. lia.
    + cbn [n_receive push elapse]. lia.
    + replace (st + 30 * Z.of_nat (S k)) with (st + 30 * Z.of_nat k + 30)
        in E' by lia.
      exists s'.
      exists ([(now s, ELog Info 133); (now s, EReceive q 60);
               (now s + took (queue W q (n0 + k)), ELog Info 139)]
              ++ ev2 ++ [(now s2, ELog Info 174); (now s2, ESleep d)] ++ ev').
      split; [exact E'|].
      cbn [now trace n_receive push elapse count_receive] in Et'.
      rewrite Et', Et. cbn [now trace n_receive push elapse count_receive].
      repeat split.
      * rewrite <- !app_assoc. cbn [app]. reflexivity.
      * exact Hn'.
      * exact Hr'.
      * repeat (constructor; [exact I|]). apply Forall_app. split; [exact Fq|].
        constructor; [exact I|]. constructor; [|exact F'].
        unfold within_budget. cbn [fst snd]. subst d. lia.
      * cbn [app filter is_sleep snd]. rewrite filter_app, Fs.
        cbn [app filter is_sleep snd List.length]. rewrite Hs'. lia.
Qed.

(** C4 (as amended). Provided every poll returns within 30 seconds and
    every payload is JSON: if the expected groups never both report
    success, [wait_until_asg_success] with a budget that is not negative
    polls at the ticks start, start + 30, ... that are within the budget
    and reports the timeout right after the poll of the last such tick,
    start + 30 * floor(budget / 30): up to 30 seconds before the budget
    boundary, and past it by no more than the time of that poll; each sleep
    lasts at most 30 seconds and ends by the deadline.  With a budget below
    30 seconds, 5 seconds or a negative budget included, it reports the
    timeout right after its first poll, without sleeping. *)
Theorem asg_watcher_timeout :
  forall (W : World) (q : string) (timeout : Z) (fuel : nat) (s : State),
    (forall k, 0 <= took (queue W q (n_receive s + k)) <= 30) ->
    (forall k m, In m (value (queue W q (n_receive s + k))) ->
                 msg_body m <> NotJson) ->
    (forall k, List.length (ledger_after W q (n_receive s) k) <> 2%nat) ->
    (0 <= timeout -> (Z.to_nat (timeout / 30) < fuel)%nat ->
     let K := Z.to_nat (timeout / 30) in
     let last_poll := took (queue W q (n_receive s + K)) in
     exists l s' ev,
       wait_until_asg_success W fuel q timeout s = (Ok l, s')
       /\ List.length l <> 2%nat
       /\ trace s' = trace s ++ ev ++ [(now s', ELogTimeout Info 171 timeout)]
       /\ now s' = now s + 30 * (timeout / 30) + last_poll
       /\ now s + timeout - 30 < now s' - last_poll <= now s + timeout
       /\ n_receive s' = (n_receive s + K + 1)%nat
       /\ Forall (within_budget (now s + timeout)) ev
       /\ List.length (filter is_sleep ev) = K)
    /\ (timeout < 30 -> (0 < fuel)%nat ->
        exists l s' ev,
          wait_until_asg_success W fuel q timeout s = (Ok l, s')
          /\ List.length l <> 2%nat
          /\ trace s' = trace s ++ ev ++ [(now s', ELogTimeout Info 171 timeout)]
          /\ now s' = now s + took (queue W q (n_receive s))
          /\ n_receive s' = (n_receive s + 1)%nat
          /\ filter is_sleep ev = []).
Proof.
  intros W q timeout fuel s Htook Hjson Hnever.
  assert (Hrun : forall K : nat,
    timeout < 30 * Z.of_nat K + 30 ->
    (0 < Z.of_nat K -> 30 * Z.of_nat K <= timeout) ->
    (K < fuel)%nat ->
    exists l s' ev,
      wait_until_asg_success W fuel q timeout s = (Ok l, s')
      /\ List.length l <> 2%nat
      /\ trace s' = trace s ++ ev ++ [(now s', ELogTimeout Info 171 timeout)]
      /\ now s' = now s + 30 * Z.of_nat K
                  + took (queue W q (n_receive s + K))
      /\ n_receive s' = (n_receive s + K + 1)%nat
      /\ Forall (within_budget (now s + timeout)) ev
      /\ List.length (filter is_sleep ev) = K).
  { intros K HKhi HKlo Hfuel.
    destruct (asg_loop_timeout W q (now s) timeout (Z.of_nat K) (n_receive s)
                (Nat2Z.is_nonneg K) HKhi HKlo Htook Hjson Hnever fuel 0%nat
                (push (ELogTimeout Info 121 timeout) s))
      as [s' [ev [E [Et [Hn [Hr [F Hs]]]]]]].
    - lia.
    - rewrite Nat2Z.id. lia.
    - cbn [now push]. lia.
    - cbn [n_receive push]. lia.
    - rewrite Nat2Z.id in E, Hn, Hr, Hs.
      exists (ledger_after W q (n_receive s) (S K)), s',
        ((now s, ELogTimeout Info 121 timeout) :: ev).
      split.
      { unfold wait_until_asg_success, bind, log_timeout, emit, time_time.
        cbn [now push].
        replace (now s) with (now s + 30 * Z.of_nat 0) at 2 by lia.
        exact E. }
      split; [apply Hnever|].
      split.
      { rewrite Et. cbn [trace push]. rewrite <- app_assoc. reflexivity. }
      split; [exact Hn|].
      split; [exact Hr|].
      split.
      { constructor; [exact I | exact F]. }
      { cbn [filter is_sleep snd]. rewrite Hs. lia. } }
  split.
  - intros H0 Hfuel K last_poll.
    assert (HK : Z.of_nat K = timeout / 30).
    { unfold K. apply Z2Nat.id. apply Z.div_pos; lia. }
    pose proof (Z.div_mod timeout 30) as Hd.
    pose proof (Z.mod_pos_bound timeout 30) as Hm.
    destruct (Hrun K) as [l [s' [ev [E [Hl [Et [Hn [Hr [F Hs]]]]]]]]];
      try lia.
    exists l, s', ev. rewrite HK in Hn. fold last_poll in Hn.
    repeat (split; [first [assumption | lia]|]). exact Hs.
  - intros Hlt Hfuel.
    destruct (Hrun 0%nat) as [l [s' [ev [E [Hl [Et [Hn [Hr [_ Hs]]]]]]]]];
      try lia.
    exists l, s', ev.
    replace (n_receive s + 0)%nat with (n_receive s) in Hn by lia.
    split; [exact E|]. split; [exact Hl|]. split; [exact Et|].
    split; [lia|]. split; [lia|].
    destruct (filter is_sleep ev); [reflexivity | discriminate].
Qed.

(** ** The worker wait *)

Ltac solve_adds :=
  repeat (eapply adds_step; [| reflexivity | exact I]);
  apply adds_refl; reflexivity.

Ltac worker_message_case :=
  eexists; split; [reflexivity|];
  split; [reflexivity|]; split; [reflexivity|];
  split; [intros ?; solve_adds | try discriminate].

Lemma worker_handle_message_run (m : message) (s : State) :
  exists s',
    worker_handle_message m s =
      (match msg_body m with
       | NotJson => Raise ValueError
       | Json _ => Ok (broadcast_of m)
       end, s')
    /\ now s' = now s /\ n_receive s' = n_receive s
    /\ (forall q, adds (polling_event q) s s')
    /\ (forall found, broadcast_of m = Some found ->
                      ends_with (ELog Info 206) s').
Proof.
  unfold worker_handle_message, broadcast_of, try_except, bind, log, emit,
    json_loads, ends_with.
  destruct (msg_body m) as [|j]; [worker_message_case|].
  unfold raise, ret, lift, getitem.
  destruct j as [| b | n | t | a | o]; cbn [is_None];
    try worker_message_case.
  destruct (assoc "event" o) as [ev|]; [|worker_message_case].
  destruct (eq_str ev "worker-setup"); cbn [negb].
  - destruct (assoc "master-ip" o) as [mip|]; [|worker_message_case].
    destruct (assoc "worker-ips" o) as [wips|]; worker_message_case.
    intros _ _. eexists. reflexivity.
  - destruct (assoc "master-ip" o), (assoc "worker-ips" o);
      worker_message_case.
Qed.

Lemma worker_handle_batch_run (msgs : list message) :
  forall s : State,
  exists s',
    worker_handle_batch msgs s = (worker_batch_outcome msgs, s')
    /\ now s' = now s /\ n_receive s' = n_receive s
    /\ (forall q, adds (polling_event q) s s')
    /\ (forall found, worker_batch_outcome msgs = Ok (Some found) ->
                      ends_with (ELog Info 206) s').
Proof.
  induction msgs as [|m rest IH]; intros s.
  - exists s. cbn. unfold ret.
    split; [reflexivity|]. split; [reflexivity|]. split; [reflexivity|].
    split; [intros q; apply adds_refl; reflexivity | discriminate].
  - cbn [worker_handle_batch worker_batch_outcome]. unfold bind.
    destruct (worker_handle_message_run m s) as [s1 [E [N [R [A L]]]]].
    rewrite E. destruct (msg_body m) as [|j].
    + exists s1. split; [reflexivity|]. split; [exact N|].
      split; [exact R|]. split; [exact A | discriminate].
    + destruct (broadcast_of m) as [found|].
      * exists s1. unfold ret. split; [reflexivity|]. split; [exact N|].
        split; [exact R|]. split; [exact A|].
        intros f _. apply (L found). reflexivity.
      * destruct (IH s1) as [s2 [E2 [N2 [R2 [A2 L2]]]]].
        exists s2. split; [exact E2|]. split; [congruence|].
        split; [congruence|]. split; [|exact L2].
        intros q. eapply adds_trans; [apply A | apply A2].
Qed.

Lemma worker_batch_outcome_some (msgs : list message) (found : json * json) :
  worker_batch_outcome msgs = Ok (Some found) ->
  exists pre m post,
    msgs = pre ++ m :: post /\ broadcast_of m = Some found
    /\ Forall (fun m' => broadcast_of m' = None) pre.
Proof.
  induction msgs as [|m rest IH]; [discriminate|].
  cbn [worker_batch_outcome]. destruct (msg_body m); [discriminate|].
  destruct (broadcast_of m) as [f|] eqn:Hb.
  - intros E. injection E as ->. exists [], m, rest. repeat split; auto.
  - intros E. destruct (IH E) as [pre [m' [post [-> [Hm Hpre]]]]].
    exists (m :: pre), m', post. repeat split; auto.
Qed.

Lemma worker_batch_outcome_none (msgs : list message) :
  worker_batch_outcome msgs = Ok None ->
  Forall (fun m' => broadcast_of m' = None) msgs.
Proof.
  induction msgs as [|m rest IH]; [constructor|].
  cbn [worker_batch_outcome]. destruct (msg_body m); [discriminate|].
  destruct (broadcast_of m) as [f|] eqn:Hb; [discriminate|].
  intros E. constructor; auto.
Qed.



Lemma worker_batch_outcome_skip (pre : list message) :
  Forall (fun m' => msg_body m' <> NotJson /\ broadcast_of m' = None) pre ->
  worker_batch_outcome pre = Ok None.
Proof.
  induction 1 as [|m' pre [Hj Hn] _ IH]; [reflexivity|].
  cbn. rewrite Hn. destruct (msg_body m'); [congruence | exact IH].
Qed.

Lemma worker_loop_step (W : World) (fuel : nat) (q : string)
  (st T next : Z) (s : State) :
  worker_loop W (S fuel) q st T next s =
    let r := queue W q (n_receive s) in
    let s1 :=
      push (ELog Info 197)
        (elapse (took r)
           (count_receive (push (EReceive q 0) (push (ELog Info 194) s)))) in
    match worker_handle_batch (value r) s1 with
    | (Ok (Some found), s2) => (Ok (Some found), s2)
    | (Ok None, s2) =>
        if next + 30 >? st + T
        then (Ok None, push (ELogTimeout Info 216 T) s2)
        else if next + 30 - now s2 <? 0
        then (Raise ValueError, push (ELog Info 222) s2)
        else
          worker_loop W fuel q st T (next + 30)
            (elapse (next + 30 - now s2)
               (push (ESleep (next + 30 - now s2))
                  (push (ELog Info 222) s2)))
    | (Raise e, s2) => (Raise e, s2)
    | (OutOfFuel, s2) => (OutOfFuel, s2)
    end.
Proof.
  cbn [worker_loop].
  unfold bind, log, log_timeout, emit, receive_message, time_time, time_sleep,
    advance, ret, raise, SLEEP_INTERVAL_IN_SECS.
  change (n_receive (push (ELog Info 194) s)) with (n_receive s).
  cbv zeta.
  destruct (worker_handle_batch (value (queue W q (n_receive s))) _)
    as [[[found|]| e |] s2]; try reflexivity.
  destruct (next + 30 >? st + T); [reflexivity|].
  change (now (push (ELog Info 222) s2)) with (now s2).
  destruct (next + 30 - now s2 <? 0); reflexivity.
Qed.

Lemma worker_loop_adds (W : World) (q : string) (st T : Z) :
  forall (fuel : nat) (next : Z) (s : State),
    adds (polling_event q) s (snd (worker_loop W fuel q st T next s)).
Proof.
  induction fuel as [|fuel IH]; intros next s.
  - apply adds_refl. reflexivity.
  - rewrite worker_loop_step. cbv zeta.
    match goal with
    | |- context [worker_handle_batch ?b ?s0] =>
        destruct (worker_handle_batch_run b s0) as [s2 [E [_ [_ [A _]]]]]
    end.
    rewrite E. clear E.
    assert (A0 : adds (polling_event q) s s2).
    { eapply adds_trans; [|apply A].
      eapply adds_step; [| reflexivity | exact I].
      eapply adds_step; [| reflexivity | split; reflexivity].
      eapply adds_step; [| reflexivity | exact I].
      apply adds_refl. reflexivity. }
    destruct (worker_batch_outcome _) as [[found|]| e |]; cbn [snd];
      try exact A0.
    destruct (next + 30 >? st + T); cbn [snd].
    + eapply adds_step; [exact A0 | reflexivity | exact I].
    + destruct (next + 30 - now s2 <? 0); cbn [snd].
      * eapply adds_step; [exact A0 | reflexivity | exact I].
      * eapply adds_trans; [|apply IH].
        eapply adds_step; [| reflexivity | exact I].
        eapply adds_step; [exact A0 | reflexivity | exact I].
Qed.

Lemma worker_loop_sound (W : World) (q : string) (st T : Z) :
  forall (fuel : nat) (next : Z) (s : State) (r : option (json * json))
         (s' : State),
    worker_loop W fuel q st T next s = (Ok r, s') ->
    exists k : nat,
      n_receive s' = (n_receive s + k)%nat /\
      match r with
      | Some found =>
          (exists pre m post,
              observed W q (n_receive s) k = pre ++ m :: post
              /\ broadcast_of m = Some found
              /\ Forall (fun m' => broadcast_of m' = None) pre)
          /\ ends_with (ELog Info 206) s'
      | None =>
          Forall (fun m' => broadcast_of m' = None)
            (observed W q (n_receive s) k)
          /\ ends_with (ELogTimeout Info 216 T) s'
      end.
Proof.
  induction fuel as [|fuel IH]; intros next s r s' H; [discriminate|].
  rewrite worker_loop_step in H. cbv zeta in H.
  match type of H with
  | context [worker_handle_batch ?b ?s0] =>
      destruct (worker_handle_batch_run b s0) as [s2 [E [_ [R [_ L]]]]]
  end.
  rewrite E in H. clear E. cbn [n_receive push elapse count_receive] in R.
  destruct (worker_batch_outcome (value (queue W q (n_receive s))))
    as [[found|]| e |] eqn:Hout; try discriminate.
  - injection H as <- <-. exists 1%nat. split; [lia|]. split.
    + destruct (worker_batch_outcome_some _ _ Hout)
        as [pre [m [post [Hm [Hb Hpre]]]]].
      exists pre, m, post. cbn [observed]. rewrite app_nil_r. auto.
    + apply (L found). reflexivity.
  - pose proof (worker_batch_outcome_none _ Hout) as Hnone.
    destruct (next + 30 >? st + T).
    + injection H as <- <-. exists 1%nat. split; [cbn; lia|]. split.
      * cbn [observed]. rewrite app_nil_r. exact Hnone.
      * eexists. reflexivity.
    + destruct (next + 30 - now s2 <? 0); [discriminate|].
      apply IH in H. destruct H as [k [Hk Hr]].
      cbn [n_receive push elapse] in Hk, Hr. rewrite R in Hk, Hr.
      exists (S k). split; [lia|]. cbn [observed].
      destruct r as [found|].
      * destruct Hr as [[pre [m [post [Ho [Hb Hpre]]]]] He]. split; [|exact He].
        exists (value (queue W q (n_receive s)) ++ pre), m, post.
        rewrite Ho, app_assoc. repeat split; auto.
        apply Forall_app. split; assumption.
      * destruct Hr as [Ho He]. split; [|exact He].
        apply Forall_app. split; assumption.
Qed.


Lemma wait_for_worker_eq (W : World) (fuel : nat) (q : string) (T : Z)
  (s : State) :
  wait_for_worker_setup_message W fuel q T s
  = worker_loop W fuel q (now s) T (now s) (push (ELogTimeout Info 183 T) s).
Proof. reflexivity. Qed.

(** Without a valid broadcast the wait returns [None], after the poll of the
    last tick within the budget. *)
Lemma worker_loop_timeout (W : World) (q : string) (st T K : Z) (n0 : nat) :
  0 <= K -> T < 30 * K + 30 -> (0 < K -> 30 * K <= T) ->
  (forall i, 0 <= took (queue W q (n0 + i)) <= 30) ->
  (forall i m', In m' (value (queue W q (n0 + i))) ->
                msg_body m' <> NotJson /\ broadcast_of m' = None) ->
  forall (fuel i : nat) (s : State),
    Z.of_nat i <= K -> (Z.to_nat K - i < fuel)%nat ->
    now s = st + 30 * Z.of_nat i -> n_receive s = (n0 + i)%nat ->
    exists s',
      worker_loop W fuel q st T (st + 30 * Z.of_nat i) s = (Ok None, s')
      /\ now s' = st + 30 * K + took (queue W q (n0 + Z.to_nat K))
      /\ ends_with (ELogTimeout Info 216 T) s'.
Proof.
  intros HK0 HKhi HKlo Htook Hnone.
  induction fuel as [|fuel IH]; intros i s Hi Hfuel Hnow Hrecv; [lia|].
  rewrite worker_loop_step. cbv zeta. rewrite Hrecv.
  match goal with
  | |- context [worker_handle_batch ?b ?s0] =>
      destruct (worker_handle_batch_run b s0) as [s2 [E [N [R _]]]]
  end.
  rewrite E. clear E. cbn [now n_receive push elapse count_receive] in N, R.
  rewrite worker_batch_outcome_skip.
  2:{ apply Forall_forall. intros m' Hm'. apply (Hnone i m' Hm'). }
  pose proof (Htook i) as Htk.
  destruct (Z.gtb_spec (st + 30 * Z.of_nat i + 30) (st + T)).
  - assert (i = Z.to_nat K) by lia. subst i.
    eexists. split; [reflexivity|]. split.
    + cbn [now push]. lia.
    + eexists. reflexivity.
  - destruct (Z.ltb_spec (st + 30 * Z.of_nat i + 30 - now s2) 0); [lia|].
    set (d := st + 30 * Z.of_nat i + 30 - now s2) in *.
    destruct (IH (S i) (elapse d (push (ESleep d) (push (ELog Info 222) s2))))
      as [s' [E' Hn']].
    + lia.
    + lia.
    + cbn [now push elapse]. subst d. lia.
    + cbn [n_receive push elapse]. lia.
    + exists s'.
      replace (st + 30 * Z.of_nat (S i)) with (st + 30 * Z.of_nat i + 30)
        in E' by lia.
      auto.
Qed.

Lemma worker_wait_timeout (W : World) (fuel : nat) (q : string) (timeout : Z)
  (s : State) :
  (forall i, 0 <= took (queue W q (n_receive s + i)) <= 30) ->
  (forall i m', In m' (value (queue W q (n_receive s + i))) ->
                msg_body m' <> NotJson /\ broadcast_of m' = None) ->
  (Z.to_nat (timeout / 30) < fuel)%nat ->
  exists s',
    wait_for_worker_setup_message W fuel q timeout s = (Ok None, s')
    /\ now s' = now s + 30 * Z.of_nat (Z.to_nat (timeout / 30))
                + took (queue W q (n_receive s + Z.to_nat (timeout / 30)))
    /\ ends_with (ELogTimeout Info 216 timeout) s'.
Proof.
  intros Htook Hnone Hfuel. rewrite wait_for_worker_eq.
  set (K := Z.to_nat (timeout / 30)) in *.
  assert (HK : 0 <= Z.of_nat K /\ timeout < 30 * Z.of_nat K + 30
               /\ (0 < Z.of_nat K -> 30 * Z.of_nat K <= timeout)).
  { unfold K. pose proof (Z.div_mod timeout 30).
    pose proof (Z.mod_pos_bound timeout 30). lia. }
  destruct HK as [HK0 [HKhi HKlo]].
  destruct (worker_loop_timeout W q (now s) timeout (Z.of_nat K)
              (n_receive s) HK0 HKhi HKlo Htook Hnone fuel 0%nat
              (push (ELogTimeout Info 183 timeout) s))
    as [s' [E [Hn He]]]; try (cbn [now n_receive push]; lia).
  rewrite Nat2Z.id in Hn. exists s'. split; [|split; assumption].
  replace (now s + 30 * Z.of_nat 0) with (now s) in E by lia. exact E.
Qed.


(** ** The top-level flow *)

Lemma main_eq (W : World) (fuel : nat) (environ : option Config) (s : State) :
  main W fuel environ s =
    match main_body W fuel environ (push (ELog Info 459) s) with
    | (Raise e, s') =>
        if is_Exception e
        then (Raise (SystemExit 1), push (ELog Exception 504) s')
        else (Raise e, s')
    | r => r
    end.
Proof.
  unfold main, bind, log, emit, try_except.
  destruct (main_body W fuel environ (push (ELog Info 459) s))
    as [[u| e |] s']; reflexivity.
Qed.

Lemma main_body_gate (W : World) (fuel : nat) (cfg : Config) (s : State)
  (b : bool) (s1 : State) :
  check_instance_role_availability W fuel (AWS_DL_ROLE_NAME cfg)
    (setup_budget cfg) (push (ELog Info 475) s) = (Ok b, s1) ->
  main_body W fuel (Some cfg) s
  = run_role W fuel cfg (setup_budget cfg - (now s1 - now s)) s1.
Proof.
  intros H. unfold main_body, bind, ret, log, emit, time_time.
  fold (setup_budget cfg). rewrite H. reflexivity.
Qed.

Lemma run_role_worker_none (W : World) (fuel : nat) (cfg : Config) (T : Z)
  (s1 s2 : State) :
  lower (AWS_DL_NODE_TYPE cfg) = "worker"%string ->
  wait_for_worker_setup_message W fuel (AWS_DL_WORKER_QUEUE cfg) T s1
  = (Ok None, s2) ->
  run_role W fuel cfg T s1 = (Raise TypeError, s2).
Proof.
  intros Hn H.
  assert (E1 : String.eqb "worker" "master" = false) by reflexivity.
  assert (E2 : String.eqb "worker" "worker" = true) by reflexivity.
  unfold run_role. rewrite Hn, E1, E2. unfold bind at 1. rewrite H.
  reflexivity.
Qed.

Lemma ends_with_inj (e1 e2 : event) (s : State) :
  ends_with e1 s -> ends_with e2 s -> e1 = e2.
Proof.
  intros [t1 E1] [t2 E2]. rewrite E1 in E2.
  apply app_inj_tail in E2. destruct E2 as [_ E]. congruence.
Qed.

(** C10. When [wait_for_worker_setup_message] times out it returns the single
    value [None]; in the worker branch of [main] the unpacking of that value
    raises [TypeError], so the run goes from the timeout straight to the
    outermost handler: the only event after the timeout is the handler's log
    line 504 (the error line 496 of the [None] check is not reached), and the
    exit code 1 is the handler's. *)
Theorem worker_timeout_exits_through_handler :
  forall (W : World) (fuel : nat) (cfg : Config) (s0 : State) (b : bool)
         (s1 : State) (r : option (json * json)) (s2 : State),
    lower (AWS_DL_NODE_TYPE cfg) = "worker"%string ->
    check_instance_role_availability W fuel (AWS_DL_ROLE_NAME cfg)
      (setup_budget cfg) (push (ELog Info 475) (push (ELog Info 459) s0))
    = (Ok b, s1) ->
    let budget := setup_budget cfg - (now s1 - now s0) in
    wait_for_worker_setup_message W fuel (AWS_DL_WORKER_QUEUE cfg) budget s1
    = (Ok r, s2) ->
    ends_with (ELogTimeout Info 216 budget) s2 ->
    r = None
    /\ run_role W fuel cfg budget s1 = (Raise TypeError, s2)
    /\ main W fuel (Some cfg) s0
       = (Raise (SystemExit 1), push (ELog Exception 504) s2)
    /\ exit_code (fst (main W fuel (Some cfg) s0)) = Some 1.
Proof.
  intros W fuel cfg s0 b s1 r s2 Hn Hgate budget Hwait Hend.
  assert (Hr : r = None).
  { destruct r as [found|]; [|reflexivity].
    pose proof Hwait as H. rewrite wait_for_worker_eq in H.
    apply worker_loop_sound in H. destruct H as [k [_ [_ He]]].
    pose proof (ends_with_inj _ _ _ He Hend). discriminate. }
  subst r.
  pose proof (run_role_worker_none W fuel cfg budget s1 s2 Hn Hwait) as Hrole.
  assert (Hmain : main W fuel (Some cfg) s0
                  = (Raise (SystemExit 1), push (ELog Exception 504) s2)).
  { rewrite main_eq, (main_body_gate W fuel cfg _ b s1 Hgate).
    cbn [now push]. fold budget. rewrite Hrole. reflexivity. }
  repeat split; auto. rewrite Hmain. reflexivity.
Qed.

(** ** The master's phases *)


(** With one master, line 384 subscripts the view of the values. *)
Lemma build_membership_single (masters workers : ipmap) (wmsg : json)
  (s : State) :
  List.length masters = 1%nat ->
  build_membership masters workers wmsg s = (Raise TypeError, s).
Proof.
  intros H. unfold build_membership. rewrite H. reflexivity.
Qed.


(** [setup_worker_metadata] ends at the ledger: with a ledger that is not
    of two groups at the exit of line 362, with one of two groups at the
    [iteritems] of line 366. *)
Lemma setup_worker_metadata_eq (W : World) (fuel : nat) (T : Z) (q : string)
  (s : State) :
  setup_worker_metadata W fuel T q s =
    match wait_until_asg_success W fuel q T (push (ELog Info 353) s) with
    | (Ok l, s1) =>
        if Nat.eqb (List.length l) 2 then (Raise AttributeError, s1)
        else (Raise (SystemExit 1), push (ELog Error 358) s1)
    | (Raise e, s1) => (Raise e, s1)
    | (OutOfFuel, s1) => (OutOfFuel, s1)
    end.
Proof.
  unfold setup_worker_metadata, bind, log, emit, time_time, lift, iteritems,
    sys_exit, raise, ret.
  destruct (wait_until_asg_success W fuel q T (push (ELog Info 353) s))
    as [[l| e |] s1]; try reflexivity.
  destruct (Nat.eqb (List.length l) 2); reflexivity.
Qed.

Lemma setup_worker_metadata_not_ok (W : World) (fuel : nat) (T : Z)
  (q : string) (s : State) (v : string * list string) (s' : State) :
  setup_worker_metadata W fuel T q s <> (Ok v, s').
Proof.
  rewrite setup_worker_metadata_eq.
  destruct (wait_until_asg_success W fuel q T (push (ELog Info 353) s))
    as [[l| e |] s1]; try discriminate.
  destruct (Nat.eqb (List.length l) 2); discriminate.
Qed.

Lemma run_role_master (W : World) (fuel : nat) (cfg : Config) (T : Z)
  (s : State) :
  lower (AWS_DL_NODE_TYPE cfg) = "master"%string ->
  run_role W fuel cfg T s =
    match setup_worker_metadata W fuel T (AWS_DL_MASTER_QUEUE cfg) s with
    | (Ok (master_instance_ip, worker_instance_ips), s') =>
        (setup_env_variables W (JStr master_instance_ip)
           (JArr (map JStr worker_instance_ips)) ;;
         send_worker_setup_msg (AWS_DL_WORKER_QUEUE cfg) master_instance_ip
           worker_instance_ips ;;
         send_cfn_success_signal W) s'
    | (Raise e, s') => (Raise e, s')
    | (OutOfFuel, s') => (OutOfFuel, s')
    end.
Proof.
  intros Hn.
  assert (E : String.eqb "master" "master" = true) by reflexivity.
  unfold run_role. rewrite Hn, E. unfold bind at 1.
  destruct (setup_worker_metadata W fuel T (AWS_DL_MASTER_QUEUE cfg) s)
    as [[[mip ips]| e |] s']; reflexivity.
Qed.

(** A master node ends where [setup_worker_metadata] ends. *)
Lemma run_role_master_eq (W : World) (fuel : nat) (cfg : Config) (T : Z)
  (s : State) :
  lower (AWS_DL_NODE_TYPE cfg) = "master"%string ->
  run_role W fuel cfg T s =
    match wait_until_asg_success W fuel (AWS_DL_MASTER_QUEUE cfg) T
            (push (ELog Info 353) s) with
    | (Ok l, s1) =>
        if Nat.eqb (List.length l) 2 then (Raise AttributeError, s1)
        else (Raise (SystemExit 1), push (ELog Error 358) s1)
    | (Raise e, s1) => (Raise e, s1)
    | (OutOfFuel, s1) => (OutOfFuel, s1)
    end.
Proof.
  intros Hn. rewrite (run_role_master W fuel cfg T s Hn),
    setup_worker_metadata_eq.
  destruct (wait_until_asg_success W fuel (AWS_DL_MASTER_QUEUE cfg) T
              (push (ELog Info 353) s)) as [[l| e |] s1]; try reflexivity.
  destruct (Nat.eqb (List.length l) 2); reflexivity.
Qed.

(** C5 (as amended). In [main] the budget handed to the phase that follows
    the role gate is the previous budget minus the time the gate consumed;
    it is zero when the consumed time equals the budget and negative when
    the consumed time exceeds it: the difference is not clamped at zero. *)
Theorem budget_handed_to_next_phase :
  forall (W : World) (fuel : nat) (cfg : Config) (s : State) (b : bool)
         (s1 : State),
    check_instance_role_availability W fuel (AWS_DL_ROLE_NAME cfg)
      (setup_budget cfg) (push (ELog Info 475) s) = (Ok b, s1) ->
    let consumed := now s1 - now s in
    main_body W fuel (Some cfg) s
    = run_role W fuel cfg (setup_budget cfg - consumed) s1
    /\ (consumed = setup_budget cfg -> setup_budget cfg - consumed = 0)
    /\ (consumed > setup_budget cfg -> setup_budget cfg - consumed < 0).
Proof.
  intros W fuel cfg s b s1 H consumed.
  split; [apply (main_body_gate W fuel cfg s b s1 H)|]. lia.
Qed.

(** ** The role gate *)

Lemma assoc_del_other {V : Type} (k k' : string) (o : list (string * V)) :
  k <> k' -> assoc k (assoc_del k' o) = assoc k o.
Proof.
  intros Hk. induction o as [|[k0 v] t IH]; [reflexivity|].
  cbn [assoc_del assoc].
  destruct (String.eqb_spec k' k0) as [->|Hk0].
  - rewrite IH. destruct (String.eqb_spec k k0); [contradiction | reflexivity].
  - cbn [assoc]. rewrite IH. reflexivity.
Qed.

Lemma probe_outcome_present (md : json) (role_name : string) :
  credentials_present md role_name -> probe_outcome md role_name = Ok true.
Proof.
  intros [o [iam [creds [record [i [k [t [-> [H1 [H2 [H3 [H4 [H5 H6]]]]]]]]]]]]].
  unfold probe_outcome, getitem, delitem, res_bind.
  rewrite H1, H2, H3, H4.
  rewrite (assoc_del_other "SecretAccessKey" "AccessKeyId" record), H5
    by discriminate.
  rewrite !assoc_del_other, H6 by discriminate.
  reflexivity.
Qed.

Lemma probe_role_run (W : World) (role_name : string) (s : State) :
  exists s',
    probe_role W role_name s
    = (probe_outcome (value (metadata W (n_metadata s))) role_name, s')
    /\ now s' = now s + took (metadata W (n_metadata s))
    /\ n_metadata s' = S (n_metadata s)
    /\ slept s' = slept s.
Proof.
  unfold probe_role, probe_outcome, try_except, bind, lift,
    get_instance_metadata, res_bind, log, emit, ret.
  cbv zeta.
  assert (Hs : forall e l n,
             e = EMetadata \/ e = ELog l n ->
             forall s0, slept (push e s0) = slept s0).
  { intros e l n He s0. unfold slept, push. cbn [trace].
    rewrite flat_map_app. cbn [flat_map snd fst].
    destruct He as [->| ->]; cbn; rewrite !app_nil_r; reflexivity. }
  assert (Hs1 : slept (elapse (took (metadata W (n_metadata s)))
                         (count_metadata (push EMetadata s))) = slept s).
  { change (slept (push EMetadata s) = slept s).
    apply (Hs EMetadata Info 0%nat). left; reflexivity. }
  assert (Hs2 : forall l n,
             slept (push (ELog l n)
                      (elapse (took (metadata W (n_metadata s)))
                         (count_metadata (push EMetadata s)))) = slept s).
  { intros l n. rewrite (Hs (ELog l n) l n) by (right; reflexivity).
    exact Hs1. }
  repeat match goal with
         | |- context [match ?r with Ok _ => _ | Raise _ => _ | OutOfFuel => _ end] =>
             match r with
             | getitem _ _ => destruct r as [?| [] |]
             | delitem _ _ => destruct r as [?| [] |]
             end
         end;
    cbn [catches_key];
    eexists; (split; [reflexivity|]); (split; [reflexivity|]);
    (split; [reflexivity|]); auto.
Qed.

Lemma role_loop_step (W : World) (fuel : nat) (role_name : string)
  (st T next : Z) (s : State) :
  role_loop W (S fuel) role_name st T next s =
    match probe_role W role_name (push (ELog Info 426) s) with
    | (Ok true, s2) => (Ok true, s2)
    | (Ok false, s2) =>
        if next + 30 >? st + T
        then (Ok false, push (ELogTimeout Info 447 T) s2)
        else if next + 30 - now s2 <? 0
        then (Raise ValueError, push (ELog Info 450) s2)
        else
          role_loop W fuel role_name st T (next + 30)
            (elapse (next + 30 - now s2)
               (push (ESleep (next + 30 - now s2))
                  (push (ELog Info 450) s2)))
    | (Raise e, s2) => (Raise e, s2)
    | (OutOfFuel, s2) => (OutOfFuel, s2)
    end.
Proof.
  cbn [role_loop].
  unfold bind at 1 2. unfold log at 1. unfold emit at 1.
  destruct (probe_role W role_name (push (ELog Info 426) s))
    as [[[|]| e |] s2]; try reflexivity.
  unfold SLEEP_INTERVAL_IN_SECS, ret.
  destruct (next + 30 >? st + T); [reflexivity|].
  unfold bind, log, emit, time_time, time_sleep, advance, raise.
  change (now (push (ELog Info 450) s2)) with (now s2).
  destruct (next + 30 - now s2 <? 0); reflexivity.
Qed.

(** The gate returns true at the first look that finds the record, if that
    look falls on a tick within the budget. *)
Lemma role_loop_true (W : World) (role_name : string) (st T : Z)
  (n0 k : nat) :
  (forall i, (i <= k)%nat -> 0 <= took (metadata W (n0 + i)) <= 30) ->
  (forall i, (i < k)%nat ->
             probe_outcome (value (metadata W (n0 + i))) role_name = Ok false) ->
  probe_outcome (value (metadata W (n0 + k))) role_name = Ok true ->
  30 * Z.of_nat k <= T ->
  forall (fuel i : nat) (s : State),
    (i <= k)%nat -> (k - i < fuel)%nat ->
    now s = st + 30 * Z.of_nat i -> n_metadata s = (n0 + i)%nat ->
    exists s',
      role_loop W fuel role_name st T (st + 30 * Z.of_nat i) s = (Ok true, s')
      /\ now s' = st + 30 * Z.of_nat k + took (metadata W (n0 + k)).
Proof.
  intros Htook Hbefore Hk HT.
  induction fuel as [|fuel IH]; intros i s Hi Hfuel Hnow Hn; [lia|].
  rewrite role_loop_step.
  destruct (probe_role_run W role_name (push (ELog Info 426) s))
    as [s2 [E [N [R _]]]].
  change (n_metadata (push (ELog Info 426) s)) with (n_metadata s) in E, N, R.
  change (now (push (ELog Info 426) s)) with (now s) in N.
  rewrite E. clear E. rewrite Hn in *.
  destruct (Nat.eq_dec i k) as [->|Hik].
  - rewrite Hk. exists s2. split; [reflexivity | lia].
  - assert (Hlt : (i < k)%nat) by lia. rewrite (Hbefore i Hlt).
    pose proof (Htook i (Nat.lt_le_incl _ _ Hlt)) as Htk.
    destruct (Z.gtb_spec (st + 30 * Z.of_nat i + 30) (st + T)); [lia|].
    destruct (Z.ltb_spec (st + 30 * Z.of_nat i + 30 - now s2) 0); [lia|].
    set (d := st + 30 * Z.of_nat i + 30 - now s2) in *.
    destruct (IH (S i) (elapse d (push (ESleep d) (push (ELog Info 450) s2))))
      as [s' [E' Hn']].
    + lia.
    + lia.
    + cbn [now push elapse]. subst d. lia.
    + cbn [n_metadata push elapse]. lia.
    + exists s'.
      replace (st + 30 * Z.of_nat (S i)) with (st + 30 * Z.of_nat i + 30)
        in E' by lia.
      auto.
Qed.

(** The gate returns false after the look of the last tick within the
    budget, when no look finds the record. *)
Lemma role_loop_false (W : World) (role_name : string) (st T K : Z)
  (n0 : nat) :
  0 <= K -> T < 30 * K + 30 -> (0 < K -> 30 * K <= T) ->
  (forall i, 0 <= took (metadata W (n0 + i)) <= 30) ->
  (forall i, probe_outcome (value (metadata W (n0 + i))) role_name
             = Ok false) ->
  forall (fuel i : nat) (s : State),
    Z.of_nat i <= K -> (Z.to_nat K - i < fuel)%nat ->
    now s = st + 30 * Z.of_nat i -> n_metadata s = (n0 + i)%nat ->
    exists s',
      role_loop W fuel role_name st T (st + 30 * Z.of_nat i) s = (Ok false, s')
      /\ now s' = st + 30 * K + took (metadata W (n0 + Z.to_nat K))
      /\ ends_with (ELogTimeout Info 447 T) s'.
Proof.
  intros HK0 HKhi HKlo Htook Habsent.
  induction fuel as [|fuel IH]; intros i s Hi Hfuel Hnow Hn; [lia|].
  rewrite role_loop_step.
  destruct (probe_role_run W role_name (push (ELog Info 426) s))
    as [s2 [E [N [R _]]]].
  change (n_metadata (push (ELog Info 426) s)) with (n_metadata s) in E, N, R.
  change (now (push (ELog Info 426) s)) with (now s) in N.
  rewrite E. clear E. rewrite Hn in *.
  rewrite Habsent. pose proof (Htook i) as Htk.
  destruct (Z.gtb_spec (st + 30 * Z.of_nat i + 30) (st + T)).
  - assert (i = Z.to_nat K) by lia. subst i.
    eexists. split; [reflexivity|]. split.
    + cbn [now push]. lia.
    + eexists. reflexivity.
  - destruct (Z.ltb_spec (st + 30 * Z.of_nat i + 30 - now s2) 0); [lia|].
    set (d := st + 30 * Z.of_nat i + 30 - now s2) in *.
    destruct (IH (S i) (elapse d (push (ESleep d) (push (ELog Info 450) s2))))
      as [s' [E' Hn']].
    + lia.
    + lia.
    + cbn [now push elapse]. subst d. lia.
    + cbn [n_metadata push elapse]. lia.
    + exists s'.
      replace (st + 30 * Z.of_nat (S i)) with (st + 30 * Z.of_nat i + 30)
        in E' by lia.
      auto.
Qed.

(** [check_instance_role_availability] returns true as soon as a look at the
    metadata finds the credentials of the role, and false once the next tick
    would fall past the budget. *)
Lemma role_gate_outcomes (W : World) (fuel : nat) (role_name : string)
  (timeout : Z) (s : State) :
  (forall i, 0 <= took (metadata W (n_metadata s + i)) <= 30) ->
  (forall k,
      (forall i, (i < k)%nat ->
         probe_outcome (value (metadata W (n_metadata s + i))) role_name
         = Ok false) ->
      credentials_present (value (metadata W (n_metadata s + k))) role_name ->
      30 * Z.of_nat k <= timeout -> (k < fuel)%nat ->
      exists s',
        check_instance_role_availability W fuel role_name timeout s
        = (Ok true, s')
        /\ now s' = now s + 30 * Z.of_nat k
                    + took (metadata W (n_metadata s + k)))
  /\ ((forall i,
         probe_outcome (value (metadata W (n_metadata s + i))) role_name
         = Ok false) ->
      (Z.to_nat (timeout / 30) < fuel)%nat ->
      exists s',
        check_instance_role_availability W fuel role_name timeout s
        = (Ok false, s')
        /\ now s' = now s + 30 * Z.of_nat (Z.to_nat (timeout / 30))
                    + took (metadata W
                              (n_metadata s + Z.to_nat (timeout / 30)))
        /\ ends_with (ELogTimeout Info 447 timeout) s').
Proof.
  intros Htook. split.
  - intros k Hbefore Hk HT Hfuel.
    destruct (role_loop_true W role_name (now s) timeout (n_metadata s) k
                (fun i _ => Htook i) Hbefore
                (probe_outcome_present _ _ Hk) HT fuel 0%nat
                (push (ELogTimeout Info 418 timeout) s))
      as [s' [E Hn]]; try (cbn [now n_metadata push]; lia).
    exists s'. split; [|exact Hn].
    replace (now s + 30 * Z.of_nat 0) with (now s) in E by lia. exact E.
  - intros Habsent Hfuel.
    set (K := Z.to_nat (timeout / 30)) in *.
    assert (HK : 0 <= Z.of_nat K /\ timeout < 30 * Z.of_nat K + 30
                 /\ (0 < Z.of_nat K -> 30 * Z.of_nat K <= timeout)).
    { unfold K. pose proof (Z.div_mod timeout 30).
      pose proof (Z.mod_pos_bound timeout 30). lia. }
    destruct HK as [HK0 [HKhi HKlo]].
    destruct (role_loop_false W role_name (now s) timeout (Z.of_nat K)
                (n_metadata s) HK0 HKhi HKlo Htook Habsent fuel 0%nat
                (push (ELogTimeout Info 418 timeout) s))
      as [s' [E [Hn He]]]; try (cbn [now n_metadata push]; lia).
    rewrite Nat2Z.id in Hn. exists s'. split; [|split; assumption].
    replace (now s + 30 * Z.of_nat 0) with (now s) in E by lia. exact E.
Qed.

(** ** The resolution loop *)

(** One turn of the loop of [wait_until_instances_active], after the page
    was read: success on an empty pending list, the next page at once when a
    token is present; without a token the loop stops with 'Reached timeout'
    when the next tick is before the deadline and sleeps when it is not. *)
Lemma instances_loop_step (W : World) (fuel : nat)
  (master_ids worker_ids : list string) (st T next : Z)
  (token : option string) (r : resolution) (s : State) :
  instances_loop W (S fuel) master_ids worker_ids st T next token r s =
    let p := directory W (n_directory s) in
    let s1 :=
      elapse (took p)
        (count_directory
           (push (EReservations (pending_instance_ids r) token)
              (push (ELog Info 274) s))) in
    match resolve_page master_ids worker_ids (reservations (value p)) r s1 with
    | (Ok r', s2) =>
        if Nat.eqb (List.length (pending_instance_ids r')) 0
        then (Ok r', push (ELog Info 301) s2)
        else
          match page_token (value p) with
          | Some _ =>
              instances_loop W fuel master_ids worker_ids st T (next + 30)
                (page_token (value p)) r' (push (ELog Info 307) s2)
          | None =>
              if next + 30 <? st + T
              then (Ok r', push (ELog Error 310) s2)
              else if next + 30 - now s2 <? 0
              then (Raise ValueError, push (ELog Info 316) s2)
              else
                instances_loop W fuel master_ids worker_ids st T (next + 30)
                  None r'
                  (elapse (next + 30 - now s2)
                     (push (ESleep (next + 30 - now s2))
                        (push (ELog Info 316) s2)))
          end
    | (Raise e, s2) => (Raise e, s2)
    | (OutOfFuel, s2) => (OutOfFuel, s2)
    end.
Proof.
  cbn [instances_loop].
  unfold bind at 1 2 3. unfold log at 1. unfold emit at 1.
  unfold get_all_reservations.
  change (n_directory (push (ELog Info 274) s)) with (n_directory s).
  cbv zeta.
  destruct (resolve_page master_ids worker_ids
              (reservations (value (directory W (n_directory s)))) r _)
    as [[r'| e |] s2]; try reflexivity.
  destruct (Nat.eqb (List.length (pending_instance_ids r')) 0);
    [reflexivity|].
  unfold SLEEP_INTERVAL_IN_SECS.
  destruct (page_token (value (directory W (n_directory s)))) as [tok|];
    [reflexivity|].
  destruct (next + 30 <? st + T); [reflexivity|].
  unfold bind, log, emit, time_time, time_sleep, advance, raise.
  change (now (push (ELog Info 316) s2)) with (now s2).
  destruct (next + 30 - now s2 <? 0); reflexivity.
Qed.

(** ** The runs of the sample worlds *)

(** C1. The deadline test of the resolution loop is the reverse of the one
    the other loops apply: with a pending master, no pagination token and
    100 seconds of budget, the loop logs 'Reached timeout' (line 310) after
    its first page, at the start time and without a sleep; with 20 seconds
    of budget it sleeps 30 seconds again and again, far past the deadline,
    and never reports the timeout. *)
Theorem resolver_deadline_test_inverted :
  (let r := wait_until_instances_active pending_master 5 group_names 100
              (initial 1000) in
   fst r = Ok ([], [("i-w2", "10.0.0.3"); ("i-w1", "10.0.0.2")]%string)
   /\ logged Error 310 (snd r) = true
   /\ slept (snd r) = []
   /\ now (snd r) = 1000)
  /\ (let r := wait_until_instances_active pending_master 4 group_names 20
                 (initial 1000) in
      fst r = OutOfFuel
      /\ logged Error 310 (snd r) = false
      /\ slept (snd r) = [(1000, 30); (1030, 30); (1060, 30); (1090, 30)]
      /\ now (snd r) = 1120).
Proof. vm_compute. repeat split. Qed.

(** C2. With the role absent from the metadata for the whole budget, the
    gate returns false and [main] goes on all the same.  On a master node
    the launch watcher is started with what is left of the budget (0) and
    consumes the two launch notices; on a worker node the wait for the
    broadcast is started with what is left of the budget (0), and the
    process sets up its environment and ends with exit code 0. *)
Theorem main_proceeds_after_role_gate_false :
  fst (check_instance_role_availability no_role 10 "dl-role" 60
         (push (ELog Info 475) (push (ELog Info 459) (initial 1000))))
  = Ok false
  /\ (let r := main no_role 10 (Some master_cfg) (initial 1000) in
      budgets_logged 121 (snd r) = [0]
      /\ deleted (snd r) = [master_notice; worker_notice])
  /\ (let r := main no_role 10 (Some worker_cfg) (initial 1000) in
      budgets_logged 183 (snd r) = [0]
      /\ environment_steps (snd r)
         = [(JStr "10.0.0.1",
             JArr [JStr "10.0.0.1"; JStr "10.0.0.2"; JStr "10.0.0.3"])]
      /\ exit_code (fst r) = Some 0).
Proof. vm_compute. repeat split. Qed.

(** C3, the statement as written fails: a failure notice is deleted from
    the queue although nothing was merged into the ledger. *)
Lemma asg_failure_notice_is_deleted :
  let r := asg_handle_message "mq" failure_notice [] (initial 0) in
  fst r = Ok [] /\ deleted (snd r) = [failure_notice]
  /\ asg_shape_of (notice "stack-WorkerASG-1" "failure" 0) = Ignored.
Proof. vm_compute. repeat split. Qed.

Lemma asg_message_handling_witness :
  msg_body incomplete_notice
  = Json (JObj [("status", JStr "success");
                ("asg", JStr "stack-WorkerASG-1")]%string)
  /\ asg_handle_message "mq" incomplete_notice [] (initial 0)
     = (Ok [], push (ELog Error 162)
                 (push (ELog Exception 161)
                    (push (ELog Info 142) (initial 0)))).
Proof.
  split; [reflexivity|].
  exact (proj1 (asg_message_handling "mq" incomplete_notice _ [] (initial 0)
                  eq_refl)).
Defined.

(** C4, the statement as written fails: with a budget of 100 seconds and no
    message, the timeout is reported at second 90, before the boundary. *)
Lemma asg_watcher_times_out_before_boundary :
  let r := wait_until_asg_success quiet 10 "mq" 100 (initial 1000) in
  fst r = Ok []
  /\ budgets_logged 171 (snd r) = [100]
  /\ now (snd r) = 1090
  /\ now (snd r) < 1000 + 100.
Proof. vm_compute. repeat split. Qed.

Lemma quiet_ledger_empty (q : string) (n0 k : nat) :
  ledger_after quiet q n0 k = [].
Proof. induction k as [|k IH]; [reflexivity|]. cbn. exact IH. Qed.

Lemma asg_watcher_timeout_witness :
  exists l s' ev,
    wait_until_asg_success quiet 1 "mq" 5 (initial 1000) = (Ok l, s')
    /\ List.length l <> 2%nat
    /\ trace s' = ev ++ [(now s', ELogTimeout Info 171 5)]
    /\ now s' = 1000
    /\ filter is_sleep ev = [].
Proof.
  destruct (asg_watcher_timeout quiet "mq" 5 1 (initial 1000)) as [_ H].
  - intros k. cbn. lia.
  - intros k m [].
  - intros k. rewrite quiet_ledger_empty. cbn. lia.
  - destruct H as [l [s' [ev [E [Hl [Ht [Hn [_ Hs]]]]]]]]; [lia | lia |].
    exists l, s', ev. repeat split; assumption.
Defined.

(** C5, the statement as written fails: the gate consumes 70 seconds of a
    budget of 60, and the launch watcher is handed -10 seconds. *)
Lemma budget_goes_negative :
  let gate := check_instance_role_availability slow_gate 10 "dl-role" 60
                (push (ELog Info 475) (push (ELog Info 459) (initial 1000))) in
  let r := main slow_gate 10 (Some master_cfg) (initial 1000) in
  fst gate = Ok false
  /\ now (snd gate) - 1000 = 70
  /\ budgets_logged 121 (snd r) = [-10].
Proof. vm_compute. repeat split. Qed.

Lemma budget_handed_to_next_phase_witness :
  exists s1,
    check_instance_role_availability healthy_world 10 "dl-role" 60
      (push (ELog Info 475) (initial 1000)) = (Ok true, s1)
    /\ main_body healthy_world 10 (Some master_cfg) (initial 1000)
       = run_role healthy_world 10 master_cfg (60 - (now s1 - 1000)) s1.
Proof.
  eexists. split; [reflexivity|].
  exact (proj1 (budget_handed_to_next_phase healthy_world 10%nat master_cfg
                  (initial 1000) true _ eq_refl)).
Defined.

Lemma ledger_merge_idempotent_witness :
  fst (wait_until_asg_success
         (delivered [master_notice; master_notice; master_notice]) 3 "mq" 70
         (initial 0))
  = fst (wait_until_asg_success (delivered [master_notice]) 3 "mq" 70
           (initial 0)).
Proof.
  apply (proj1 (ledger_merge_idempotent
                  (delivered [master_notice; master_notice; master_notice])
                  (delivered [master_notice]) "mq" 0 [] [] master_notice 3 3
                  70 (initial 0) (le_S _ _ (le_S _ _ (le_n 1)))
                  (fun _ => eq_refl)
                  (fun i => match i with
                            | O => fun H => False_ind _ (H eq_refl)
                            | S _ => fun _ => eq_refl
                            end)
                  eq_refl eq_refl)).
Defined.


Lemma worker_timeout_witness :
  exit_code (fst (main quiet 10 (Some worker_cfg) (initial 1000))) = Some 1.
Proof.
  pose (s1 := snd (check_instance_role_availability quiet 10 "dl-role" 60
                     (push (ELog Info 475)
                        (push (ELog Info 459) (initial 1000))))).
  pose (s2 := snd (wait_for_worker_setup_message quiet 10 "wq" 0 s1)).
  refine (proj2 (proj2 (proj2
            (worker_timeout_exits_through_handler quiet 10 worker_cfg
               (initial 1000) false s1 None s2 _ _ _ _)))).
  - vm_compute. reflexivity.
  - vm_compute. reflexivity.
  - vm_compute. reflexivity.
  - exists (removelast (trace s2)). vm_compute. reflexivity.
Defined.

(** ** Footprints: the building blocks *)

Lemma emits_ret {A : Type} (P : Z * event -> Prop) (a : A) : emits P (ret a).
Proof. intros s. apply adds_refl. reflexivity. Qed.

Lemma emits_raise {A : Type} (P : Z * event -> Prop) (e : exn) :
  emits P (@raise A e).
Proof. intros s. apply adds_refl. reflexivity. Qed.

Lemma emits_out_of_fuel {A : Type} (P : Z * event -> Prop) :
  emits P (@out_of_fuel A).
Proof. intros s. apply adds_refl. reflexivity. Qed.

Lemma emits_lift {A : Type} (P : Z * event -> Prop) (r : res A) :
  emits P (lift r).
Proof. intros s. apply adds_refl. reflexivity. Qed.

Lemma emits_time_time (P : Z * event -> Prop) : emits P time_time.
Proof. intros s. apply adds_refl. reflexivity. Qed.

Lemma emits_emit (P : Z * event -> Prop) (e : event) :
  (forall t, P (t, e)) -> emits P (emit e).
Proof.
  intros H s. eapply adds_step;
    [apply adds_refl; reflexivity | reflexivity | apply H].
Qed.

Lemma emits_bind {A B : Type} (P : Z * event -> Prop) (m : M A)
  (k : A -> M B) :
  emits P m -> (forall a, emits P (k a)) -> emits P (bind m k).
Proof.
  intros Hm Hk s. unfold bind. specialize (Hm s).
  destruct (m s) as [[a| e |] s1]; cbn [snd] in *; try exact Hm.
  eapply adds_trans; [exact Hm | apply Hk].
Qed.

Lemma emits_try_except {A : Type} (P : Z * event -> Prop) (body : M A)
  (catches : exn -> bool) (handler : exn -> M A) :
  emits P body -> (forall e, emits P (handler e)) ->
  emits P (try_except body catches handler).
Proof.
  intros Hb Hh s. unfold try_except. specialize (Hb s).
  destruct (body s) as [[a| e |] s1]; cbn [snd] in *; try exact Hb.
  destruct (catches e); cbn [snd]; [|exact Hb].
  eapply adds_trans; [exact Hb | apply Hh].
Qed.

Lemma emits_time_sleep (P : Z * event -> Prop) (d : Z) :
  (forall t, P (t, ESleep d)) -> emits P (time_sleep d).
Proof.
  intros H. unfold time_sleep. destruct (d <? 0); [apply emits_raise|].
  apply emits_bind; [apply emits_emit; exact H|].
  intros _ s. apply adds_refl. reflexivity.
Qed.

Lemma emits_impl {A : Type} (P Q : Z * event -> Prop) (m : M A) :
  (forall e, P e -> Q e) -> emits P m -> emits Q m.
Proof. intros I H s. eapply adds_impl; [exact I | apply H]. Qed.

Lemma emits_get_instance_metadata (W : World) (P : Z * event -> Prop) :
  (forall t, P (t, EMetadata)) -> emits P (get_instance_metadata W).
Proof.
  intros H s. eapply adds_step;
    [apply adds_refl; reflexivity | reflexivity | apply H].
Qed.

Lemma emits_receive_message (W : World) (P : Z * event -> Prop) (q : string)
  (v : Z) :
  (forall t, P (t, EReceive q v)) -> emits P (receive_message W q v).
Proof.
  intros H s. eapply adds_step;
    [apply adds_refl; reflexivity | reflexivity | apply H].
Qed.

Lemma emits_get_all_groups (W : World) (P : Z * event -> Prop)
  (names : list json) :
  (forall t, P (t, EGroups names)) -> emits P (get_all_groups W names).
Proof.
  intros H s. eapply adds_step;
    [apply adds_refl; reflexivity | reflexivity | apply H].
Qed.

Lemma emits_get_all_reservations (W : World) (P : Z * event -> Prop)
  (ids : list string) (token : option string) :
  (forall t, P (t, EReservations ids token)) ->
  emits P (get_all_reservations W ids token).
Proof.
  intros H s. eapply adds_step;
    [apply adds_refl; reflexivity | reflexivity | apply H].
Qed.

(** Splits a footprint goal along the structure of the computation; what
    is left are the conditions on single events and the calls of other
    functions. *)
Ltac emits_split :=
  repeat match goal with
    | |- emits _ (ret _) => apply emits_ret
    | |- emits _ (raise _) => apply emits_raise
    | |- emits _ out_of_fuel => apply emits_out_of_fuel
    | |- emits _ (lift _) => apply emits_lift
    | |- emits _ time_time => apply emits_time_time
    | |- emits _ (bind _ _) => apply emits_bind; [|intros]
    | |- emits _ (try_except _ _ _) => apply emits_try_except; [|intros]
    | |- emits _ (emit _) => apply emits_emit; intros
    | |- emits _ (time_sleep _) => apply emits_time_sleep; intros
    | |- emits _ (get_instance_metadata _) =>
        apply emits_get_instance_metadata; intros
    | |- emits _ (receive_message _ _ _) => apply emits_receive_message; intros
    | |- emits _ (get_all_groups _ _) => apply emits_get_all_groups; intros
    | |- emits _ (get_all_reservations _ _ _) =>
        apply emits_get_all_reservations; intros
    | |- emits _ (if ?b then _ else _) => destruct b
    | |- emits _ (match ?x with _ => _ end) => destruct x
    | |- emits _ (json_loads ?b) => unfold json_loads
    | |- emits _ (log _ _) => unfold log
    | |- emits _ (log_timeout _ _ _) => unfold log_timeout
    | |- emits _ (sys_exit _) => unfold sys_exit
    | |- emits _ (delete_message _ _) => unfold delete_message
    | |- emits _ (send_message _ _) => unfold send_message
    | |- emits _ (unpack_pair _) => unfold unpack_pair
    end.

Ltac event_ok := solve [exact I | cbn; auto].

(** ** Footprints: the functions *)

Lemma role_loop_emits (W : World) (role_name : string) (st T : Z) :
  forall (fuel : nat) (next : Z),
    emits gate_event (role_loop W fuel role_name st T next).
Proof.
  induction fuel as [|fuel IH]; intros next; cbn [role_loop];
    unfold probe_role; emits_split; event_ok.
Qed.

Lemma check_instance_role_availability_emits (W : World) (fuel : nat)
  (role_name : string) (timeout : Z) :
  emits gate_event (check_instance_role_availability W fuel role_name timeout).
Proof.
  unfold check_instance_role_availability.
  emits_split; try event_ok. apply role_loop_emits.
Qed.

Lemma asg_handle_batch_emits (q : string) (msgs : list message) :
  forall l, emits (watcher_event q) (asg_handle_batch q msgs l).
Proof.
  induction msgs as [|m rest IH]; intros l; cbn [asg_handle_batch];
    unfold asg_handle_message, asg_merge; emits_split; event_ok.
Qed.

Lemma asg_loop_emits (W : World) (q : string) (st T : Z) :
  forall (fuel : nat) (next : Z) (l : ledger),
    emits (watcher_event q) (asg_loop W fuel q st T next l).
Proof.
  induction fuel as [|fuel IH]; intros next l; cbn [asg_loop];
    emits_split; try event_ok.
  apply asg_handle_batch_emits.
Qed.

Lemma wait_until_asg_success_emits (W : World) (fuel : nat) (q : string)
  (timeout : Z) :
  emits (watcher_event q) (wait_until_asg_success W fuel q timeout).
Proof.
  unfold wait_until_asg_success. emits_split; try event_ok.
  apply asg_loop_emits.
Qed.

Lemma wait_for_worker_setup_message_emits (W : World) (fuel : nat)
  (q : string) (timeout : Z) :
  emits (polling_event q) (wait_for_worker_setup_message W fuel q timeout).
Proof.
  unfold wait_for_worker_setup_message. emits_split; try event_ok.
  intros s. apply worker_loop_adds.
Qed.

Lemma split_groups_emits (gs : list asg) :
  forall mids wids, emits resolver_event (split_groups gs mids wids).
Proof.
  induction gs as [|g rest IH]; intros mids wids; cbn [split_groups];
    emits_split; event_ok.
Qed.

Lemma resolve_instances_emits (mids wids : list string)
  (insts : list instance) :
  forall r, emits resolver_event (resolve_instances mids wids insts r).
Proof.
  induction insts as [|i rest IH]; intros r; cbn [resolve_instances];
    unfold resolve_instance; emits_split; event_ok.
Qed.

Lemma resolve_page_emits (mids wids : list string)
  (rs : list (list instance)) :
  forall r, emits resolver_event (resolve_page mids wids rs r).
Proof.
  induction rs as [|insts rest IH]; intros r; cbn [resolve_page];
    emits_split; try event_ok.
  apply resolve_instances_emits.
Qed.

Lemma instances_loop_emits (W : World) (mids wids : list string) (st T : Z) :
  forall (fuel : nat) (next : Z) (token : option string) (r : resolution),
    emits resolver_event (instances_loop W fuel mids wids st T next token r).
Proof.
  induction fuel as [|fuel IH]; intros next token r; cbn [instances_loop];
    emits_split; try event_ok.
  apply resolve_page_emits.
Qed.

Lemma wait_until_instances_active_emits (W : World) (fuel : nat)
  (names : list json) (timeout : Z) :
  emits resolver_event (wait_until_instances_active W fuel names timeout).
Proof.
  unfold wait_until_instances_active. emits_split; try event_ok.
  - apply split_groups_emits.
  - apply instances_loop_emits.
Qed.

(** ** What is raised: the building blocks *)

Lemma raises_ret {A : Type} (Q : exn -> Prop) (a : A) : raises Q (ret a).
Proof. intros s e s' H. discriminate. Qed.

Lemma raises_out_of_fuel {A : Type} (Q : exn -> Prop) :
  raises Q (@out_of_fuel A).
Proof. intros s e s' H. discriminate. Qed.

Lemma raises_time_time (Q : exn -> Prop) : raises Q time_time.
Proof. intros s e s' H. discriminate. Qed.

Lemma raises_emit (Q : exn -> Prop) (ev : event) : raises Q (emit ev).
Proof. intros s e s' H. discriminate. Qed.

Lemma raises_raise {A : Type} (Q : exn -> Prop) (e : exn) :
  Q e -> raises Q (@raise A e).
Proof. intros H s e' s' E. injection E as <- _. exact H. Qed.

Lemma raises_lift {A : Type} (Q : exn -> Prop) (r : res A) :
  (forall e, r = Raise e -> Q e) -> raises Q (lift r).
Proof. intros H s e s' E. injection E as E _. apply H. exact E. Qed.

Lemma raises_bind {A B : Type} (Q : exn -> Prop) (m : M A) (k : A -> M B) :
  raises Q m -> (forall a, raises Q (k a)) -> raises Q (bind m k).
Proof.
  intros Hm Hk s e s'. unfold bind.
  destruct (m s) as [[a| e1 |] s1] eqn:E; intros H.
  - apply (Hk a s1 e s' H).
  - injection H as <- _. apply (Hm s e1 s1 E).
  - discriminate.
Qed.

Lemma raises_try_except {A : Type} (Q Q' : exn -> Prop) (body : M A)
  (catches : exn -> bool) (handler : exn -> M A) :
  raises Q' body ->
  (forall e, Q' e -> catches e = false -> Q e) ->
  (forall e, raises Q (handler e)) ->
  raises Q (try_except body catches handler).
Proof.
  intros Hb Hc Hh s e s'. unfold try_except.
  destruct (body s) as [[a| e1 |] s1] eqn:E; intros H; try discriminate.
  destruct (catches e1) eqn:C.
  - apply (Hh e1 s1 e s' H).
  - injection H as <- _. apply Hc; [apply (Hb s e1 s1 E) | exact C].
Qed.

Lemma raises_impl {A : Type} (Q Q' : exn -> Prop) (m : M A) :
  (forall e, Q e -> Q' e) -> raises Q m -> raises Q' m.
Proof. intros I H s e s' E. apply I. apply (H s e s' E). Qed.

Lemma raises_time_sleep (Q : exn -> Prop) (d : Z) :
  Q ValueError -> raises Q (time_sleep d).
Proof.
  intros H. unfold time_sleep. destruct (d <? 0).
  - apply raises_raise. exact H.
  - apply raises_bind; [apply raises_emit|]. intros _ s e s' E. discriminate.
Qed.

Lemma raises_call {A : Type} (Q : exn -> Prop) (m : M A) :
  (forall s, exists a s', m s = (Ok a, s')) -> raises Q m.
Proof. intros H s e s' E. destruct (H s) as [a [s1 E1]]. congruence. Qed.

Lemma no_exit_exit_one (e : exn) : no_exit e -> exit_one e.
Proof. unfold no_exit, exit_one. intros H c ->. discriminate. Qed.

(** The exceptions of the pure operations. *)
Lemma getitem_raises (j : json) (k : string) (e : exn) :
  getitem j k = Raise e -> e = KeyError \/ e = TypeError.
Proof.
  unfold getitem. destruct j as [| | | | |o]; try (intros [= <-]; auto).
  destruct (assoc k o); intros [= <-]; auto.
Qed.

Lemma delitem_raises (j : json) (k : string) (e : exn) :
  delitem j k = Raise e -> e = KeyError \/ e = TypeError.
Proof.
  unfold delitem. destruct j as [| | | | |o]; try (intros [= <-]; auto).
  destruct (assoc k o); intros [= <-]; auto.
Qed.

Lemma ledger_mem_raises (k : json) (l : ledger) (e : exn) :
  ledger_mem k l = Raise e -> e = TypeError.
Proof. unfold ledger_mem. destruct (hashable k); intros [= <-]; auto. Qed.

Lemma lower_of_raises (j : json) (e : exn) :
  lower_of j = Raise e -> e = AttributeError.
Proof. unfold lower_of. destruct j; intros [= <-]; auto. Qed.

Lemma list_remove_raises (x : string) (l : list string) (e : exn) :
  list_remove x l = Raise e -> e = ValueError.
Proof.
  induction l as [|y t IH]; cbn [list_remove]; [intros [= <-]; auto|].
  destruct (String.eqb x y); [discriminate|].
  destruct (list_remove x t) as [t'| e' |]; try discriminate.
  intros [= <-]. apply IH. reflexivity.
Qed.

Ltac pure_no_exit :=
  let e := fresh "e" in
  let H := fresh "H" in
  intros e H;
  first
    [ apply getitem_raises in H; destruct H as [->| ->]
    | apply delitem_raises in H; destruct H as [->| ->]
    | apply ledger_mem_raises in H; subst e
    | apply lower_of_raises in H; subst e
    | apply list_remove_raises in H; subst e ];
  first [ reflexivity | intros ? ?; discriminate ].

Ltac raises_split :=
  repeat match goal with
    | |- raises _ (ret _) => apply raises_ret
    | |- raises _ out_of_fuel => apply raises_out_of_fuel
    | |- raises _ time_time => apply raises_time_time
    | |- raises _ (emit _) => apply raises_emit
    | |- raises _ (bind _ _) => apply raises_bind; [|intros]
    | |- raises _ (lift (getitem _ _)) => apply raises_lift; pure_no_exit
    | |- raises _ (lift (delitem _ _)) => apply raises_lift; pure_no_exit
    | |- raises _ (lift (ledger_mem _ _)) => apply raises_lift; pure_no_exit
    | |- raises _ (lift (lower_of _)) => apply raises_lift; pure_no_exit
    | |- raises _ (lift (list_remove _ _)) => apply raises_lift; pure_no_exit
    | |- raises _ (if ?b then _ else _) => destruct b
    | |- raises _ (match ?x with _ => _ end) => destruct x
    | |- raises _ (json_loads ?b) => unfold json_loads
    | |- raises _ (log _ _) => unfold log
    | |- raises _ (log_timeout _ _ _) => unfold log_timeout
    | |- raises _ (delete_message _ _) => unfold delete_message
    | |- raises _ (send_message _ _) => unfold send_message
    | |- raises _ (unpack_pair _) => unfold unpack_pair
    | |- raises _ (get_instance_metadata _) =>
        apply raises_call; intros; eexists; eexists; reflexivity
    | |- raises _ (receive_message _ _ _) =>
        apply raises_call; intros; eexists; eexists; reflexivity
    | |- raises _ (get_all_groups _ _) =>
        apply raises_call; intros; eexists; eexists; reflexivity
    | |- raises _ (get_all_reservations _ _ _) =>
        apply raises_call; intros; eexists; eexists; reflexivity
    end.

Ltac exn_ok :=
  solve [ reflexivity | intros ? ?; discriminate
        | intros ? [= <-]; reflexivity | auto ].

(** ** What is raised: the functions *)

Lemma role_loop_raises (W : World) (role_name : string) (st T : Z) :
  forall (fuel : nat) (next : Z),
    raises no_exit (role_loop W fuel role_name st T next).
Proof.
  induction fuel as [|fuel IH]; intros next; cbn [role_loop];
    raises_split; try exn_ok.
  - unfold probe_role.
    apply raises_try_except with (Q' := no_exit);
      [raises_split; exn_ok | auto | intros; raises_split].
  - apply raises_time_sleep. reflexivity.
Qed.

Lemma check_instance_role_availability_raises (W : World) (fuel : nat)
  (role_name : string) (timeout : Z) :
  raises no_exit (check_instance_role_availability W fuel role_name timeout).
Proof.
  unfold check_instance_role_availability. raises_split.
  apply role_loop_raises.
Qed.

Ltac raises_more :=
  repeat first
    [ progress raises_split
    | match goal with
      | |- raises _ (sys_exit _) => unfold sys_exit
      | |- raises _ (raise _) => apply raises_raise
      | |- raises _ (time_sleep _) => apply raises_time_sleep
      | |- raises _ (try_except _ _ _) =>
          apply raises_try_except with (Q' := no_exit); [| auto | intros]
      end ].

Lemma asg_handle_batch_raises (q : string) (msgs : list message) :
  forall l, raises no_exit (asg_handle_batch q msgs l).
Proof.
  induction msgs as [|m rest IH]; intros l; cbn [asg_handle_batch];
    unfold asg_handle_message, asg_merge; raises_more; exn_ok.
Qed.

Lemma asg_loop_raises (W : World) (q : string) (st T : Z) :
  forall (fuel : nat) (next : Z) (l : ledger),
    raises no_exit (asg_loop W fuel q st T next l).
Proof.
  induction fuel as [|fuel IH]; intros next l; cbn [asg_loop];
    raises_more; try exn_ok.
  apply asg_handle_batch_raises.
Qed.

Lemma wait_until_asg_success_raises (W : World) (fuel : nat) (q : string)
  (timeout : Z) :
  raises no_exit (wait_until_asg_success W fuel q timeout).
Proof.
  unfold wait_until_asg_success. raises_more. apply asg_loop_raises.
Qed.

Lemma worker_handle_batch_raises (msgs : list message) :
  raises no_exit (worker_handle_batch msgs).
Proof.
  induction msgs as [|m rest IH]; cbn [worker_handle_batch];
    unfold worker_handle_message; raises_more; exn_ok.
Qed.

Lemma worker_loop_raises (W : World) (q : string) (st T : Z) :
  forall (fuel : nat) (next : Z),
    raises no_exit (worker_loop W fuel q st T next).
Proof.
  induction fuel as [|fuel IH]; intros next; cbn [worker_loop];
    raises_more; try exn_ok.
  apply worker_handle_batch_raises.
Qed.

Lemma wait_for_worker_setup_message_raises (W : World) (fuel : nat)
  (q : string) (timeout : Z) :
  raises no_exit (wait_for_worker_setup_message W fuel q timeout).
Proof.
  unfold wait_for_worker_setup_message. raises_more. apply worker_loop_raises.
Qed.

Lemma split_groups_raises (gs : list asg) :
  forall mids wids, raises no_exit (split_groups gs mids wids).
Proof.
  induction gs as [|g rest IH]; intros mids wids; cbn [split_groups];
    raises_more; exn_ok.
Qed.

Lemma resolve_instances_raises (mids wids : list string)
  (insts : list instance) :
  forall r, raises no_exit (resolve_instances mids wids insts r).
Proof.
  induction insts as [|i rest IH]; intros r; cbn [resolve_instances];
    unfold resolve_instance; raises_more; exn_ok.
Qed.

Lemma resolve_page_raises (mids wids : list string)
  (rs : list (list instance)) :
  forall r, raises no_exit (resolve_page mids wids rs r).
Proof.
  induction rs as [|insts rest IH]; intros r; cbn [resolve_page];
    raises_more; try exn_ok.
  apply resolve_instances_raises.
Qed.

Lemma instances_loop_raises (W : World) (mids wids : list string) (st T : Z) :
  forall (fuel : nat) (next : Z) (token : option string) (r : resolution),
    raises no_exit (instances_loop W fuel mids wids st T next token r).
Proof.
  induction fuel as [|fuel IH]; intros next token r; cbn [instances_loop];
    raises_more; try exn_ok.
  apply resolve_page_raises.
Qed.

Lemma wait_until_instances_active_no_raise (W : World) (fuel : nat)
  (names : list json) (timeout : Z) :
  raises (fun _ => False) (wait_until_instances_active W fuel names timeout).
Proof.
  unfold wait_until_instances_active. raises_split.
  apply raises_try_except with (Q' := no_exit).
  - raises_more; try exn_ok.
    + apply split_groups_raises.
    + apply instances_loop_raises.
  - unfold no_exit. intros e0 H1 H2. congruence.
  - intros e0. raises_more.
Qed.

(** ** The runs of [main] *)

Lemma emits_bind_ok {A B : Type} (P : Z * event -> Prop) (m : M A)
  (k : A -> M B) :
  emits P m ->
  (forall s a s1, m s = (Ok a, s1) -> adds P s1 (snd (k a s1))) ->
  emits P (bind m k).
Proof.
  intros Hm Hk s. unfold bind. specialize (Hm s).
  destruct (m s) as [[a| e |] s1] eqn:E; cbn [snd] in *; try exact Hm.
  eapply adds_trans; [exact Hm | apply (Hk s a s1 E)].
Qed.

Lemma build_membership_raises (masters workers : ipmap) (wmsg : json) :
  raises exit_one (build_membership masters workers wmsg).
Proof.
  unfold build_membership. raises_more; try exn_ok.
  apply raises_lift. intros e H. unfold values_getitem in H.
  inversion H. intros c Hc. discriminate.
Qed.

Lemma wait_until_instances_active_raises (W : World) (fuel : nat)
  (names : list json) (timeout : Z) :
  raises exit_one (wait_until_instances_active W fuel names timeout).
Proof.
  intros s e s' H. exfalso.
  exact (wait_until_instances_active_no_raise W fuel names timeout s e s' H).
Qed.

Lemma pick_messages_raises (items : ledger) :
  forall mm wm, raises no_exit (pick_messages items mm wm).
Proof.
  induction items as [|[key value] rest IH]; intros mm wm;
    cbn [pick_messages]; raises_more; exn_ok.
Qed.

Lemma resolve_and_build_raises (W : World) (fuel : nat) (T : Z)
  (mm wm : json) :
  raises exit_one (resolve_and_build W fuel T mm wm).
Proof.
  unfold resolve_and_build. raises_more; try exn_ok.
  - apply wait_until_instances_active_raises.
  - apply build_membership_raises.
Qed.

Lemma setup_worker_metadata_raises (W : World) (fuel : nat) (T : Z)
  (q : string) :
  raises exit_one (setup_worker_metadata W fuel T q).
Proof.
  unfold setup_worker_metadata. raises_more; try exn_ok.
  - eapply raises_impl; [apply no_exit_exit_one|].
    apply wait_until_asg_success_raises.
  - apply raises_lift. intros e H. unfold iteritems in H.
    inversion H. intros c Hc. discriminate.
  - eapply raises_impl; [apply no_exit_exit_one|]. apply pick_messages_raises.
  - apply resolve_and_build_raises.
Qed.

Lemma setup_env_variables_raises (W : World) (a b : json) :
  raises exit_one (setup_env_variables W a b).
Proof. unfold setup_env_variables. raises_more; exn_ok. Qed.

Lemma send_worker_setup_msg_raises (q mip : string) (ips : list string) :
  raises exit_one (send_worker_setup_msg q mip ips).
Proof. unfold send_worker_setup_msg. raises_more. Qed.

Lemma send_cfn_success_signal_raises (W : World) :
  raises exit_one (send_cfn_success_signal W).
Proof. unfold send_cfn_success_signal. raises_more; exn_ok. Qed.

Lemma run_role_raises (W : World) (fuel : nat) (cfg : Config) (T : Z) :
  raises exit_one (run_role W fuel cfg T).
Proof.
  unfold run_role. raises_more; try exn_ok;
    first [ apply setup_worker_metadata_raises
          | apply setup_env_variables_raises
          | apply send_worker_setup_msg_raises
          | apply send_cfn_success_signal_raises
          | eapply raises_impl; [apply no_exit_exit_one|];
            apply wait_for_worker_setup_message_raises ].
Qed.

Lemma main_body_raises (W : World) (fuel : nat) (environ : option Config) :
  raises exit_one (main_body W fuel environ).
Proof.
  unfold main_body. raises_more; try exn_ok.
  - eapply raises_impl; [apply no_exit_exit_one|].
    apply check_instance_role_availability_raises.
  - apply run_role_raises.
Qed.

(** X1. Whatever the world and the environment, a run of [main] ends in one
    of two ways: a normal return (exit code 0) or [SystemExit] with code 1;
    no other exception leaves [main] and no other exit code is produced. *)
Theorem main_exit_code_zero_or_one :
  forall (W : World) (fuel : nat) (environ : option Config) (s : State),
    fst (main W fuel environ s) = OutOfFuel
    \/ exit_code (fst (main W fuel environ s)) = Some 0
    \/ (fst (main W fuel environ s) = Raise (SystemExit 1)
        /\ exit_code (fst (main W fuel environ s)) = Some 1).
Proof.
  intros W fuel environ s. rewrite main_eq.
  destruct (main_body W fuel environ (push (ELog Info 459) s))
    as [[[]| e |] s1] eqn:E; cbn [fst]; auto.
  right. right.
  destruct (is_Exception e) eqn:Hx; cbn [fst]; [auto|].
  pose proof (main_body_raises W fuel environ _ e s1 E) as H.
  destruct e; try discriminate. rewrite (H code eq_refl). auto.
Qed.

Lemma gate_event_worker (cfg : Config) (e : Z * event) :
  gate_event e -> worker_node_event cfg e.
Proof.
  unfold gate_event, worker_node_event. destruct (snd e); auto; contradiction.
Qed.

Lemma gate_event_master (cfg : Config) (e : Z * event) :
  gate_event e -> master_quiet_event cfg e.
Proof.
  unfold gate_event, master_quiet_event, master_node_event.
  destruct (snd e); auto; contradiction.
Qed.

Lemma polling_event_worker (cfg : Config) (e : Z * event) :
  polling_event (AWS_DL_WORKER_QUEUE cfg) e -> worker_node_event cfg e.
Proof.
  unfold polling_event, worker_node_event. destruct (snd e); auto; contradiction.
Qed.

Lemma watcher_event_master (cfg : Config) (e : Z * event) :
  watcher_event (AWS_DL_MASTER_QUEUE cfg) e -> master_quiet_event cfg e.
Proof.
  unfold watcher_event, master_quiet_event, master_node_event.
  destruct (snd e); auto; contradiction.
Qed.

Lemma resolver_event_master (cfg : Config) (e : Z * event) :
  resolver_event e -> master_quiet_event cfg e.
Proof.
  unfold resolver_event, master_quiet_event, master_node_event.
  destruct (snd e); auto; contradiction.
Qed.

Lemma master_quiet_event_node (cfg : Config) (e : Z * event) :
  master_quiet_event cfg e -> master_node_event cfg e.
Proof. unfold master_quiet_event. destruct (snd e) eqn:E; auto; contradiction. Qed.

Lemma pick_messages_emits (P : Z * event -> Prop) (items : ledger) :
  (forall t lvl n, P (t, ELog lvl n)) ->
  forall mm wm, emits P (pick_messages items mm wm).
Proof.
  intros HP. induction items as [|[key value] rest IH]; intros mm wm;
    cbn [pick_messages]; emits_split; auto.
Qed.

Lemma build_membership_emits (P : Z * event -> Prop)
  (masters workers : ipmap) (wmsg : json) :
  (forall t lvl n, P (t, ELog lvl n)) ->
  emits P (build_membership masters workers wmsg).
Proof. intros HP. unfold build_membership. emits_split; auto. Qed.

Lemma setup_worker_metadata_emits (W : World) (fuel : nat) (cfg : Config)
  (T : Z) :
  emits (master_quiet_event cfg)
    (setup_worker_metadata W fuel T (AWS_DL_MASTER_QUEUE cfg)).
Proof.
  unfold setup_worker_metadata, resolve_and_build. emits_split; try event_ok.
  - eapply emits_impl; [apply watcher_event_master|].
    apply wait_until_asg_success_emits.
  - apply pick_messages_emits. intros; exact I.
  - eapply emits_impl; [apply resolver_event_master|].
    apply wait_until_instances_active_emits.
  - apply build_membership_emits. intros; exact I.
Qed.

Lemma setup_worker_metadata_view (W : World) (fuel : nat) (T : Z) (q : string)
  (s : State) (mip : string) (ips : list string) (s' : State) :
  setup_worker_metadata W fuel T q s = (Ok (mip, ips), s') -> In mip ips.
Proof.
  intros H. exfalso.
  exact (setup_worker_metadata_not_ok W fuel T q s (mip, ips) s' H).
Qed.

Lemma setup_env_variables_emits (W : World) (P : Z * event -> Prop)
  (a b : json) :
  (forall t lvl n, P (t, ELog lvl n)) -> (forall t, P (t, ESetupEnv a b)) ->
  emits P (setup_env_variables W a b).
Proof. intros H1 H2. unfold setup_env_variables. emits_split; auto. Qed.

Lemma send_cfn_success_signal_emits (W : World) (cfg : Config) :
  emits (master_quiet_event cfg) (send_cfn_success_signal W).
Proof. unfold send_cfn_success_signal. emits_split; event_ok. Qed.

Lemma run_role_worker_emits (W : World) (fuel : nat) (cfg : Config) (T : Z) :
  lower (AWS_DL_NODE_TYPE cfg) = "worker"%string ->
  emits (worker_node_event cfg) (run_role W fuel cfg T).
Proof.
  intros Hn.
  assert (E1 : String.eqb "worker" "master" = false) by reflexivity.
  assert (E2 : String.eqb "worker" "worker" = true) by reflexivity.
  unfold run_role. rewrite Hn, E1, E2. emits_split; try event_ok.
  - eapply emits_impl; [apply polling_event_worker|].
    apply wait_for_worker_setup_message_emits.
  - apply setup_env_variables_emits; intros; exact I.
Qed.

Lemma main_emits (W : World) (fuel : nat) (cfg : Config)
  (P : Z * event -> Prop) :
  (forall e, gate_event e -> P e) ->
  (forall T, emits P (run_role W fuel cfg T)) ->
  emits P (main W fuel (Some cfg)).
Proof.
  intros HP Hrole.
  assert (L : forall t lvl n, P (t, ELog lvl n)) by (intros; apply HP; exact I).
  unfold main. emits_split; auto.
  intros s.
  change (main_body W fuel (Some cfg) s)
    with ((log Info 475 ;;
           start_time <- time_time ;;
           _ <- check_instance_role_availability W fuel (AWS_DL_ROLE_NAME cfg)
                  (setup_budget cfg) ;;
           t <- time_time ;;
           run_role W fuel cfg (setup_budget cfg - (t - start_time))) s).
  revert s. fold (emits P
    (log Info 475 ;;
     start_time <- time_time ;;
     _ <- check_instance_role_availability W fuel (AWS_DL_ROLE_NAME cfg)
            (setup_budget cfg) ;;
     t <- time_time ;;
     run_role W fuel cfg (setup_budget cfg - (t - start_time)))).
  emits_split; auto.
  eapply emits_impl; [exact HP|]. apply check_instance_role_availability_emits.
Qed.

(** X2. A worker node reads and never writes: in every run of [main] on a
    worker, the only calls are looks at the metadata, receives on the worker
    queue with a visibility window of zero, sleeps and the local setup; no
    message is deleted or sent, the directory is not queried and no
    completion signal is given. *)
Theorem worker_node_footprint :
  forall (W : World) (fuel : nat) (cfg : Config) (s : State),
    lower (AWS_DL_NODE_TYPE cfg) = "worker"%string ->
    adds (worker_node_event cfg) s (snd (main W fuel (Some cfg) s))
    /\ deleted (snd (main W fuel (Some cfg) s)) = deleted s
    /\ sent (snd (main W fuel (Some cfg) s)) = sent s.
Proof.
  intros W fuel cfg s Hn.
  assert (A : adds (worker_node_event cfg) s (snd (main W fuel (Some cfg) s))).
  { apply main_emits.
    - apply gate_event_worker.
    - intros T. apply run_role_worker_emits. exact Hn. }
  split; [exact A|].
  destruct A as [ev [E F]]. unfold deleted, sent. rewrite E, !flat_map_app.
  assert (D : flat_map (fun e : Z * event =>
                          match snd e with EDelete _ m => [m] | _ => [] end) ev
              = []
              /\ flat_map (fun e : Z * event =>
                             match snd e with
                             | ESend q body => [(q, body)]
                             | _ => []
                             end) ev = []).
  { clear E. induction F as [|e ev He _ [IH1 IH2]]; [split; reflexivity|].
    cbn [flat_map]. rewrite IH1, IH2. unfold worker_node_event in He.
    destruct (snd e); try contradiction; split; reflexivity. }
  destruct D as [-> ->]. rewrite !app_nil_r. split; reflexivity.
Qed.

Lemma run_role_master_emits (W : World) (fuel : nat) (cfg : Config) (T : Z) :
  lower (AWS_DL_NODE_TYPE cfg) = "master"%string ->
  emits (master_node_event cfg) (run_role W fuel cfg T).
Proof.
  intros Hn.
  assert (E : String.eqb "master" "master" = true) by reflexivity.
  unfold run_role. rewrite Hn, E.
  apply emits_bind_ok.
  - eapply emits_impl; [apply master_quiet_event_node|].
    apply setup_worker_metadata_emits.
  - intros s [mip ips] s1 Hs.
    pose proof (setup_worker_metadata_view W fuel T _ s mip ips s1 Hs) as Hin.
    revert s1 Hs. intros s1 _. revert s1.
    fold (emits (master_node_event cfg)
            (setup_env_variables W (JStr mip) (JArr (map JStr ips)) ;;
             send_worker_setup_msg (AWS_DL_WORKER_QUEUE cfg) mip ips ;;
             send_cfn_success_signal W)).
    unfold send_worker_setup_msg. emits_split; try event_ok.
    + apply setup_env_variables_emits; intros; exact I.
    + cbn. split; [reflexivity|]. exists mip, ips. auto.
    + eapply emits_impl; [apply master_quiet_event_node|].
      apply send_cfn_success_signal_emits.
Qed.

(** X3. On a master node every run of [main] stays within: looks at the
    metadata, receives on the master queue with a visibility window of 60
    seconds, deletions on the master queue, queries of the groups and of the
    directory, sleeps, the local setup, the completion signal, and sending
    on the worker queue; whatever is sent is a worker-setup message whose
    worker list holds its master address. *)
Theorem master_node_footprint :
  forall (W : World) (fuel : nat) (cfg : Config) (s : State),
    lower (AWS_DL_NODE_TYPE cfg) = "master"%string ->
    adds (master_node_event cfg) s (snd (main W fuel (Some cfg) s)).
Proof.
  intros W fuel cfg s Hn. apply main_emits.
  - intros e He. apply master_quiet_event_node, gate_event_master. exact He.
  - intros T. apply run_role_master_emits. exact Hn.
Qed.

(** ** How many messages are sent *)

Lemma sent_push (e : event) (s : State) :
  sent (push e s)
  = sent s ++ match e with ESend q body => [(q, body)] | _ => [] end.
Proof.
  unfold sent, push. cbn [trace]. rewrite flat_map_app. cbn [flat_map snd].
  rewrite app_nil_r. reflexivity.
Qed.

Lemma adds_no_send (s s' : State) : adds no_send s s' -> sent s' = sent s.
Proof.
  intros [ev [E F]]. unfold sent. rewrite E, flat_map_app.
  replace (flat_map _ ev) with (@nil (string * json));
    [apply app_nil_r|].
  clear E. induction F as [|e ev He _ IH]; [reflexivity|].
  cbn [flat_map]. rewrite <- IH. unfold no_send in He.
  destruct (snd e); try reflexivity; contradiction.
Qed.

Lemma sends_at_most_emits {A : Type} (P : Z * event -> Prop) (n : nat)
  (m : M A) :
  (forall e, P e -> no_send e) -> emits P m -> sends_at_most n m.
Proof.
  intros I H s. exists []. rewrite app_nil_r. split; [|cbn; lia].
  apply adds_no_send. eapply adds_impl; [exact I | apply H].
Qed.

Lemma sends_at_most_bind {A B : Type} (n n' : nat) (m : M A) (k : A -> M B) :
  sends_at_most n m -> (forall a, sends_at_most n' (k a)) ->
  sends_at_most (n + n') (bind m k).
Proof.
  intros Hm Hk s. unfold bind. destruct (Hm s) as [l [E L]].
  destruct (m s) as [[a| e |] s1]; cbn [snd] in *;
    try (exists l; split; [exact E | lia]).
  destruct (Hk a s1) as [l' [E' L']].
  exists (l ++ l'). rewrite E', E, app_assoc. split; [reflexivity|].
  rewrite length_app. lia.
Qed.

Lemma sends_at_most_try_except {A : Type} (n n' : nat) (body : M A)
  (catches : exn -> bool) (handler : exn -> M A) :
  sends_at_most n body -> (forall e, sends_at_most n' (handler e)) ->
  sends_at_most (n + n') (try_except body catches handler).
Proof.
  intros Hb Hh s. unfold try_except. destruct (Hb s) as [l [E L]].
  destruct (body s) as [[a| e |] s1]; cbn [snd] in *;
    try (exists l; split; [exact E | lia]).
  destruct (catches e); cbn [snd]; [|exists l; split; [exact E | lia]].
  destruct (Hh e s1) as [l' [E' L']].
  exists (l ++ l'). rewrite E', E, app_assoc. split; [reflexivity|].
  rewrite length_app. lia.
Qed.

Lemma no_send_log (t : Z) (lvl : level) (n : nat) : no_send (t, ELog lvl n).
Proof. exact I. Qed.

Lemma gate_event_no_send (e : Z * event) : gate_event e -> no_send e.
Proof. unfold gate_event, no_send. destruct (snd e); auto. Qed.

Lemma master_quiet_no_send (cfg : Config) (e : Z * event) :
  master_quiet_event cfg e -> no_send e.
Proof. unfold master_quiet_event, no_send. destruct (snd e); auto. Qed.

Lemma polling_event_no_send (q : string) (e : Z * event) :
  polling_event q e -> no_send e.
Proof. unfold polling_event, no_send. destruct (snd e); auto. Qed.

Lemma send_worker_setup_msg_run (q mip : string) (ips : list string)
  (s : State) :
  send_worker_setup_msg q mip ips s
  = (Ok tt,
     push (ESend q (worker_setup_message mip ips))
       (push (ELog Info 414) (push (ELog Info 403) s))).
Proof. reflexivity. Qed.

Lemma run_role_sends (W : World) (fuel : nat) (cfg : Config) (T : Z) :
  sends_at_most 1 (run_role W fuel cfg T).
Proof.
  unfold run_role.
  destruct (String.eqb (lower (AWS_DL_NODE_TYPE cfg)) "master").
  - change 1%nat with (0 + (0 + (1 + 0)))%nat.
    apply sends_at_most_bind.
    + eapply sends_at_most_emits; [apply (master_quiet_no_send cfg)|].
      apply setup_worker_metadata_emits.
    + intros [mip ips]. apply sends_at_most_bind; [|intros _].
      * eapply sends_at_most_emits with (P := no_send); [auto|].
        apply setup_env_variables_emits; intros; exact I.
      * apply sends_at_most_bind; [|intros _].
        -- intros s. rewrite send_worker_setup_msg_run. cbn [snd].
           rewrite !sent_push. eexists. rewrite <- !app_assoc.
           split; [reflexivity|]. cbn. lia.
        -- eapply sends_at_most_emits; [apply (master_quiet_no_send cfg)|].
           apply send_cfn_success_signal_emits.
  - eapply sends_at_most_emits with (P := no_send); [auto|].
    destruct (String.eqb (lower (AWS_DL_NODE_TYPE cfg)) "worker");
      emits_split; try event_ok.
    + eapply emits_impl; [apply polling_event_no_send|].
      apply wait_for_worker_setup_message_emits.
    + apply setup_env_variables_emits; intros; exact I.
Qed.

(** X4. A run of [main] sends at most one message, whatever the node type,
    the world and the outcome of the run. *)
Theorem main_sends_at_most_once :
  forall (W : World) (fuel : nat) (environ : option Config) (s : State),
    exists l,
      sent (snd (main W fuel environ s)) = sent s ++ l
      /\ (List.length l <= 1)%nat.
Proof.
  intros W fuel environ.
  change (sends_at_most 1 (main W fuel environ)).
  unfold main. change 1%nat with (0 + (1 + 0))%nat.
  apply sends_at_most_bind; [|intros _].
  { eapply sends_at_most_emits with (P := no_send); [auto|].
    emits_split. event_ok. }
  apply sends_at_most_try_except.
  - unfold main_body. change 1%nat with (0 + (0 + (0 + (0 + (0 + 1)))))%nat.
    apply sends_at_most_bind; [|intros cfg].
    { eapply sends_at_most_emits with (P := no_send); [auto|].
      emits_split. }
    apply sends_at_most_bind; [|intros _].
    { eapply sends_at_most_emits with (P := no_send); [auto|].
      emits_split. event_ok. }
    apply sends_at_most_bind; [|intros st].
    { eapply sends_at_most_emits with (P := no_send); [auto|]. emits_split. }
    apply sends_at_most_bind; [|intros _].
    { eapply sends_at_most_emits; [apply gate_event_no_send|].
      apply check_instance_role_availability_emits. }
    apply sends_at_most_bind; [|intros t].
    { eapply sends_at_most_emits with (P := no_send); [auto|]. emits_split. }
    apply run_role_sends.
  - intros e. eapply sends_at_most_emits with (P := no_send); [auto|].
    emits_split. event_ok.
Qed.

(** ** The launch watcher, further *)

Lemma asg_loop_call_events (W : World) (q : string) (st T : Z) (n0 : nat) :
  forall (fuel i : nat) (next : Z) (l : ledger) (s : State),
    n_receive s = (n0 + i)%nat ->
    adds (watcher_call_event W q n0) s
      (snd (asg_loop W fuel q st T next l s)).
Proof.
  induction fuel as [|fuel IH]; intros i next l s Hr.
  - apply adds_refl. reflexivity.
  - rewrite asg_loop_step. cbv zeta.
    match goal with
    | |- context [asg_handle_batch q ?b l ?s0] =>
        destruct (asg_handle_batch_run q b l s0) as [s2 [E [_ [R A]]]]
    end.
    rewrite E. clear E. cbn [n_receive push elapse count_receive] in R.
    assert (A0 : adds (watcher_call_event W q n0) s s2).
    { match type of A with adds _ ?s1 _ => apply adds_trans with s1 end.
      - eapply adds_step; [| reflexivity | exact I].
        eapply adds_step; [| reflexivity | split; reflexivity].
        eapply adds_step; [| reflexivity | exact I].
        apply adds_refl. reflexivity.
      - eapply adds_impl; [|exact A]. intros [t e].
        unfold handling_event, watcher_call_event. cbn [snd].
        destruct e; try (intros []; fail); try (intros _; exact I).
        intros [-> [Hin Hj]]. split; [reflexivity|].
        split; [|exact Hj]. exists i. rewrite <- Hr. exact Hin. }
    destruct (batch_outcome _ l) as [l'| e |]; cbn [snd]; try exact A0.
    destruct (Nat.eqb (List.length l') 2); cbn [snd].
    { eapply adds_step; [exact A0 | reflexivity | exact I]. }
    destruct (next + 30 >? st + T); cbn [snd].
    { eapply adds_step; [exact A0 | reflexivity | exact I]. }
    destruct (next + 30 - now s2 <? 0); cbn [snd].
    { eapply adds_step; [exact A0 | reflexivity | exact I]. }
    eapply adds_trans; [|apply (IH (S i))].
    + eapply adds_step; [| reflexivity | exact I].
      eapply adds_step; [exact A0 | reflexivity | exact I].
    + cbn [n_receive push elapse]. lia.
Qed.

(** X5. The launch watcher touches its own queue only, and deletes only
    what it received: every receive of a call is on the given queue with a
    visibility window of 60 seconds, every deletion is of a message that a
    poll of this call returned and whose payload was well formed, and
    nothing is sent. *)
Theorem asg_watcher_footprint :
  forall (W : World) (fuel : nat) (q : string) (timeout : Z) (s : State),
    adds (watcher_call_event W q (n_receive s)) s
      (snd (wait_until_asg_success W fuel q timeout s)).
Proof.
  intros W fuel q timeout s.
  unfold wait_until_asg_success, bind, log_timeout, emit, time_time.
  cbn [now push].
  apply adds_trans with (push (ELogTimeout Info 121 timeout) s).
  - eapply adds_step; [apply adds_refl; reflexivity | reflexivity | exact I].
  - apply (asg_loop_call_events W q _ _ (n_receive s) fuel 0%nat).
    cbn [n_receive push]. lia.
Qed.

Lemma asg_loop_completes (W : World) (q : string) (st T : Z) (n0 k : nat) :
  (forall i, (i <= k)%nat -> 0 <= took (queue W q (n0 + i)) <= 30) ->
  (forall i m, (i <= k)%nat -> In m (value (queue W q (n0 + i))) ->
               msg_body m <> NotJson) ->
  (forall i, (i <= k)%nat -> List.length (ledger_after W q n0 i) <> 2%nat) ->
  List.length (ledger_after W q n0 (S k)) = 2%nat ->
  30 * Z.of_nat k <= T ->
  forall (fuel i : nat) (s : State),
    (i <= k)%nat -> (k - i < fuel)%nat ->
    now s = st + 30 * Z.of_nat i -> n_receive s = (n0 + i)%nat ->
    exists s',
      asg_loop W fuel q st T (st + 30 * Z.of_nat i) (ledger_after W q n0 i) s
      = (Ok (ledger_after W q n0 (S k)), s')
      /\ now s' = st + 30 * Z.of_nat k + took (queue W q (n0 + k))
      /\ n_receive s' = (n0 + k + 1)%nat
      /\ ends_with (ELog Info 166) s'.
Proof.
  intros Htook Hjson Hnot Hdone HT.
  induction fuel as [|fuel IH]; intros i s Hi Hfuel Hnow Hrecv; [lia|].
  rewrite asg_loop_step. cbv zeta. rewrite Hrecv.
  match goal with
  | |- context [asg_handle_batch q ?b ?l ?s0] =>
      destruct (asg_handle_batch_run q b l s0) as [s2 [E [N [R _]]]]
  end.
  rewrite E. clear E. cbn [now n_receive push elapse count_receive] in N, R.
  rewrite (batch_outcome_json _ (fun m Hm => Hjson i m Hi Hm)),
    <- ledger_after_S.
  destruct (Nat.eq_dec i k) as [->|Hik].
  - rewrite Hdone. cbn [Nat.eqb]. eexists. split; [reflexivity|].
    cbn [now n_receive push]. split; [lia|]. split; [lia|].
    eexists. reflexivity.
  - assert (Hlt : (i < k)%nat) by lia.
    destruct (Nat.eqb_spec (List.length (ledger_after W q n0 (S i))) 2)
      as [Hbad|_]; [exfalso; apply (Hnot (S i)); [lia | exact Hbad]|].
    pose proof (Htook i Hi) as Htk.
    destruct (Z.gtb_spec (st + 30 * Z.of_nat i + 30) (st + T)); [lia|].
    destruct (Z.ltb_spec (st + 30 * Z.of_nat i + 30 - now s2) 0); [lia|].
    set (d := st + 30 * Z.of_nat i + 30 - now s2) in *.
    destruct (IH (S i) (elapse d (push (ESleep d) (push (ELog Info 174) s2))))
      as [s' [E' H']].
    + lia.
    + lia.
    + cbn [now push elapse]. subst d. lia.
    + cbn [n_receive push elapse]. lia.
    + exists s'.
      replace (st + 30 * Z.of_nat (S i)) with (st + 30 * Z.of_nat i + 30)
        in E' by lia.
      auto.
Qed.

(** X6. The launch watcher succeeds at the first poll after which its ledger
    holds exactly two groups, provided that poll falls on a tick within the
    budget: it returns that ledger at once, without a further sleep. *)
Theorem asg_watcher_completes :
  forall (W : World) (q : string) (timeout : Z) (fuel k : nat) (s : State),
    (forall i, (i <= k)%nat ->
               0 <= took (queue W q (n_receive s + i)) <= 30) ->
    (forall i m, (i <= k)%nat ->
                 In m (value (queue W q (n_receive s + i))) ->
                 msg_body m <> NotJson) ->
    (forall i, (i <= k)%nat ->
               List.length (ledger_after W q (n_receive s) i) <> 2%nat) ->
    List.length (ledger_after W q (n_receive s) (S k)) = 2%nat ->
    30 * Z.of_nat k <= timeout -> (k < fuel)%nat ->
    exists s',
      wait_until_asg_success W fuel q timeout s
      = (Ok (ledger_after W q (n_receive s) (S k)), s')
      /\ now s' = now s + 30 * Z.of_nat k
                  + took (queue W q (n_receive s + k))
      /\ n_receive s' = (n_receive s + k + 1)%nat
      /\ ends_with (ELog Info 166) s'.
Proof.
  intros W q timeout fuel k s Htook Hjson Hnot Hdone HT Hfuel.
  destruct (asg_loop_completes W q (now s) timeout (n_receive s) k
              Htook Hjson Hnot Hdone HT fuel 0%nat
              (push (ELogTimeout Info 121 timeout) s))
    as [s' [E H]]; try (cbn [now n_receive push]; lia).
  exists s'. split; [|exact H].
  unfold wait_until_asg_success, bind, log_timeout, emit, time_time.
  cbn [now push].
  replace (now s + 30 * Z.of_nat 0) with (now s) in E by lia. exact E.
Qed.

Lemma ForallOrdPairs_snoc {A : Type} (R : A -> A -> Prop) (l : list A)
  (x : A) :
  ForallOrdPairs R l -> Forall (fun a => R a x) l ->
  ForallOrdPairs R (l ++ [x]).
Proof.
  induction 1 as [|a l Ha Hl IH]; intros Hx.
  - cbn. constructor; constructor.
  - inversion Hx as [|? ? Hax Hlx]; subst. cbn. constructor.
    + apply Forall_app. split; [exact Ha | repeat constructor; exact Hax].
    + apply IH. exact Hlx.
Qed.

Lemma ledger_has_false (g : json) (l : ledger) :
  ledger_has g l = false ->
  Forall (fun a => ledger_keys_differ a (g, g)) l.
Proof.
  unfold ledger_has, ledger_keys_differ. cbn [fst].
  induction l as [|a l IH]; cbn [existsb]; intros H; constructor.
  - apply Bool.orb_false_iff in H. apply H.
  - apply IH. apply Bool.orb_false_iff in H. apply H.
Qed.

Lemma merge_notice_ok (j : json) (l : ledger) :
  ledger_ok l -> ledger_ok (merge_notice j l).
Proof.
  intros [He Hd]. unfold merge_notice.
  destruct (asg_shape_of j) as [| | g] eqn:Hs; try (split; assumption).
  destruct (ledger_has g l) eqn:Hh; [split; assumption|].
  split.
  - apply Forall_app. split; [exact He|]. repeat constructor. exact Hs.
  - apply ForallOrdPairs_snoc; [exact Hd|].
    eapply Forall_impl; [|exact (ledger_has_false g l Hh)].
    intros a Ha. exact Ha.
Qed.

Lemma batch_outcome_ok (msgs : list message) :
  forall l l', ledger_ok l -> batch_outcome msgs l = Ok l' -> ledger_ok l'.
Proof.
  induction msgs as [|m rest IH]; intros l l' Hl; cbn [batch_outcome].
  - intros E. inversion E. subst. exact Hl.
  - destruct (msg_body m) as [|j]; [discriminate|].
    apply IH. apply merge_notice_ok. exact Hl.
Qed.

Lemma asg_loop_ledger_ok (W : World) (q : string) (st T : Z) :
  forall (fuel : nat) (next : Z) (l l' : ledger) (s s' : State),
    ledger_ok l ->
    asg_loop W fuel q st T next l s = (Ok l', s') -> ledger_ok l'.
Proof.
  induction fuel as [|fuel IH]; intros next l l' s s' Hl.
  - cbn. unfold out_of_fuel. discriminate.
  - rewrite asg_loop_step. cbv zeta.
    match goal with
    | |- context [asg_handle_batch q ?b l ?s0] =>
        destruct (asg_handle_batch_run q b l s0) as [s2 [E _]]
    end.
    rewrite E. clear E.
    destruct (batch_outcome _ l) as [l1| e |] eqn:Hb; try discriminate.
    pose proof (batch_outcome_ok _ _ _ Hl Hb) as Hl1.
    destruct (Nat.eqb (List.length l1) 2).
    { intros E. inversion E. subst. exact Hl1. }
    destruct (next + 30 >? st + T).
    { intros E. inversion E. subst. exact Hl1. }
    destruct (next + 30 - now s2 <? 0); [discriminate|].
    apply IH. exact Hl1.
Qed.

(** X7. Whatever the launch watcher returns, on success or on timeout, is a
    well-formed ledger: every entry is a notice with event asg-setup and
    status success, filed under the value of its own asg field, and no two
    entries are filed under equal groups. *)
Theorem asg_watcher_ledger_wellformed :
  forall (W : World) (fuel : nat) (q : string) (timeout : Z)
         (s s' : State) (l : ledger),
    wait_until_asg_success W fuel q timeout s = (Ok l, s') ->
    ledger_ok l
    /\ forall g j, In (g, j) l ->
         getitem j "asg" = Ok g
         /\ (exists ev, getitem j "event" = Ok ev
                        /\ eq_str ev "asg-setup" = true)
         /\ (exists st, getitem j "status" = Ok st
                        /\ eq_str st "success" = true).
Proof.
  intros W fuel q timeout s s' l E.
  assert (H : ledger_ok l).
  { unfold wait_until_asg_success, bind, log_timeout, emit, time_time in E.
    eapply asg_loop_ledger_ok; [|exact E]. split; constructor. }
  split; [exact H|]. intros g j Hin. destruct H as [He _].
  rewrite Forall_forall in He. specialize (He _ Hin).
  unfold ledger_entry_ok in He. cbn [fst snd] in He.
  unfold asg_shape_of in He. unfold getitem.
  destruct j as [| b | n | t | a | o]; try discriminate.
  destruct (assoc "event" o) as [ev|]; [|discriminate].
  destruct (eq_str ev "asg-setup") eqn:Hev; [|discriminate].
  destruct (assoc "status" o) as [st|]; [|discriminate].
  destruct (eq_str st "success") eqn:Hst; [|discriminate].
  destruct (assoc "asg" o) as [g'|]; [|discriminate].
  destruct (hashable g'); [|discriminate].
  inversion He. subst. split; [reflexivity|]. split; eauto.
Qed.

Lemma asg_handle_batch_bad_payload (q : string) (m : message)
  (post : list message) :
  msg_body m = NotJson ->
  forall (pre : list message) (l : ledger) (s : State),
    (forall x, In x pre -> msg_body x <> NotJson) ->
    exists s',
      asg_handle_batch q (pre ++ m :: post) l s = (Raise ValueError, s')
      /\ now s' = now s /\ n_receive s' = n_receive s
      /\ ends_with (ELog Info 142) s'.
Proof.
  intros Hm. induction pre as [|x pre IH]; intros l s Hpre.
  - cbn [app asg_handle_batch]. unfold bind.
    rewrite (asg_handle_message_not_json q m l s Hm).
    eexists. split; [reflexivity|]. repeat split.
    eexists. reflexivity.
  - cbn [app asg_handle_batch]. unfold bind.
    destruct (asg_handle_message_run q x l s) as [s1 [E [N [R _]]]].
    rewrite E.
    destruct (msg_body x) as [|j] eqn:Hx.
    { exfalso. apply (Hpre x); [left; reflexivity | exact Hx]. }
    destruct (IH (merge_notice j l) s1) as [s' [E' [N' [R' H']]]].
    { intros y Hy. apply Hpre. right. exact Hy. }
    exists s'. rewrite E'. split; [reflexivity|].
    split; [congruence|]. split; [congruence | exact H'].
Qed.

Lemma asg_loop_bad_payload (W : World) (q : string) (st T : Z) (n0 k : nat)
  (pre post : list message) (m : message) :
  (forall i, (i < k)%nat -> 0 <= took (queue W q (n0 + i)) <= 30) ->
  (forall i x, (i < k)%nat -> In x (value (queue W q (n0 + i))) ->
               msg_body x <> NotJson) ->
  (forall i, (i <= k)%nat -> List.length (ledger_after W q n0 i) <> 2%nat) ->
  value (queue W q (n0 + k)) = pre ++ m :: post ->
  (forall x, In x pre -> msg_body x <> NotJson) ->
  msg_body m = NotJson ->
  30 * Z.of_nat k <= T ->
  forall (fuel i : nat) (s : State),
    (i <= k)%nat -> (k - i < fuel)%nat ->
    now s = st + 30 * Z.of_nat i -> n_receive s = (n0 + i)%nat ->
    exists s',
      asg_loop W fuel q st T (st + 30 * Z.of_nat i) (ledger_after W q n0 i) s
      = (Raise ValueError, s')
      /\ now s' = st + 30 * Z.of_nat k + took (queue W q (n0 + k))
      /\ n_receive s' = (n0 + k + 1)%nat
      /\ ends_with (ELog Info 142) s'.
Proof.
  intros Htook Hjson Hnot Hbatch Hpre Hm HT.
  induction fuel as [|fuel IH]; intros i s Hi Hfuel Hnow Hrecv; [lia|].
  rewrite asg_loop_step. cbv zeta. rewrite Hrecv.
  destruct (Nat.eq_dec i k) as [->|Hik].
  - rewrite Hbatch.
    match goal with
    | |- context [asg_handle_batch q _ ?l ?s0] =>
        destruct (asg_handle_batch_bad_payload q m post Hm pre l s0 Hpre)
          as [s2 [E [N [R H]]]]
    end.
    rewrite E. exists s2.
    cbn [now n_receive push elapse count_receive] in N, R.
    split; [reflexivity|]. split; [lia|]. split; [lia|]. exact H.
  - assert (Hlt : (i < k)%nat) by lia.
    match goal with
    | |- context [asg_handle_batch q ?b ?l ?s0] =>
        destruct (asg_handle_batch_run q b l s0) as [s2 [E [N [R _]]]]
    end.
    rewrite E. clear E. cbn [now n_receive push elapse count_receive] in N, R.
    rewrite (batch_outcome_json _ (fun x Hx => Hjson i x Hlt Hx)),
      <- ledger_after_S.
    destruct (Nat.eqb_spec (List.length (ledger_after W q n0 (S i))) 2)
      as [Hbad|_]; [exfalso; apply (Hnot (S i)); [lia | exact Hbad]|].
    pose proof (Htook i Hlt) as Htk.
    destruct (Z.gtb_spec (st + 30 * Z.of_nat i + 30) (st + T)); [lia|].
    destruct (Z.ltb_spec (st + 30 * Z.of_nat i + 30 - now s2) 0); [lia|].
    set (d := st + 30 * Z.of_nat i + 30 - now s2) in *.
    destruct (IH (S i) (elapse d (push (ESleep d) (push (ELog Info 174) s2))))
      as [s' [E' H']].
    + lia.
    + lia.
    + cbn [now push elapse]. subst d. lia.
    + cbn [n_receive push elapse]. lia.
    + exists s'.
      replace (st + 30 * Z.of_nat (S i)) with (st + 30 * Z.of_nat i + 30)
        in E' by lia.
      auto.
Qed.

(** X8. A payload that is not JSON is not caught by the launch watcher: at
    the first such message the call raises ValueError right after logging
    the body (line 142), so that message is not deleted and the messages
    behind it in the batch are not looked at. *)
Theorem asg_watcher_bad_payload_raises :
  forall (W : World) (q : string) (timeout : Z) (fuel k : nat) (s : State)
         (pre post : list message) (m : message),
    (forall i, (i < k)%nat ->
               0 <= took (queue W q (n_receive s + i)) <= 30) ->
    (forall i x, (i < k)%nat ->
                 In x (value (queue W q (n_receive s + i))) ->
                 msg_body x <> NotJson) ->
    (forall i, (i <= k)%nat ->
               List.length (ledger_after W q (n_receive s) i) <> 2%nat) ->
    value (queue W q (n_receive s + k)) = pre ++ m :: post ->
    (forall x, In x pre -> msg_body x <> NotJson) ->
    msg_body m = NotJson ->
    30 * Z.of_nat k <= timeout -> (k < fuel)%nat ->
    exists s',
      wait_until_asg_success W fuel q timeout s = (Raise ValueError, s')
      /\ now s' = now s + 30 * Z.of_nat k
                  + took (queue W q (n_receive s + k))
      /\ n_receive s' = (n_receive s + k + 1)%nat
      /\ ends_with (ELog Info 142) s'.
Proof.
  intros W q timeout fuel k s pre post m Htook Hjson Hnot Hb Hpre Hm HT Hfuel.
  destruct (asg_loop_bad_payload W q (now s) timeout (n_receive s) k
              pre post m Htook Hjson Hnot Hb Hpre Hm HT fuel 0%nat
              (push (ELogTimeout Info 121 timeout) s))
    as [s' [E H]]; try (cbn [now n_receive push]; lia).
  exists s'. split; [|exact H].
  unfold wait_until_asg_success, bind, log_timeout, emit, time_time.
  cbn [now push].
  replace (now s + 30 * Z.of_nat 0) with (now s) in E by lia. exact E.
Qed.





(** ** The broadcast, from the master to a worker *)



(** ** The role gate, further *)

Lemma probe_outcome_true (md : json) (role_name : string) :
  probe_outcome md role_name = Ok true -> credentials_present md role_name.
Proof.
  unfold probe_outcome, credentials_present, res_bind, getitem, delitem.
  destruct md as [| | | | |o]; try discriminate.
  destruct (assoc "iam" o) as [iam|] eqn:H1; [|discriminate].
  destruct iam as [| | | | |iam]; try discriminate.
  destruct (assoc "security-credentials" iam) as [creds|] eqn:H2;
    [|discriminate].
  destruct creds as [| | | | |creds]; try discriminate.
  destruct (assoc role_name creds) as [record|] eqn:H3; [|discriminate].
  destruct record as [| | | | |record]; try discriminate.
  destruct (assoc "AccessKeyId" record) as [i|] eqn:H4; [|discriminate].
  destruct (assoc "SecretAccessKey" (assoc_del "AccessKeyId" record))
    as [k|] eqn:H5; [|discriminate].
  destruct (assoc "Token"
              (assoc_del "SecretAccessKey" (assoc_del "AccessKeyId" record)))
    as [t|] eqn:H6; [|discriminate].
  intros _.
  rewrite assoc_del_other in H5 by discriminate.
  rewrite !assoc_del_other in H6 by discriminate.
  exists o, iam, creds, record, i, k, t. repeat split; assumption.
Qed.

Lemma role_loop_sound (W : World) (role_name : string) (st T : Z) (n0 : nat) :
  forall (fuel i : nat) (next : Z) (s s' : State) (b : bool),
    n_metadata s = (n0 + i)%nat ->
    role_loop W fuel role_name st T next s = (Ok b, s') ->
    exists k,
      (i <= k)%nat /\ n_metadata s' = S (n0 + k)
      /\ (forall j, (i <= j < k)%nat ->
            probe_outcome (value (metadata W (n0 + j))) role_name = Ok false)
      /\ probe_outcome (value (metadata W (n0 + k))) role_name = Ok b
      /\ (b = false -> ends_with (ELogTimeout Info 447 T) s').
Proof.
  induction fuel as [|fuel IH]; intros i next s s' b Hn.
  - cbn. unfold out_of_fuel. discriminate.
  - rewrite role_loop_step.
    destruct (probe_role_run W role_name (push (ELog Info 426) s))
      as [s2 [E [_ [R _]]]].
    change (n_metadata (push (ELog Info 426) s)) with (n_metadata s) in E, R.
    rewrite E. clear E. rewrite Hn in *.
    destruct (probe_outcome _ role_name) as [[|]| e |] eqn:Ho;
      try discriminate.
    + intros H. inversion H. subst. exists i.
      split; [lia|]. split; [exact R|]. split; [intros j Hj; lia|].
      split; [exact Ho | discriminate].
    + destruct (next + 30 >? st + T).
      { intros H. inversion H. subst. exists i.
        split; [lia|]. split; [exact R|]. split; [intros j Hj; lia|].
        split; [exact Ho|]. intros _. eexists. reflexivity. }
      destruct (next + 30 - now s2 <? 0); [discriminate|].
      intros H. apply (IH (S i)) in H.
      * destruct H as [k [Hk [Hr [Hb Hl]]]]. exists k.
        split; [lia|]. split; [exact Hr|]. split; [|exact Hl].
        intros j Hj. destruct (Nat.eq_dec j i) as [->|Hji]; [exact Ho|].
        apply Hb. lia.
      * cbn [n_metadata push elapse]. lia.
Qed.

(** X11. The answer of the role gate is truthful.  When
    [check_instance_role_availability] returns true, the last look at the
    metadata found, under iam / security-credentials, a record of the role
    with its three credential fields, and every look before it missed a key;
    when it returns false, every look it made missed a key and the last
    thing it did was to log the timeout. *)
Theorem role_gate_sound :
  forall (W : World) (fuel : nat) (role_name : string) (timeout : Z)
         (s s' : State) (b : bool),
    check_instance_role_availability W fuel role_name timeout s = (Ok b, s') ->
    exists k,
      n_metadata s' = S (n_metadata s + k)
      /\ (forall j, (j < k)%nat ->
            probe_outcome (value (metadata W (n_metadata s + j))) role_name
            = Ok false)
      /\ (if b
          then credentials_present
                 (value (metadata W (n_metadata s + k))) role_name
          else probe_outcome (value (metadata W (n_metadata s + k))) role_name
               = Ok false
               /\ ends_with (ELogTimeout Info 447 timeout) s').
Proof.
  intros W fuel role_name timeout s s' b E.
  unfold check_instance_role_availability, bind, log_timeout, emit,
    time_time in E.
  apply (role_loop_sound W role_name _ _ (n_metadata s) fuel 0%nat) in E.
  - destruct E as [k [_ [Hr [Hb [Ho Hl]]]]]. exists k.
    split; [exact Hr|]. split; [intros j Hj; apply Hb; lia|].
    destruct b.
    + apply probe_outcome_true. exact Ho.
    + split; [exact Ho | apply Hl; reflexivity].
  - cbn [n_metadata push]. lia.
Qed.

Lemma role_loop_raises_at (W : World) (role_name : string) (st T : Z)
  (n0 k : nat) (e : exn) :
  (forall i, (i < k)%nat -> 0 <= took (metadata W (n0 + i)) <= 30) ->
  (forall i, (i < k)%nat ->
             probe_outcome (value (metadata W (n0 + i))) role_name = Ok false) ->
  probe_outcome (value (metadata W (n0 + k))) role_name = Raise e ->
  30 * Z.of_nat k <= T ->
  forall (fuel i : nat) (s : State),
    (i <= k)%nat -> (k - i < fuel)%nat ->
    now s = st + 30 * Z.of_nat i -> n_metadata s = (n0 + i)%nat ->
    exists s',
      role_loop W fuel role_name st T (st + 30 * Z.of_nat i) s = (Raise e, s')
      /\ n_metadata s' = S (n0 + k)
      /\ now s' = st + 30 * Z.of_nat k + took (metadata W (n0 + k)).
Proof.
  intros Htook Hbefore Hk HT.
  induction fuel as [|fuel IH]; intros i s Hi Hfuel Hnow Hn; [lia|].
  rewrite role_loop_step.
  destruct (probe_role_run W role_name (push (ELog Info 426) s))
    as [s2 [E [N [R _]]]].
  change (n_metadata (push (ELog Info 426) s)) with (n_metadata s) in E, N, R.
  change (now (push (ELog Info 426) s)) with (now s) in N.
  rewrite E. clear E. rewrite Hn in *.
  destruct (Nat.eq_dec i k) as [->|Hik].
  - rewrite Hk. exists s2. split; [reflexivity|]. split; [exact R | lia].
  - assert (Hlt : (i < k)%nat) by lia. rewrite (Hbefore i Hlt).
    pose proof (Htook i Hlt) as Htk.
    destruct (Z.gtb_spec (st + 30 * Z.of_nat i + 30) (st + T)); [lia|].
    destruct (Z.ltb_spec (st + 30 * Z.of_nat i + 30 - now s2) 0); [lia|].
    set (d := st + 30 * Z.of_nat i + 30 - now s2) in *.
    destruct (IH (S i) (elapse d (push (ESleep d) (push (ELog Info 450) s2))))
      as [s' [E' Hn']].
    + lia.
    + lia.
    + cbn [now push elapse]. subst d. lia.
    + cbn [n_metadata push elapse]. lia.
    + exists s'.
      replace (st + 30 * Z.of_nat (S i)) with (st + 30 * Z.of_nat i + 30)
        in E' by lia.
      auto.
Qed.

(** X12. The role gate catches a missing key only.  When a look within the
    budget returns metadata in which a level on the way to the role record
    is not a dictionary, so that the look raises TypeError, the gate raises
    it to its caller instead of reporting false, and looks no further. *)
Theorem role_gate_raises_on_ill_shaped_metadata :
  forall (W : World) (fuel : nat) (role_name : string) (timeout : Z)
         (s : State) (k : nat),
    (forall i, (i < k)%nat ->
               0 <= took (metadata W (n_metadata s + i)) <= 30) ->
    (forall i, (i < k)%nat ->
       probe_outcome (value (metadata W (n_metadata s + i))) role_name
       = Ok false) ->
    probe_outcome (value (metadata W (n_metadata s + k))) role_name
    = Raise TypeError ->
    30 * Z.of_nat k <= timeout -> (k < fuel)%nat ->
    exists s',
      check_instance_role_availability W fuel role_name timeout s
      = (Raise TypeError, s')
      /\ n_metadata s' = S (n_metadata s + k)
      /\ now s' = now s + 30 * Z.of_nat k
                  + took (metadata W (n_metadata s + k)).
Proof.
  intros W fuel role_name timeout s k Htook Hbefore Hk HT Hfuel.
  destruct (role_loop_raises_at W role_name (now s) timeout (n_metadata s) k
              TypeError Htook Hbefore Hk HT fuel 0%nat
              (push (ELogTimeout Info 418 timeout) s))
    as [s' [E H]]; try (cbn [now n_metadata push]; lia).
  exists s'. split; [|exact H].
  replace (now s + 30 * Z.of_nat 0) with (now s) in E by lia. exact E.
Qed.

(** ** What is returned *)

Lemma returns_ret {A : Type} (P : A -> Prop) (a : A) : P a -> returns P (ret a).
Proof. intros H s a' s' E. inversion E. subst. exact H. Qed.

Lemma returns_bind {A B : Type} (Q : A -> Prop) (P : B -> Prop) (m : M A)
  (k : A -> M B) :
  returns Q m -> (forall a, Q a -> returns P (k a)) -> returns P (bind m k).
Proof.
  intros Hm Hk s b s'. unfold bind.
  destruct (m s) as [[a| e |] s1] eqn:E; try discriminate.
  intros H. apply (Hk a (Hm s a s1 E) s1 b s' H).
Qed.

Lemma returns_any {A : Type} (m : M A) : returns (fun _ => True) m.
Proof. intros s a s' _. exact I. Qed.

Lemma returns_seq {A B : Type} (P : B -> Prop) (m : M A) (k : M B) :
  returns P k -> returns P (bind m (fun _ => k)).
Proof.
  intros H. apply returns_bind with (Q := fun _ => True);
    [apply returns_any | intros _ _; exact H].
Qed.

Lemma returns_out_of_fuel {A : Type} (P : A -> Prop) : returns P out_of_fuel.
Proof. intros s a s' E. discriminate. Qed.

Lemma returns_try_except {A : Type} (P : A -> Prop) (body : M A)
  (catches : exn -> bool) (handler : exn -> M A) :
  returns P body -> (forall e, returns P (handler e)) ->
  returns P (try_except body catches handler).
Proof.
  intros Hb Hh s a s'. unfold try_except.
  destruct (body s) as [[a1| e |] s1] eqn:E; try discriminate.
  - intros H. inversion H. subst. apply (Hb s a s' E).
  - destruct (catches e); [|discriminate]. apply Hh.
Qed.

(** ** The resolver, further *)

Lemma mem_In (x : string) (l : list string) : mem x l = true <-> In x l.
Proof.
  unfold mem. rewrite existsb_exists. split.
  - intros [y [Hy E]]. apply String.eqb_eq in E. subst. exact Hy.
  - intros H. exists x. split; [exact H | apply String.eqb_refl].
Qed.

Lemma keys_dict_set (k v : string) (d : list (string * string)) (x : string) :
  In x (keys (dict_set k v d)) <-> x = k \/ In x (keys d).
Proof.
  unfold keys. induction d as [|[k' v'] t IH]; cbn [dict_set map fst In].
  - intuition.
  - destruct (String.eqb_spec k k') as [->|Hk]; cbn [map fst In].
    + intuition.
    + rewrite IH. intuition.
Qed.

Lemma split_groups_returns (gs : list asg) :
  forall m w,
    returns (fun p => p = (m ++ master_ids_of gs, w ++ worker_ids_of gs))
      (split_groups gs m w).
Proof.
  unfold master_ids_of, worker_ids_of.
  induction gs as [|g rest IH]; intros m w; cbn [split_groups].
  - apply returns_ret. cbn. rewrite !app_nil_r. reflexivity.
  - cbn [filter].
    change (contains "master" (lower (asg_name g))) with (master_group g).
    destruct (master_group g); cbn [negb flat_map].
    + intros s a s' E. apply IH in E. rewrite E, <- app_assoc. reflexivity.
    + apply returns_seq.
      intros s a s' E. apply IH in E. rewrite E, <- app_assoc. reflexivity.
Qed.

Lemma resolve_instance_keys (mids wids : list string) (i : instance)
  (r : resolution) :
  keys_in mids wids r -> returns (keys_in mids wids)
                           (resolve_instance mids wids i r).
Proof.
  intros [Hm Hw]. unfold resolve_instance.
  destruct (String.eqb (lower (state i)) "running").
  - apply returns_bind with (Q := keys_in mids wids).
    + destruct (mem (id i) mids) eqn:Em.
      * apply returns_seq, returns_ret. split; cbn.
        -- intros k Hk. apply keys_dict_set in Hk.
           destruct Hk as [->|Hk]; [apply mem_In; exact Em | auto].
        -- exact Hw.
      * destruct (mem (id i) wids) eqn:Ew.
        -- apply returns_seq, returns_seq, returns_ret. split; cbn.
           ++ exact Hm.
           ++ intros k Hk. apply keys_dict_set in Hk.
              destruct Hk as [->|Hk]; [|auto]. split.
              ** apply mem_In. exact Ew.
              ** intros Hin. apply mem_In in Hin. congruence.
        -- apply returns_ret. split; assumption.
    + intros r1 [Hm1 Hw1].
      apply returns_bind with (Q := fun _ => True); [apply returns_any|].
      intros p _. apply returns_ret. split; assumption.
  - destruct (String.eqb (lower (state i)) "pending").
    + apply returns_seq, returns_ret. split; assumption.
    + apply returns_ret. split; assumption.
Qed.

Lemma resolve_instances_keys (mids wids : list string)
  (insts : list instance) :
  forall r, keys_in mids wids r ->
            returns (keys_in mids wids) (resolve_instances mids wids insts r).
Proof.
  induction insts as [|i rest IH]; intros r Hr; cbn [resolve_instances].
  - apply returns_ret. exact Hr.
  - eapply returns_bind; [apply resolve_instance_keys; exact Hr|].
    intros r' Hr'. apply IH. exact Hr'.
Qed.

Lemma resolve_page_keys (mids wids : list string)
  (rs : list (list instance)) :
  forall r, keys_in mids wids r ->
            returns (keys_in mids wids) (resolve_page mids wids rs r).
Proof.
  induction rs as [|insts rest IH]; intros r Hr; cbn [resolve_page].
  - apply returns_ret. exact Hr.
  - eapply returns_bind; [apply resolve_instances_keys; exact Hr|].
    intros r' Hr'. apply IH. exact Hr'.
Qed.

Lemma instances_loop_keys (W : World) (mids wids : list string) (st T : Z) :
  forall (fuel : nat) (next : Z) (token : option string) (r : resolution),
    keys_in mids wids r ->
    returns (keys_in mids wids)
      (instances_loop W fuel mids wids st T next token r).
Proof.
  induction fuel as [|fuel IH]; intros next token r Hr s r' s'.
  - cbn. unfold out_of_fuel. discriminate.
  - rewrite instances_loop_step. cbv zeta.
    destruct (resolve_page mids wids _ r _) as [[r1| e |] s2] eqn:E;
      try discriminate.
    apply (resolve_page_keys mids wids _ r Hr) in E.
    destruct (Nat.eqb (List.length (pending_instance_ids r1)) 0).
    { intros H. inversion H. subst. exact E. }
    destruct (page_token (value (directory W (n_directory s)))).
    { apply IH. exact E. }
    destruct (next + 30 <? st + T).
    { intros H. inversion H. subst. exact E. }
    destruct (next + 30 - now s2 <? 0); [discriminate|].
    apply IH. exact E.
Qed.

Lemma wait_until_instances_active_keys (W : World) (fuel : nat)
  (names : list json) (timeout : Z) :
  returns
    (fun p => keys_in (master_ids_of (value (groups W names)))
                (worker_ids_of (value (groups W names)))
                {| pending_instance_ids := [];
                   master_instances := fst p;
                   worker_instances := snd p |})
    (wait_until_instances_active W fuel names timeout).
Proof.
  unfold wait_until_instances_active.
  apply returns_seq.
  apply returns_bind with (Q := fun _ => True); [apply returns_any|].
  intros st _. apply returns_try_except.
  - apply returns_bind with (Q := fun gs => gs = value (groups W names)).
    { intros s0 gs s1 E. unfold get_all_groups in E. inversion E.
      reflexivity. }
    intros gs ->.
    eapply returns_bind; [apply split_groups_returns|].
    intros [mids wids] Hp. cbn [app] in Hp. inversion Hp. subst.
    apply returns_seq.
    eapply returns_bind.
    + apply instances_loop_keys. split; cbn; intros k [].
    + intros r [Hm Hw]. apply returns_seq, returns_ret.
      split; cbn; assumption.
  - intros e. apply returns_seq, returns_ret. split; cbn; intros k [].
Qed.

(** X13. [wait_until_instances_active] raises nothing: whatever goes wrong
    between the listing of the groups and the last look at the instance
    directory is caught, and a call that ends hands its caller a pair of
    maps. *)
Theorem resolver_never_raises :
  forall (W : World) (fuel : nat) (names : list json) (timeout : Z)
         (s : State),
    fst (wait_until_instances_active W fuel names timeout s) = OutOfFuel
    \/ exists masters workers,
         fst (wait_until_instances_active W fuel names timeout s)
         = Ok (masters, workers).
Proof.
  intros W fuel names timeout s.
  destruct (wait_until_instances_active W fuel names timeout s)
    as [[[m w]| e |] s'] eqn:E; cbn [fst].
  - right. exists m, w. reflexivity.
  - exfalso.
    exact (wait_until_instances_active_no_raise W fuel names timeout s e s' E).
  - left. reflexivity.
Qed.

(** X14. The maps [wait_until_instances_active] returns hold only instances
    of the groups it listed: a key of the master map is a healthy instance
    of a group whose lower-cased name contains "master", a key of the worker
    map is a healthy instance of another group, and no instance is in both
    maps. *)
Theorem resolver_keys_are_group_members :
  forall (W : World) (fuel : nat) (names : list json) (timeout : Z)
         (s s' : State) (masters workers : ipmap),
    wait_until_instances_active W fuel names timeout s
    = (Ok (masters, workers), s') ->
    (forall k, In k (keys masters) ->
       exists g, In g (value (groups W names)) /\ master_group g = true
                 /\ In k (healthy_ids g))
    /\ (forall k, In k (keys workers) ->
          exists g, In g (value (groups W names)) /\ master_group g = false
                    /\ In k (healthy_ids g))
    /\ (forall k, In k (keys masters) -> ~ In k (keys workers)).
Proof.
  intros W fuel names timeout s s' masters workers E.
  set (gs := value (groups W names)).
  pose proof (wait_until_instances_active_keys W fuel names timeout s
                (masters, workers) s' E) as H.
  fold gs in H.
  destruct H as [Hm Hw]. cbn [fst snd master_instances worker_instances] in *.
  assert (Hin : forall f k, In k (flat_map healthy_ids (filter f gs)) ->
                  exists g, In g gs /\ f g = true /\ In k (healthy_ids g)).
  { intros f k Hk. apply in_flat_map in Hk. destruct Hk as [g [Hg Hk]].
    apply filter_In in Hg. exists g. tauto. }
  split; [|split].
  - intros k Hk. apply Hin. apply Hm. exact Hk.
  - intros k Hk. destruct (Hin _ k (proj1 (Hw k Hk))) as [g [Hg [Hf Hh]]].
    exists g. split; [exact Hg|]. split; [|exact Hh].
    destruct (master_group g); [discriminate | reflexivity].
  - intros k Hk Hk'. apply (proj2 (Hw k Hk')). apply Hm. exact Hk.
Qed.

Lemma list_remove_in (x : string) (l : list string) :
  In x l -> exists l', list_remove x l = Ok l' /\ Permutation l (x :: l').
Proof.
  induction l as [|y t IH]; intros H; [destruct H|].
  cbn [list_remove]. destruct (String.eqb_spec x y) as [->|Hxy].
  - exists t. split; [reflexivity | apply Permutation_refl].
  - destruct H as [H|H]; [congruence|].
    destruct (IH H) as [l' [E P]]. rewrite E. exists (y :: l').
    split; [reflexivity|].
    eapply Permutation_trans; [apply perm_skip; exact P | apply perm_swap].
Qed.

Lemma list_remove_not_in (x : string) (l : list string) :
  ~ In x l -> list_remove x l = Raise ValueError.
Proof.
  induction l as [|y t IH]; intros H; [reflexivity|].
  cbn [list_remove]. destruct (String.eqb_spec x y) as [->|Hxy].
  - exfalso. apply H. left. reflexivity.
  - rewrite IH; [reflexivity|]. intros Hin. apply H. right. exact Hin.
Qed.

Lemma assoc_dict_set (k v : string) (d : list (string * string)) (x : string) :
  assoc x (dict_set k v d) = if String.eqb x k then Some v else assoc x d.
Proof.
  induction d as [|[k' v'] t IH]; cbn [dict_set assoc].
  - reflexivity.
  - destruct (String.eqb_spec k k') as [->|Hk]; cbn [assoc].
    + destruct (String.eqb x k'); reflexivity.
    + rewrite IH. destruct (String.eqb_spec x k) as [Hx|Hx].
      * rewrite Hx.
        destruct (String.eqb_spec k k'); [contradiction | reflexivity].
      * reflexivity.
Qed.

Lemma resolve_instance_running (mids wids : list string) (i : instance)
  (r : resolution) (s : State) :
  lower (state i) = "running"%string ->
  exists s',
    resolve_instance mids wids i r s
    = (match list_remove (id i) (pending_instance_ids r) with
       | Ok pending => Ok (record_running mids wids i pending r)
       | Raise e => Raise e
       | OutOfFuel => OutOfFuel
       end, s')
    /\ now s' = now s /\ n_directory s' = n_directory s
    /\ (forall e, list_remove (id i) (pending_instance_ids r) = Raise e ->
                  ~ In (id i) mids -> ~ In (id i) wids -> s' = s).
Proof.
  intros Hr. unfold resolve_instance, record_running. rewrite Hr.
  change (String.eqb "running" "running") with true. cbv iota.
  unfold bind, lift, ret, log, emit.
  destruct (mem (id i) mids) eqn:Em; [|destruct (mem (id i) wids) eqn:Ew];
    cbn [pending_instance_ids master_instances worker_instances];
    destruct (list_remove (id i) (pending_instance_ids r)) as [p| e |];
    eexists; (split; [reflexivity|]); (split; [reflexivity|]);
    (split; [reflexivity|]); intros e' He Hm Hw;
    try discriminate; try reflexivity;
    exfalso; first [apply Hm; apply mem_In; assumption
                   | apply Hw; apply mem_In; assumption].
Qed.

Lemma resolve_instance_not_running (mids wids : list string) (i : instance)
  (r : resolution) (s : State) :
  lower (state i) <> "running"%string ->
  exists s',
    resolve_instance mids wids i r s = (Ok r, s')
    /\ now s' = now s /\ n_directory s' = n_directory s
    /\ adds (fun e => exists l n, snd e = ELog l n) s s'.
Proof.
  intros Hr. unfold resolve_instance.
  destruct (String.eqb_spec (lower (state i)) "running"); [contradiction|].
  destruct (String.eqb (lower (state i)) "pending").
  - unfold bind, log, emit, ret. eexists. split; [reflexivity|].
    split; [reflexivity|]. split; [reflexivity|].
    eapply adds_step; [apply adds_refl; reflexivity | reflexivity|].
    cbn. eauto.
  - unfold ret. eexists. split; [reflexivity|].
    split; [reflexivity|]. split; [reflexivity|].
    apply adds_refl. reflexivity.
Qed.

Lemma resolve_instances_app (mids wids : list string)
  (a b : list instance) :
  forall r s,
    resolve_instances mids wids (a ++ b) r s
    = bind (resolve_instances mids wids a r)
        (fun r' => resolve_instances mids wids b r') s.
Proof.
  induction a as [|i a IH]; intros r s; cbn [app resolve_instances].
  - reflexivity.
  - unfold bind.
    destruct (resolve_instance mids wids i r s) as [[r1| e |] s1];
      try reflexivity.
    rewrite IH. reflexivity.
Qed.

Lemma resolve_page_concat (mids wids : list string)
  (rs : list (list instance)) :
  forall r s,
    resolve_page mids wids rs r s
    = resolve_instances mids wids (List.concat rs) r s.
Proof.
  induction rs as [|insts rest IH]; intros r s; cbn [resolve_page List.concat].
  - reflexivity.
  - rewrite resolve_instances_app. unfold bind.
    destruct (resolve_instances mids wids insts r s) as [[r1| e |] s1];
      try reflexivity.
    apply IH.
Qed.

Lemma resolve_instances_all_running (mids wids : list string) :
  forall (insts : list instance) (rest : list string) (r : resolution)
         (s : State),
    (forall i, In i insts -> lower (state i) = "running"%string) ->
    NoDup (map id insts) ->
    Permutation (pending_instance_ids r) (map id insts ++ rest) ->
    exists r' s',
      resolve_instances mids wids insts r s = (Ok r', s')
      /\ Permutation (pending_instance_ids r') rest
      /\ now s' = now s /\ n_directory s' = n_directory s
      /\ (forall i, In i insts ->
            if mem (id i) mids
            then assoc (id i) (master_instances r')
                 = Some (private_ip_address i)
            else mem (id i) wids = true ->
                 assoc (id i) (worker_instances r')
                 = Some (private_ip_address i))
      /\ (forall k, ~ In k (map id insts) ->
            assoc k (master_instances r') = assoc k (master_instances r)
            /\ assoc k (worker_instances r') = assoc k (worker_instances r)).
Proof.
  induction insts as [|i insts IH]; intros rest r s Hrun Hnd Hp.
  - exists r, s. cbn [resolve_instances]. unfold ret.
    split; [reflexivity|]. split; [exact Hp|]. split; [reflexivity|].
    split; [reflexivity|]. split; [intros i []|]. intros k _. split; reflexivity.
  - cbn [map app] in Hp. inversion Hnd as [|? ? Hni Hnd']; subst.
    destruct (resolve_instance_running mids wids i r s
                (Hrun i (or_introl eq_refl))) as [s1 [E [N [D _]]]].
    destruct (list_remove_in (id i) (pending_instance_ids r))
      as [l' [El Pl]].
    { eapply Permutation_in; [apply Permutation_sym; exact Hp|].
      left. reflexivity. }
    rewrite El in E.
    set (r1 := record_running mids wids i l' r) in *.
    destruct (IH rest r1 s1) as [r' [s' [E' [P' [N' [D' [Hi Hk]]]]]]].
    + intros x Hx. apply Hrun. right. exact Hx.
    + exact Hnd'.
    + cbn [r1 record_running pending_instance_ids].
      apply Permutation_cons_inv with (a := id i).
      eapply Permutation_trans; [apply Permutation_sym; exact Pl | exact Hp].
    + exists r', s'. cbn [resolve_instances]. unfold bind. rewrite E.
      split; [exact E'|]. split; [exact P'|]. split; [congruence|].
      split; [congruence|]. split.
      * intros x [<-|Hx]; [|apply Hi; exact Hx].
        destruct (Hk (id i) Hni) as [Hkm Hkw]. rewrite Hkm, Hkw.
        unfold r1, record_running.
        cbn [master_instances worker_instances].
        destruct (mem (id i) mids).
        -- rewrite assoc_dict_set, String.eqb_refl. reflexivity.
        -- intros Hw. rewrite Hw, assoc_dict_set, String.eqb_refl.
           reflexivity.
      * intros k Hk'. destruct (Hk k) as [Hkm Hkw].
        { intros Hin. apply Hk'. right. exact Hin. }
        rewrite Hkm, Hkw. unfold r1, record_running.
        cbn [master_instances worker_instances].
        assert (Hne : String.eqb k (id i) = false).
        { apply String.eqb_neq. intros ->. apply Hk'. left. reflexivity. }
        destruct (mem (id i) mids); [|destruct (mem (id i) wids)];
          rewrite ?assoc_dict_set, ?Hne; split; reflexivity.
Qed.

Lemma split_groups_run (gs : list asg) :
  forall m w s,
  exists s',
    split_groups gs m w s
    = (Ok (m ++ master_ids_of gs, w ++ worker_ids_of gs), s')
    /\ now s' = now s /\ n_directory s' = n_directory s.
Proof.
  unfold master_ids_of, worker_ids_of.
  induction gs as [|g rest IH]; intros m w s; cbn [split_groups].
  - exists s. unfold ret. cbn. rewrite !app_nil_r. auto.
  - cbn [filter].
    change (contains "master" (lower (asg_name g))) with (master_group g).
    destruct (master_group g); cbn [negb flat_map].
    + destruct (IH (m ++ healthy_ids g) w s) as [s' [E H]].
      exists s'. rewrite E, <- app_assoc. auto.
    + unfold bind, log, emit.
      destruct (IH m (w ++ healthy_ids g) (push (ELog Info 261) s))
        as [s' [E H]].
      exists s'. rewrite E, <- app_assoc. auto.
Qed.

(** X15. When the first page of the instance directory lists every healthy
    instance of the groups running, each once, [wait_until_instances_active]
    returns after that single look, whatever the budget: the address of each
    instance of a master group is in the master map under its id, the
    address of each other instance in the worker map. *)
Theorem resolver_resolves_first_page :
  forall (W : World) (fuel : nat) (names : list json) (timeout : Z)
         (s : State),
    let gs := value (groups W names) in
    let insts := List.concat (reservations (value (directory W (n_directory s)))) in
    (forall i, In i insts -> lower (state i) = "running"%string) ->
    NoDup (map id insts) ->
    Permutation (map id insts) (master_ids_of gs ++ worker_ids_of gs) ->
    (0 < fuel)%nat ->
    exists masters workers s',
      wait_until_instances_active W fuel names timeout s
      = (Ok (masters, workers), s')
      /\ (forall i, In i insts ->
            if mem (id i) (master_ids_of gs)
            then assoc (id i) masters = Some (private_ip_address i)
            else assoc (id i) workers = Some (private_ip_address i))
      /\ n_directory s' = S (n_directory s)
      /\ now s' = now s + took (groups W names)
                  + took (directory W (n_directory s))
      /\ ends_with (ELog Info 322) s'.
Proof.
  intros W fuel names timeout s gs insts Hrun Hnd Hp Hfuel.
  destruct fuel as [|fuel]; [lia|].
  unfold wait_until_instances_active, bind at 1 2, log_timeout, emit,
    time_time, try_except.
  unfold bind at 1, get_all_groups. fold gs. cbv zeta.
  set (s0 := elapse (took (groups W names))
               (push (EGroups names) (push (ELogTimeout Info 231 timeout) s))).
  unfold bind at 1.
  destruct (split_groups_run gs [] [] s0) as [s1 [E1 [N1 D1]]].
  rewrite E1. cbn [app]. unfold bind at 1, log at 1, emit at 1.
  unfold bind at 1. rewrite instances_loop_step. cbv zeta.
  rewrite resolve_page_concat.
  change (n_directory (push (ELog Info 266) s1)) with (n_directory s1).
  assert (Ds : n_directory s1 = n_directory s).
  { rewrite D1. reflexivity. }
  rewrite Ds. fold insts.
  match goal with
  | |- context [resolve_instances ?m ?w insts ?r ?s2] =>
      destruct (resolve_instances_all_running m w insts [] r s2 Hrun Hnd)
        as [r' [s' [E [P [N [D [Hi _]]]]]]]
  end.
  { cbn [pending_instance_ids]. rewrite app_nil_r.
    apply Permutation_sym. exact Hp. }
  rewrite E. apply Permutation_sym, Permutation_nil in P. rewrite P.
  cbn [List.length Nat.eqb]. unfold log, emit, ret.
  eexists _, _, _. split; [reflexivity|].
  split.
  { intros i Hin. specialize (Hi i Hin).
    destruct (mem (id i) (master_ids_of gs)) eqn:Em; [exact Hi|].
    apply Hi. apply mem_In.
    assert (Hin' : In (id i) (master_ids_of gs ++ worker_ids_of gs)).
    { eapply Permutation_in; [exact Hp|]. apply in_map. exact Hin. }
    apply in_app_or in Hin'. destruct Hin' as [Hm|Hw]; [|exact Hw].
    apply mem_In in Hm. congruence. }
  cbn [n_directory now push elapse count_directory] in *.
  split; [lia|]. split.
  { subst s0. cbn [now push elapse] in N1. lia. }
  eexists. reflexivity.
Qed.

Lemma resolve_instances_not_running (mids wids : list string)
  (insts : list instance) :
  forall (r : resolution) (s : State),
    (forall x, In x insts -> lower (state x) <> "running"%string) ->
    exists s',
      resolve_instances mids wids insts r s = (Ok r, s')
      /\ now s' = now s /\ n_directory s' = n_directory s.
Proof.
  induction insts as [|i insts IH]; intros r s H; cbn [resolve_instances].
  - exists s. unfold ret. auto.
  - destruct (resolve_instance_not_running mids wids i r s
                (H i (or_introl eq_refl))) as [s1 [E [N [D _]]]].
    destruct (IH r s1) as [s' [E' [N' D']]].
    { intros x Hx. apply H. right. exact Hx. }
    exists s'. unfold bind. rewrite E. split; [exact E'|].
    split; congruence.
Qed.

(** X16. One unexpected instance costs the whole answer.  When the first
    page of the instance directory shows, before any other running
    instance, a running instance that is not a healthy instance of the
    groups, its removal from the pending list fails; the error is caught
    and logged (line 325) and [wait_until_instances_active] returns two
    empty maps, without looking at the directory again. *)
Theorem resolver_discards_all_on_unexpected_instance :
  forall (W : World) (fuel : nat) (names : list json) (timeout : Z)
         (s : State) (pre post : list instance) (i : instance),
    let gs := value (groups W names) in
    List.concat (reservations (value (directory W (n_directory s))))
    = pre ++ i :: post ->
    (forall x, In x pre -> lower (state x) <> "running"%string) ->
    lower (state i) = "running"%string ->
    ~ In (id i) (master_ids_of gs ++ worker_ids_of gs) ->
    (0 < fuel)%nat ->
    exists s',
      wait_until_instances_active W fuel names timeout s = (Ok ([], []), s')
      /\ n_directory s' = S (n_directory s)
      /\ ends_with (ELog Exception 325) s'.
Proof.
  intros W fuel names timeout s pre post i gs Hc Hpre Hi Hnot Hfuel.
  destruct fuel as [|fuel]; [lia|].
  unfold wait_until_instances_active, bind at 1 2, log_timeout, emit,
    time_time, try_except.
  unfold bind at 1, get_all_groups. fold gs. cbv zeta.
  set (s0 := elapse (took (groups W names))
               (push (EGroups names) (push (ELogTimeout Info 231 timeout) s))).
  unfold bind at 1.
  destruct (split_groups_run gs [] [] s0) as [s1 [E1 [N1 D1]]].
  rewrite E1. cbn [app]. unfold bind at 1, log at 1, emit at 1.
  unfold bind at 1. rewrite instances_loop_step. cbv zeta.
  rewrite resolve_page_concat.
  change (n_directory (push (ELog Info 266) s1)) with (n_directory s1).
  assert (Ds : n_directory s1 = n_directory s).
  { rewrite D1. reflexivity. }
  rewrite Ds, Hc, resolve_instances_app. unfold bind at 1.
  match goal with
  | |- context [resolve_instances ?m ?w pre ?r ?s2] =>
      destruct (resolve_instances_not_running m w pre r s2 Hpre)
        as [s3 [E3 [N3 D3]]]
  end.
  rewrite E3. cbn [resolve_instances]. unfold bind at 1.
  match goal with
  | |- context [resolve_instance ?m ?w i ?r ?s2] =>
      destruct (resolve_instance_running m w i r s2 Hi) as [s4 [E4 [N4 [D4 _]]]]
  end.
  rewrite E4. cbn [pending_instance_ids].
  rewrite (list_remove_not_in _ _ Hnot).
  cbn [is_Exception]. unfold bind, log, emit, ret.
  eexists. split; [reflexivity|].
  cbn [n_directory now push elapse count_directory] in *.
  split; [lia|]. eexists. reflexivity.
Qed.

(** ** The master and the worker node, further *)

(** X17. A master node that ends the wait for the launch notices without
    exactly two groups in its ledger logs the error of line 358 and leaves
    through [sys.exit(1)]: the outermost handler does not log it, and
    neither the groups nor the instance directory are asked. *)
Theorem master_exits_on_incomplete_ledger :
  forall (W : World) (fuel : nat) (cfg : Config) (s0 : State) (b : bool)
         (s1 : State) (l : ledger) (s2 : State),
    lower (AWS_DL_NODE_TYPE cfg) = "master"%string ->
    check_instance_role_availability W fuel (AWS_DL_ROLE_NAME cfg)
      (setup_budget cfg) (push (ELog Info 475) (push (ELog Info 459) s0))
    = (Ok b, s1) ->
    wait_until_asg_success W fuel (AWS_DL_MASTER_QUEUE cfg)
      (setup_budget cfg - (now s1 - now s0)) (push (ELog Info 353) s1)
    = (Ok l, s2) ->
    List.length l <> 2%nat ->
    main W fuel (Some cfg) s0
    = (Raise (SystemExit 1), push (ELog Error 358) s2)
    /\ exit_code (fst (main W fuel (Some cfg) s0)) = Some 1.
Proof.
  intros W fuel cfg s0 b s1 l s2 Hn Hgate Hasg Hlen.
  assert (Hmain : main W fuel (Some cfg) s0
                  = (Raise (SystemExit 1), push (ELog Error 358) s2)).
  { rewrite main_eq, (main_body_gate W fuel cfg _ b s1 Hgate).
    cbn [now push].
    rewrite (run_role_master W fuel cfg _ s1 Hn).
    unfold setup_worker_metadata, bind, log, emit, time_time.
    rewrite Hasg.
    destruct (Nat.eqb_spec (List.length l) 2) as [E|_]; [contradiction|].
    reflexivity. }
  split; [exact Hmain|]. rewrite Hmain. reflexivity.
Qed.

(** X18. A master node whose ledger is complete fails at once.  When the
    launch watcher returns a ledger of two groups, [iteritems] (line 366)
    raises AttributeError: the outermost handler logs it (line 504) and the
    process exits with code 1.  Nothing happens between the return of the
    watcher and the handler: line 367 is not logged and the groups are not
    asked. *)
Theorem master_fails_at_ledger_iteration :
  forall (W : World) (fuel : nat) (cfg : Config) (s0 : State) (b : bool)
         (s1 : State) (l : ledger) (s2 : State),
    lower (AWS_DL_NODE_TYPE cfg) = "master"%string ->
    check_instance_role_availability W fuel (AWS_DL_ROLE_NAME cfg)
      (setup_budget cfg) (push (ELog Info 475) (push (ELog Info 459) s0))
    = (Ok b, s1) ->
    wait_until_asg_success W fuel (AWS_DL_MASTER_QUEUE cfg)
      (setup_budget cfg - (now s1 - now s0)) (push (ELog Info 353) s1)
    = (Ok l, s2) ->
    List.length l = 2%nat ->
    run_role W fuel cfg (setup_budget cfg - (now s1 - now s0)) s1
    = (Raise AttributeError, s2)
    /\ main W fuel (Some cfg) s0
       = (Raise (SystemExit 1), push (ELog Exception 504) s2)
    /\ exit_code (fst (main W fuel (Some cfg) s0)) = Some 1.
Proof.
  intros W fuel cfg s0 b s1 l s2 Hn Hgate Hasg Hlen.
  assert (Hrole : run_role W fuel cfg (setup_budget cfg - (now s1 - now s0)) s1
                  = (Raise AttributeError, s2)).
  { rewrite (run_role_master_eq W fuel cfg _ s1 Hn), Hasg, Hlen.
    reflexivity. }
  assert (Hmain : main W fuel (Some cfg) s0
                  = (Raise (SystemExit 1), push (ELog Exception 504) s2)).
  { rewrite main_eq, (main_body_gate W fuel cfg _ b s1 Hgate).
    cbn [now push]. rewrite Hrole. reflexivity. }
  split; [exact Hrole|]. split; [exact Hmain|]. rewrite Hmain. reflexivity.
Qed.

(** X19. A node type that is neither master nor worker, whatever its case,
    is rejected only after the role gate has run: [main] then logs the
    error of line 500 and leaves through [sys.exit(1)], having touched no
    queue. *)
Theorem main_rejects_unknown_node_type :
  forall (W : World) (fuel : nat) (cfg : Config) (s0 : State) (b : bool)
         (s1 : State),
    lower (AWS_DL_NODE_TYPE cfg) <> "master"%string ->
    lower (AWS_DL_NODE_TYPE cfg) <> "worker"%string ->
    check_instance_role_availability W fuel (AWS_DL_ROLE_NAME cfg)
      (setup_budget cfg) (push (ELog Info 475) (push (ELog Info 459) s0))
    = (Ok b, s1) ->
    main W fuel (Some cfg) s0 = (Raise (SystemExit 1), push (ELog Error 500) s1)
    /\ exit_code (fst (main W fuel (Some cfg) s0)) = Some 1.
Proof.
  intros W fuel cfg s0 b s1 Hm Hw Hgate.
  assert (Hmain : main W fuel (Some cfg) s0
                  = (Raise (SystemExit 1), push (ELog Error 500) s1)).
  { rewrite main_eq, (main_body_gate W fuel cfg _ b s1 Hgate).
    unfold run_role.
    destruct (String.eqb_spec (lower (AWS_DL_NODE_TYPE cfg)) "master");
      [contradiction|].
    destruct (String.eqb_spec (lower (AWS_DL_NODE_TYPE cfg)) "worker");
      [contradiction|].
    reflexivity. }
  split; [exact Hmain|]. rewrite Hmain. reflexivity.
Qed.

Lemma watcher_event_reach (cfg : Config) (e : Z * event) :
  watcher_event (AWS_DL_MASTER_QUEUE cfg) e -> master_reach_event cfg e.
Proof.
  unfold watcher_event, master_reach_event.
  destruct (snd e); auto; contradiction.
Qed.

Lemma gate_event_reach (cfg : Config) (e : Z * event) :
  gate_event e -> master_reach_event cfg e.
Proof.
  unfold gate_event, master_reach_event.
  destruct (snd e); auto; contradiction.
Qed.

Lemma run_role_master_reach (W : World) (fuel : nat) (cfg : Config) (T : Z) :
  lower (AWS_DL_NODE_TYPE cfg) = "master"%string ->
  emits (master_reach_event cfg) (run_role W fuel cfg T).
Proof.
  intros Hn s. rewrite (run_role_master_eq W fuel cfg T s Hn).
  pose proof (wait_until_asg_success_emits W fuel (AWS_DL_MASTER_QUEUE cfg) T
                (push (ELog Info 353) s)) as A.
  apply (adds_impl _ _ _ _ (watcher_event_reach cfg)) in A.
  assert (A0 : adds (master_reach_event cfg) s
                 (snd (wait_until_asg_success W fuel (AWS_DL_MASTER_QUEUE cfg)
                         T (push (ELog Info 353) s)))).
  { eapply adds_trans; [|exact A].
    eapply adds_step; [apply adds_refl; reflexivity | reflexivity | exact I]. }
  destruct (wait_until_asg_success W fuel (AWS_DL_MASTER_QUEUE cfg) T
              (push (ELog Info 353) s)) as [[l| e |] s1];
    cbn [snd] in *; try exact A0.
  destruct (Nat.eqb (List.length l) 2); cbn [snd]; [exact A0|].
  eapply adds_step; [exact A0 | reflexivity | exact I].
Qed.

Lemma main_master_reach (W : World) (fuel : nat) (cfg : Config) (s : State) :
  lower (AWS_DL_NODE_TYPE cfg) = "master"%string ->
  adds (master_reach_event cfg) s (snd (main W fuel (Some cfg) s)).
Proof.
  intros Hn. apply main_emits.
  - apply gate_event_reach.
  - intros T. apply run_role_master_reach. exact Hn.
Qed.


Lemma adds_reach_quiet (cfg : Config) (s s' : State) :
  adds (master_reach_event cfg) s s' ->
  sent s' = sent s /\ resolutions s' = resolutions s
  /\ environment_steps s' = environment_steps s.
Proof.
  intros [ev [E F]]. unfold sent, resolutions, environment_steps.
  rewrite E, !flat_map_app.
  assert (H : flat_map (fun e : Z * event =>
                 match snd e with ESend q body => [(q, body)] | _ => [] end) ev
              = []
              /\ flat_map (fun e : Z * event =>
                    match snd e with EGroups names => [names] | _ => [] end) ev
                 = []
              /\ flat_map (fun e : Z * event =>
                    match snd e with
                    | ESetupEnv master_ip worker_ips => [(master_ip, worker_ips)]
                    | _ => []
                    end) ev = []).
  { clear E. induction F as [|e ev He _ [IH1 [IH2 IH3]]];
      [repeat split|].
    cbn [flat_map]. rewrite IH1, IH2, IH3. unfold master_reach_event in He.
    destruct (snd e); try contradiction; repeat split. }
  destruct H as [H1 [H2 H3]]. rewrite H1, H2, H3, !app_nil_r.
  repeat split.
Qed.


(** C6. No membership view is built.  [setup_worker_metadata] never
    returns one: a ledger that is not of two groups ends it at line 362,
    and with a ledger of two groups line 366 calls [iteritems], which a
    dict does not have; were line 384 reached with its one master, the
    subscript of [values()] would raise TypeError there.  In the scenario
    of the specification (both notices in the first poll, one master and
    two workers running) the master logs the AttributeError in the
    outermost handler and exits with code 1: line 367 is not logged, the
    groups are not asked and nothing is broadcast. *)
Theorem membership_view_is_never_built :
  (forall (W : World) (fuel : nat) (T : Z) (q : string) (s : State),
      fst (setup_worker_metadata W fuel T q s) = OutOfFuel
      \/ exists e, fst (setup_worker_metadata W fuel T q s) = Raise e)
  /\ (forall (mid mip : string) (workers : ipmap) (wmsg : json) (s : State),
        build_membership [(mid, mip)] workers wmsg s = (Raise TypeError, s))
  /\ (let r := setup_worker_metadata healthy_world 10 60 "mq" (initial 1000) in
      fst r = Raise AttributeError
      /\ deleted (snd r) = [master_notice; worker_notice])
  /\ (let r := main healthy_world 10 (Some master_cfg) (initial 1000) in
      exit_code (fst r) = Some 1
      /\ logged Exception 504 (snd r) = true
      /\ logged Info 367 (snd r) = false
      /\ resolutions (snd r) = []
      /\ sent (snd r) = []).
Proof.
  split; [|split; [|split]].
  - intros W fuel T q s.
    destruct (setup_worker_metadata W fuel T q s) as [[v| e |] s'] eqn:E;
      cbn [fst].
    + exfalso. exact (setup_worker_metadata_not_ok _ _ _ _ _ _ _ E).
    + right. exists e. reflexivity.
    + left. reflexivity.
  - intros mid mip workers wmsg s.
    apply build_membership_single. reflexivity.
  - vm_compute. repeat split.
  - vm_compute. repeat split.
Qed.

(** X20. A master node stops at the ledger.  Every run of [main] on a
    master node is made of the looks of the role gate and of the receives
    and deletions of the launch watcher on the master queue: the groups are
    never listed, the instance directory is never queried, the environment
    step is never run, nothing is sent and no completion signal is
    given. *)
Theorem master_node_stops_at_the_ledger :
  forall (W : World) (fuel : nat) (cfg : Config) (s : State),
    lower (AWS_DL_NODE_TYPE cfg) = "master"%string ->
    adds (master_reach_event cfg) s (snd (main W fuel (Some cfg) s))
    /\ environment_steps (snd (main W fuel (Some cfg) s))
       = environment_steps s.
Proof.
  intros W fuel cfg s Hn.
  pose proof (main_master_reach W fuel cfg s Hn) as A.
  split; [exact A|]. apply (adds_reach_quiet cfg s _ A).
Qed.


(** ** The files of the environment step *)

Lemma string_app_assoc (a b c : string) :
  ((a ++ b) ++ c = a ++ (b ++ c))%string.
Proof. induction a as [|x a IH]; cbn; [reflexivity | rewrite IH; reflexivity]. Qed.

Lemma string_app_nil_r (a : string) : (a ++ "" = a)%string.
Proof. induction a as [|x a IH]; cbn; [reflexivity | rewrite IH; reflexivity]. Qed.

Lemma one_line_app (a b : string) :
  Files.one_line (a ++ b) = (Files.one_line a && Files.one_line b)%bool.
Proof.
  induction a as [|x a IH]; cbn [append Files.one_line andb]; [reflexivity|].
  rewrite IH, !Bool.andb_assoc. reflexivity.
Qed.

Lemma one_line_uint (d : Decimal.uint) :
  Files.one_line (NilEmpty.string_of_uint d) = true.
Proof. induction d; cbn; auto. Qed.

Lemma one_line_str (n : nat) : Files.one_line (Files.str n) = true.
Proof. apply one_line_uint. Qed.

Lemma lines_from_one_line (s t : string) :
  Files.one_line s = true ->
  forall pending,
    Files.lines_from pending false (s ++ Files.nl ++ t)
    = S (Files.lines_from false false t).
Proof.
  induction s as [|c s IH]; intros H pending.
  - cbn. reflexivity.
  - cbn [Files.one_line] in H. apply Bool.andb_true_iff in H.
    destruct H as [Hc Hs]. apply Bool.andb_true_iff in Hc.
    destruct Hc as [Hn Hr]. cbn [append Files.lines_from].
    destruct (Ascii.eqb c Files.newline); [discriminate|].
    destruct (Ascii.eqb c Files.carriage_return); [discriminate|].
    apply IH. exact Hs.
Qed.

Lemma count_lines_worker_lines (ips : list string) :
  forall index,
    Files.count_lines (Files.worker_lines index ips) = List.length ips.
Proof.
  unfold Files.count_lines.
  induction ips as [|ip rest IH]; intros index; [reflexivity|].
  cbn [Files.worker_lines List.length].
  replace (("deeplearning-worker" ++ Files.str index ++ Files.nl)
           ++ Files.worker_lines (S index) rest)%string
    with (("deeplearning-worker" ++ Files.str index)
          ++ Files.nl ++ Files.worker_lines (S index) rest)%string
    by (rewrite !string_app_assoc; reflexivity).
  rewrite lines_from_one_line, IH; [reflexivity|].
  rewrite one_line_app, one_line_str. reflexivity.
Qed.

Lemma write_worker_lines_run (ips : list string) :
  forall index m,
    Files.write_worker_lines index ips m
    = {| Files.hosts := Files.hosts m ++ Files.host_lines index ips;
         Files.workers := Files.workers m ++ Files.worker_lines index ips;
         Files.profile := Files.profile m;
         Files.workers_owner := Files.workers_owner m;
         Files.log_lines := Files.log_lines m |}.
Proof.
  induction ips as [|ip rest IH]; intros index m.
  - cbn. rewrite !string_app_nil_r. destruct m; reflexivity.
  - cbn [Files.write_worker_lines Files.host_lines Files.worker_lines].
    rewrite IH. unfold Files.write_workers, Files.write_hosts.
    cbn [Files.hosts Files.workers Files.profile Files.workers_owner
         Files.log_lines].
    rewrite !string_app_assoc. reflexivity.
Qed.

Lemma get_gpu_count_files (E : Files.env) (m : Files.machine) :
  Files.hosts (snd (Files.get_gpu_count E m)) = Files.hosts m
  /\ Files.workers (snd (Files.get_gpu_count E m)) = Files.workers m
  /\ Files.profile (snd (Files.get_gpu_count E m)) = Files.profile m
  /\ Files.workers_owner (snd (Files.get_gpu_count E m))
     = Files.workers_owner m.
Proof.
  unfold Files.get_gpu_count, Files.bytes_count_str.
  destruct (getitem _ _) as [t| e |]; [|repeat split..].
  destruct (negb _); [repeat split|].
  destruct (Files.nvidia_smi E); repeat split.
Qed.

Lemma get_gpu_count_result (E : Files.env) (m m' : Files.machine) :
  fst (Files.get_gpu_count E m) = fst (Files.get_gpu_count E m').
Proof.
  unfold Files.get_gpu_count.
  destruct (getitem _ _) as [t| e |]; [|reflexivity..].
  destruct (negb _); [reflexivity|].
  destruct (Files.nvidia_smi E); reflexivity.
Qed.

Lemma setup_env_variables_files (E : Files.env) (mip : string)
  (ips : list string) (user efs : string) (m : Files.machine) :
  let r := Files.setup_env_variables E mip ips user efs m in
  Files.hosts (snd r) = (Files.hosts m ++ Files.host_block mip ips)%string
  /\ Files.workers (snd r) = Files.worker_lines 1 ips
  /\ Files.profile (snd r)
     = match fst (Files.get_gpu_count E m) with
       | Ok g =>
           (Files.profile m
            ++ Files.profile_block (List.length ips) g efs)%string
       | _ => Files.profile m
       end
  /\ Files.workers_owner (snd r)
     = match fst r with
       | Ok _ =>
           match Files.pw_uid E user, Files.gr_gid E user with
           | Some uid, Some gid => Some (uid, gid)
           | _, _ => Files.workers_owner m
           end
       | _ => Files.workers_owner m
       end.
Proof.
  unfold Files.setup_env_variables. cbv zeta.
  rewrite write_worker_lines_run.
  match goal with
  | |- context [Files.get_gpu_count E ?m0] =>
      pose proof (get_gpu_count_files E m0) as [H1 [H2 [H3 H4]]];
      pose proof (get_gpu_count_result E m0 m) as H5;
      destruct (Files.get_gpu_count E m0) as [[g| e |] m1]
  end;
    cbn [fst snd] in *; rewrite <- H5;
    cbn [Files.hosts Files.workers Files.profile Files.workers_owner
         Files.logs Files.open_workers Files.write_hosts] in *.
  - destruct (Files.pw_uid E user) as [uid|];
      [destruct (Files.gr_gid E user) as [gid|]|];
      cbn [fst snd Files.hosts Files.workers Files.profile
           Files.workers_owner Files.chown_workers Files.write_profile];
      rewrite ?H1, ?H2, ?H3, ?H4, ?count_lines_worker_lines;
      unfold Files.host_block, Files.profile_block, Files.WORKER_FILE;
      rewrite ?string_app_assoc; cbn [append];
      repeat split; rewrite ?count_lines_worker_lines; reflexivity.
  - rewrite ?H1, ?H2, ?H3, ?H4. unfold Files.host_block.
    rewrite ?string_app_assoc. repeat split.
  - rewrite ?H1, ?H2, ?H3, ?H4. unfold Files.host_block.
    rewrite ?string_app_assoc. repeat split.
Qed.

Lemma setup_env_variables_result (E : Files.env) (mip : string)
  (ips : list string) (user efs : string) (m : Files.machine) :
  fst (Files.setup_env_variables E mip ips user efs m)
  = match fst (Files.get_gpu_count E m) with
    | Ok _ =>
        match Files.pw_uid E user, Files.gr_gid E user with
        | Some _, Some _ => Ok tt
        | _, _ => Raise KeyError
        end
    | Raise e => Raise e
    | OutOfFuel => OutOfFuel
    end.
Proof.
  unfold Files.setup_env_variables. cbv zeta.
  match goal with
  | |- context [Files.get_gpu_count E ?m0] =>
      rewrite (get_gpu_count_result E m m0);
      destruct (Files.get_gpu_count E m0) as [[g| e |] m1]
  end; cbn [fst]; try reflexivity.
  destruct (Files.pw_uid E user); [|reflexivity].
  destruct (Files.gr_gid E user); reflexivity.
Qed.

(** X22. The worker count that [setup_env_variables] exports is the number
    of addresses it was given.  The worker file it leaves has one line for
    each address of the list, so that, when the GPU probe returns, the text
    appended to the profile sets DEEPLEARNING_WORKERS_COUNT to the length of
    the list. *)
Theorem workers_count_is_number_of_addresses :
  forall (E : Files.env) (master_instance_ip : string)
         (worker_instance_ips : list string) (default_user efs_mount : string)
         (m : Files.machine) (gpu_count : nat),
    fst (Files.get_gpu_count E m) = Ok gpu_count ->
    let r := Files.setup_env_variables E master_instance_ip
               worker_instance_ips default_user efs_mount m in
    Files.count_lines (Files.workers (snd r))
    = List.length worker_instance_ips
    /\ Files.profile (snd r)
       = (Files.profile m
          ++ Files.profile_block (List.length worker_instance_ips)
               gpu_count efs_mount)%string.
Proof.
  intros E mip ips user efs m g Hg r.
  destruct (setup_env_variables_files E mip ips user efs m)
    as [_ [Hw [Hp _]]].
  fold r in Hw, Hp. rewrite Hw, Hp, Hg.
  split; [apply count_lines_worker_lines | reflexivity].
Qed.

(** X23. [setup_env_variables] replaces the worker file and appends to the
    hosts file.  The worker file it leaves does not depend on what the file
    held; the hosts file keeps what it held and gets the master line and
    one line for each address after it.  So a second call with the same
    arguments leaves the worker file as it is and writes every host entry a
    second time. *)
Theorem hosts_appended_workers_replaced :
  forall (E : Files.env) (master_instance_ip : string)
         (worker_instance_ips : list string) (default_user efs_mount : string)
         (m : Files.machine),
    let run := Files.setup_env_variables E master_instance_ip
                 worker_instance_ips default_user efs_mount in
    let block := Files.host_block master_instance_ip worker_instance_ips in
    Files.workers (snd (run m)) = Files.worker_lines 1 worker_instance_ips
    /\ Files.hosts (snd (run m)) = (Files.hosts m ++ block)%string
    /\ Files.workers (snd (run (snd (run m)))) = Files.workers (snd (run m))
    /\ Files.hosts (snd (run (snd (run m))))
       = (Files.hosts m ++ block ++ block)%string
    /\ block <> ""%string.
Proof.
  intros E mip ips user efs m run block.
  destruct (setup_env_variables_files E mip ips user efs m)
    as [Hh [Hw _]].
  destruct (setup_env_variables_files E mip ips user efs (snd (run m)))
    as [Hh2 [Hw2 _]].
  fold run in Hh, Hw, Hh2, Hw2. fold block in Hh, Hh2.
  split; [exact Hw|]. split; [exact Hh|].
  split; [rewrite Hw2, Hw; reflexivity|].
  split; [rewrite Hh2, Hh, string_app_assoc; reflexivity|].
  unfold block, Files.host_block.
  destruct mip; cbn; discriminate.
Qed.

(** X24. A failure of [setup_env_variables] undoes nothing.  When the GPU
    probe raises (the metadata has no instance type, or the output of
    nvidia-smi is counted), the call raises the same error with the hosts
    file and the worker file already written and the profile untouched;
    when the probe returns and the default user is unknown to the user or
    to the group database, it raises KeyError with the three files written
    and the owner of the worker file unchanged. *)
Theorem environment_step_is_not_rolled_back :
  forall (E : Files.env) (master_instance_ip : string)
         (worker_instance_ips : list string) (default_user efs_mount : string)
         (m : Files.machine),
    let r := Files.setup_env_variables E master_instance_ip
               worker_instance_ips default_user efs_mount m in
    let written :=
      Files.hosts (snd r)
      = (Files.hosts m
         ++ Files.host_block master_instance_ip worker_instance_ips)%string
      /\ Files.workers (snd r) = Files.worker_lines 1 worker_instance_ips in
    (forall e, fst (Files.get_gpu_count E m) = Raise e ->
       fst r = Raise e /\ written
       /\ Files.profile (snd r) = Files.profile m
       /\ Files.workers_owner (snd r) = Files.workers_owner m)
    /\ (forall gpu_count,
          fst (Files.get_gpu_count E m) = Ok gpu_count ->
          Files.pw_uid E default_user = None
          \/ Files.gr_gid E default_user = None ->
          fst r = Raise KeyError /\ written
          /\ Files.profile (snd r)
             = (Files.profile m
                ++ Files.profile_block (List.length worker_instance_ips)
                     gpu_count efs_mount)%string
          /\ Files.workers_owner (snd r) = Files.workers_owner m).
Proof.
  intros E mip ips user efs m r written.
  pose proof (setup_env_variables_files E mip ips user efs m) as H.
  pose proof (setup_env_variables_result E mip ips user efs m) as Hr.
  cbv zeta in H. fold r in H, Hr. destruct H as [Hh [Hw [Hp Ho]]].
  split.
  - intros e Hg.
    rewrite Hg in Hr, Hp. rewrite Hr in Ho.
    split; [exact Hr|]. split; [split; assumption|]. split; assumption.
  - intros g Hg Hu. rewrite Hg in Hr, Hp.
    assert (Hk : fst r = Raise KeyError).
    { rewrite Hr. destruct Hu as [->| ->]; [reflexivity|].
      destruct (Files.pw_uid E user); reflexivity. }
    rewrite Hk in Ho.
    split; [exact Hk|]. split; [split; assumption|]. split; assumption.
Qed.

(** X25. [get_gpu_count] never reports a GPU.  The count it returns is 0:
    on an instance type outside the list and when nvidia-smi fails.  On a
    listed GPU type where nvidia-smi runs, [output.count] is given text for
    the bytes of the output and raises TypeError, which
    [except CalledProcessError] does not catch; [setup_env_variables] then
    fails with it. *)
Theorem gpu_count_is_never_positive :
  forall (E : Files.env) (m : Files.machine),
    (forall n, fst (Files.get_gpu_count E m) = Ok n -> n = 0%nat)
    /\ (forall instance_type output,
          getitem (Files.instance_metadata E) "instance-type"
          = Ok (JStr instance_type) ->
          In instance_type Files.AWS_GPU_INSTANCE_TYPES ->
          Files.nvidia_smi E = Files.Output output ->
          Files.get_gpu_count E m = (Raise TypeError, Files.logs Info 77 m)
          /\ forall master_instance_ip worker_instance_ips default_user
                    efs_mount,
               fst (Files.setup_env_variables E master_instance_ip
                      worker_instance_ips default_user efs_mount m)
               = Raise TypeError).
Proof.
  intros E m. split.
  - intros n. unfold Files.get_gpu_count, Files.bytes_count_str.
    destruct (getitem _ _) as [t| e |]; try discriminate.
    destruct (negb _); cbn [fst]; [intros H; inversion H; reflexivity|].
    destruct (Files.nvidia_smi E); cbn [fst]; [discriminate|].
    intros H; inversion H; reflexivity.
  - intros t out Ht Hin Hsmi.
    assert (Hg : Files.get_gpu_count E m
                 = (Raise TypeError, Files.logs Info 77 m)).
    { unfold Files.get_gpu_count, Files.bytes_count_str. rewrite Ht, Hsmi.
      assert (Hx : existsb (eq_str (JStr t)) Files.AWS_GPU_INSTANCE_TYPES
                   = true).
      { apply existsb_exists. exists t. split; [exact Hin|].
        cbn [eq_str]. apply String.eqb_refl. }
      rewrite Hx. reflexivity. }
    split; [exact Hg|].
    intros mip ips user efs. rewrite setup_env_variables_result, Hg.
    reflexivity.
Qed.

(** ** The further properties at sample inputs *)

Lemma worker_node_footprint_witness :
  adds (worker_node_event worker_cfg) (initial 1000)
    (snd (main healthy_world 10 (Some worker_cfg) (initial 1000)))
  /\ deleted (snd (main healthy_world 10 (Some worker_cfg) (initial 1000)))
     = []
  /\ sent (snd (main healthy_world 10 (Some worker_cfg) (initial 1000))) = [].
Proof.
  apply (worker_node_footprint healthy_world 10 worker_cfg (initial 1000)).
  reflexivity.
Defined.

Lemma master_node_footprint_witness :
  adds (master_node_event master_cfg) (initial 1000)
    (snd (main healthy_world 10 (Some master_cfg) (initial 1000))).
Proof.
  apply (master_node_footprint healthy_world 10 master_cfg (initial 1000)).
  reflexivity.
Defined.

Lemma asg_watcher_completes_witness :
  exists s',
    wait_until_asg_success healthy_world 1 "mq" 60 (initial 1000)
    = (Ok [(JStr "stack-MasterASG-1", notice "stack-MasterASG-1" "success" 1);
           (JStr "stack-WorkerASG-1", notice "stack-WorkerASG-1" "success" 2)],
       s')
    /\ now s' = 1000
    /\ n_receive s' = 1%nat
    /\ ends_with (ELog Info 166) s'.
Proof.
  apply (asg_watcher_completes healthy_world "mq" 60 1 0 (initial 1000)).
  - intros i _. cbn. lia.
  - intros i m Hi. assert (i = 0)%nat as -> by lia.
    intros [<-|[<-|[]]]; discriminate.
  - intros i Hi. assert (i = 0)%nat as -> by lia. discriminate.
  - reflexivity.
  - lia.
  - lia.
Defined.

Lemma asg_watcher_ledger_wellformed_witness :
  ledger_ok
    [(JStr "stack-MasterASG-1", notice "stack-MasterASG-1" "success" 1);
     (JStr "stack-WorkerASG-1", notice "stack-WorkerASG-1" "success" 2)].
Proof.
  pose (r := wait_until_asg_success healthy_world 1 "mq" 60 (initial 1000)).
  refine (proj1 (asg_watcher_ledger_wellformed healthy_world 1 "mq" 60
                   (initial 1000) (snd r) _ _)).
  vm_compute. reflexivity.
Defined.

Lemma asg_watcher_bad_payload_raises_witness :
  exists s',
    wait_until_asg_success (delivered [master_notice; garbage; worker_notice])
      1 "mq" 60 (initial 1000)
    = (Raise ValueError, s')
    /\ now s' = 1000
    /\ n_receive s' = 1%nat
    /\ ends_with (ELog Info 142) s'.
Proof.
  apply (asg_watcher_bad_payload_raises
           (delivered [master_notice; garbage; worker_notice]) "mq" 60 1 0
           (initial 1000) [master_notice] [worker_notice] garbage).
  - intros i Hi. lia.
  - intros i x Hi. lia.
  - intros i Hi. assert (i = 0)%nat as -> by lia. discriminate.
  - reflexivity.
  - intros x [<-|[]]. discriminate.
  - reflexivity.
  - lia.
  - lia.
Defined.



Lemma role_gate_sound_witness :
  credentials_present metadata_with_role "dl-role".
Proof.
  pose (r := check_instance_role_availability healthy_world 1 "dl-role" 60
               (initial 1000)).
  destruct (role_gate_sound healthy_world 1 "dl-role" 60 (initial 1000)
              (snd r) true) as [k [_ [_ H]]].
  - vm_compute. reflexivity.
  - exact H.
Defined.

Lemma role_gate_raises_on_ill_shaped_metadata_witness :
  exists s',
    check_instance_role_availability ill_shaped 1 "dl-role" 60 (initial 1000)
    = (Raise TypeError, s')
    /\ n_metadata s' = 1%nat
    /\ now s' = 1000.
Proof.
  apply (role_gate_raises_on_ill_shaped_metadata ill_shaped 1 "dl-role" 60
           (initial 1000) 0).
  - intros i Hi. lia.
  - intros i Hi. lia.
  - reflexivity.
  - lia.
  - lia.
Defined.

Lemma resolver_keys_are_group_members_witness :
  exists g, In g two_groups /\ master_group g = true
            /\ In "i-m"%string (healthy_ids g).
Proof.
  pose (r := wait_until_instances_active healthy_world 10 group_names 60
               (initial 1000)).
  refine (proj1 (resolver_keys_are_group_members healthy_world 10 group_names
                   60 (initial 1000) (snd r) [("i-m", "10.0.0.1")]%string
                   [("i-w2", "10.0.0.3"); ("i-w1", "10.0.0.2")]%string _)
            "i-m"%string _).
  - vm_compute. reflexivity.
  - left. reflexivity.
Defined.

Lemma resolver_resolves_first_page_witness :
  exists masters workers s',
    wait_until_instances_active healthy_world 1 group_names (-5)
      (initial 1000)
    = (Ok (masters, workers), s')
    /\ n_directory s' = 1%nat /\ now s' = 1000.
Proof.
  destruct (resolver_resolves_first_page healthy_world 1 group_names (-5)
              (initial 1000)) as [m [w [s' [E [_ [D [N _]]]]]]].
  - intros i [<-|[<-|[<-|[]]]]; reflexivity.
  - cbn. repeat constructor; cbn; intuition discriminate.
  - apply (Permutation_cons_append ["i-m"; "i-w1"]%string "i-w2"%string).
  - lia.
  - exists m, w, s'. split; [exact E|]. split; [exact D | exact N].
Defined.

Lemma resolver_discards_all_on_unexpected_instance_witness :
  exists s',
    wait_until_instances_active with_stranger 10 group_names 60 (initial 1000)
    = (Ok ([], []), s')
    /\ n_directory s' = 1%nat
    /\ ends_with (ELog Exception 325) s'.
Proof.
  apply (resolver_discards_all_on_unexpected_instance with_stranger 10
           group_names 60 (initial 1000)
           [ {| id := "i-m"; state := "pending";
                private_ip_address := "10.0.0.1" |} ]
           [ {| id := "i-w1"; state := "running";
                private_ip_address := "10.0.0.2" |} ]
           {| id := "i-x"; state := "running";
              private_ip_address := "10.0.0.9" |}).
  - reflexivity.
  - intros x [<-|[]]. vm_compute. discriminate.
  - reflexivity.
  - vm_compute. intuition discriminate.
  - lia.
Defined.

Lemma master_exits_on_incomplete_ledger_witness :
  exit_code (fst (main (delivered [master_notice]) 10 (Some master_cfg)
                    (initial 1000)))
  = Some 1.
Proof.
  pose (s1 := snd (check_instance_role_availability (delivered [master_notice])
                     10 "dl-role" 60
                     (push (ELog Info 475)
                        (push (ELog Info 459) (initial 1000))))).
  pose (w := wait_until_asg_success (delivered [master_notice]) 10 "mq" 60
               (push (ELog Info 353) s1)).
  refine (proj2 (master_exits_on_incomplete_ledger (delivered [master_notice])
                   10 master_cfg (initial 1000) true s1
                   [(JStr "stack-MasterASG-1",
                     notice "stack-MasterASG-1" "success" 1)]
                   (snd w) _ _ _ _));
    try (vm_compute; reflexivity).
  vm_compute. discriminate.
Defined.

Lemma master_fails_at_ledger_iteration_witness :
  exit_code (fst (main healthy_world 10 (Some master_cfg) (initial 1000)))
  = Some 1.
Proof.
  pose (s1 := snd (check_instance_role_availability healthy_world
                     10 "dl-role" 60
                     (push (ELog Info 475)
                        (push (ELog Info 459) (initial 1000))))).
  pose (w := wait_until_asg_success healthy_world 10 "mq" 60
               (push (ELog Info 353) s1)).
  refine (proj2 (proj2 (master_fails_at_ledger_iteration healthy_world
                          10 master_cfg (initial 1000) true s1
                          [(JStr "stack-MasterASG-1",
                            notice "stack-MasterASG-1" "success" 1);
                           (JStr "stack-WorkerASG-1",
                            notice "stack-WorkerASG-1" "success" 2)]
                          (snd w) _ _ _ _)));
    vm_compute; reflexivity.
Defined.

Lemma main_rejects_unknown_node_type_witness :
  exit_code (fst (main healthy_world 10 (Some gateway_cfg) (initial 1000)))
  = Some 1.
Proof.
  pose (s1 := snd (check_instance_role_availability healthy_world
                     10 "dl-role" 60
                     (push (ELog Info 475)
                        (push (ELog Info 459) (initial 1000))))).
  refine (proj2 (main_rejects_unknown_node_type healthy_world 10 gateway_cfg
                   (initial 1000) true s1 _ _ _)).
  - vm_compute. discriminate.
  - vm_compute. discriminate.
  - vm_compute. reflexivity.
Defined.

Lemma master_node_stops_at_the_ledger_witness :
  adds (master_reach_event master_cfg) (initial 1000)
    (snd (main healthy_world 10 (Some master_cfg) (initial 1000)))
  /\ environment_steps
       (snd (main healthy_world 10 (Some master_cfg) (initial 1000)))
     = [].
Proof.
  apply (master_node_stops_at_the_ledger healthy_world 10 master_cfg
           (initial 1000)).
  reflexivity.
Defined.



Lemma workers_count_is_number_of_addresses_witness :
  Files.count_lines
    (Files.workers
       (snd (Files.setup_env_variables cpu_box "10.0.0.1"
               ["10.0.0.1"; "10.0.0.2"; "10.0.0.3"]%string "ec2-user" "/efs"
               used_machine)))
  = 3%nat.
Proof.
  refine (proj1 (workers_count_is_number_of_addresses cpu_box "10.0.0.1"
                   ["10.0.0.1"; "10.0.0.2"; "10.0.0.3"]%string "ec2-user"
                   "/efs" used_machine 0 _)).
  reflexivity.
Defined.

Lemma environment_step_is_not_rolled_back_witness :
  fst (Files.setup_env_variables no_user_box "10.0.0.1"
         ["10.0.0.1"; "10.0.0.2"]%string "ec2-user" "/efs" used_machine)
  = Raise KeyError
  /\ fst (Files.setup_env_variables gpu_box "10.0.0.1"
            ["10.0.0.1"; "10.0.0.2"]%string "ec2-user" "/efs" used_machine)
     = Raise TypeError.
Proof.
  split.
  - refine (proj1 (proj2 (environment_step_is_not_rolled_back no_user_box
                            "10.0.0.1" ["10.0.0.1"; "10.0.0.2"]%string
                            "ec2-user" "/efs" used_machine) 0%nat _ _)).
    + reflexivity.
    + left. reflexivity.
  - refine (proj1 (proj1 (environment_step_is_not_rolled_back gpu_box
                            "10.0.0.1" ["10.0.0.1"; "10.0.0.2"]%string
                            "ec2-user" "/efs" used_machine) TypeError _)).
    reflexivity.
Defined.

Lemma gpu_count_is_never_positive_witness :
  Files.get_gpu_count gpu_box used_machine
  = (Raise TypeError, Files.logs Info 77 used_machine).
Proof.
  refine (proj1 (proj2 (gpu_count_is_never_positive gpu_box used_machine)
                   "p2.8xlarge"%string _ _ _ _)).
  - reflexivity.
  - cbn. tauto.
  - reflexivity.
Defined.
